(** * A shallow embedding of the healthcare-map facility store

    The development follows [ai.py]: the attribute codec
    ([_determine_attribute_type], [json.dumps], [_parse_attribute_value]),
    the SQLite-backed [DatabaseManager] (scoped transactions, the three
    relations and their constraints), the haversine distance, the search
    engine and the function dispatcher of [HealthcareMapAI].

    Python values are an inductive type, text is [string] (one [ascii] per
    code point, so the model covers code points below 256), floats are
    IEEE binary64 primitive floats, exceptions are an explicit outcome type
    and the database is threaded as explicit state. *)

From Stdlib Require Import ZArith NArith Bool List String Ascii Lia.
From Stdlib Require Import DecimalString DecimalZ DecimalFacts.
From Stdlib Require Import Floats.
Import ListNotations.

Local Open Scope list_scope.
Local Open Scope string_scope.

(* ================================================================== *)
(** * Python values, exceptions and the C runtime below CPython *)
(* ================================================================== *)

(** The exception classes the modelled paths can raise. A handler for
    [Exception] catches each of them, one for [json.JSONDecodeError] only
    that class. [OutsideModel] is no Python exception: it marks a run that
    leaves the embedded universe (a code point from 256 on, a keyword
    argument of a type the typed model excludes) and no handler catches it. *)
Inductive Exn : Type :=
| ValueError (msg : string)
| TypeError (msg : string)
| AttributeError (msg : string)
| JSONDecodeError (msg : string)
| IntegrityError (msg : string)
| OperationalError (msg : string)
| OverflowError (msg : string)
| RecursionError
| OutsideModel (what : string).

(** The result of running a piece of Python: a value or a raised exception. *)
Inductive Outcome (A : Type) : Type :=
| Returned (a : A)
| Raised (e : Exn).
Arguments Returned {A} a.
Arguments Raised {A} e.

Definition bind {A B} (m : Outcome A) (k : A -> Outcome B) : Outcome B :=
  match m with
  | Returned a => k a
  | Raised e => Raised e
  end.

Notation "x <- m ;; k" := (bind m (fun x => k))
  (at level 61, m at next level, right associativity).
Notation "' p <- m ;; k" := (bind m (fun x => match x with p => k end))
  (at level 61, p pattern, m at next level, right associativity).

Set Warnings "-register-all,-inexact-float".

(** Python values as far as the store handles them. A [PDict] keeps its items
    in insertion order; a well-formed one has pairwise distinct keys. *)
Inductive PyVal : Type :=
| PNone
| PBool (b : bool)
| PInt (z : Z)
| PFloat (f : float)
| PStr (s : string)
| PList (items : list PyVal)
| PDict (items : list (PyVal * PyVal)).

(** Whether a finite float [x] has exactly the integer value [z]. *)
Definition float_is_int (x : float) (z : Z) : bool :=
  match Prim2SF x with
  | S754_zero _ => Z.eqb z 0
  | S754_finite sign m e =>
      let mag := if sign then Z.opp (Z.pos m) else Z.pos m in
      if (0 <=? e)%Z then Z.eqb z (mag * 2 ^ e)
      else Z.eqb (z * 2 ^ (- e)) mag
  | _ => false
  end.

(** Python's [==] on these values: numbers compare by value across [bool],
    [int] and [float], lists item by item, dicts without regard to order. *)
Fixpoint py_eqb (a b : PyVal) : bool :=
  match a, b with
  | PNone, PNone => true
  | PBool x, PBool y => Bool.eqb x y
  | PBool x, PInt y => Z.eqb (if x then 1 else 0) y
  | PInt x, PBool y => Z.eqb x (if y then 1 else 0)
  | PInt x, PInt y => Z.eqb x y
  | PFloat x, PFloat y => PrimFloat.eqb x y
  | PFloat x, PInt y => float_is_int x y
  | PInt x, PFloat y => float_is_int y x
  | PFloat x, PBool y => float_is_int x (if y then 1 else 0)
  | PBool x, PFloat y => float_is_int y (if x then 1 else 0)
  | PStr x, PStr y => String.eqb x y
  | PList l, PList m =>
      (fix all2 (l : list PyVal) (m : list PyVal) : bool :=
         match l, m with
         | [], [] => true
         | x :: l', y :: m' => py_eqb x y && all2 l' m'
         | _, _ => false
         end) l m
  | PDict d, PDict e =>
      Nat.eqb (List.length d) (List.length e)
      && (fix all (d : list (PyVal * PyVal)) : bool :=
            match d with
            | [] => true
            | (k, x) :: d' =>
                match find (fun kv => py_eqb k (fst kv)) e with
                | Some (_, y) => py_eqb x y
                | None => false
                end && all d'
            end) d
  | _, _ => false
  end.

(** ** Characters and text *)

Definition dquote : ascii := "034"%char.
Definition backslash : ascii := "092"%char.
Definition code (c : ascii) : N := N_of_ascii c.

Definition is_digit (c : ascii) : bool := ((48 <=? code c) && (code c <=? 57))%N.

(** [str.isspace] on code points below 256. *)
Definition is_space (c : ascii) : bool :=
  let n := code c in
  (((9 <=? n) && (n <=? 13)) || ((28 <=? n) && (n <=? 32))
   || (n =? 133) || (n =? 160))%N.

(** [str.lower] on code points below 256. *)
Definition lower_char (c : ascii) : ascii :=
  let n := code c in
  if (((65 <=? n) && (n <=? 90))
      || ((192 <=? n) && (n <=? 222) && negb (n =? 215)))%N
  then ascii_of_N (n + 32) else c.

Fixpoint str_lower (s : string) : string :=
  match s with
  | EmptyString => EmptyString
  | String c r => String (lower_char c) (str_lower r)
  end.

Fixpoint lstrip (s : string) : string :=
  match s with
  | EmptyString => EmptyString
  | String c r => if is_space c then lstrip r else s
  end.

Fixpoint rstrip (s : string) : string :=
  match s with
  | EmptyString => EmptyString
  | String c r =>
      match rstrip r with
      | EmptyString => if is_space c then EmptyString else String c EmptyString
      | r' => String c r'
      end
  end.

Definition strip (s : string) : string := rstrip (lstrip s).

Fixpoint join (sep : string) (l : list string) : string :=
  match l with
  | [] => ""
  | [x] => x
  | x :: r => x ++ sep ++ join sep r
  end.

(** ** [int(str)] and [int.__repr__] *)

(** The digits of a decimal literal: it starts and ends with a digit, and a
    single underscore may stand between two digits. *)
Fixpoint int_digits (s : string) : option Decimal.uint :=
  match s with
  | EmptyString => None
  | String c r =>
      match r with
      | EmptyString => uint_of_char c (Some Decimal.Nil)
      | String u r' =>
          if Ascii.eqb u "_" then uint_of_char c (int_digits r')
          else uint_of_char c (int_digits r)
      end
  end.

(** [int(s)] in base 10; [None] is the [ValueError]. *)
Definition py_int (s : string) : option Z :=
  match strip s with
  | String "-" r => option_map (fun d => Z.opp (Z.of_uint d)) (int_digits r)
  | String "+" r => option_map Z.of_uint (int_digits r)
  | t => option_map Z.of_uint (int_digits t)
  end.

Definition int_repr (z : Z) : string := NilZero.string_of_int (Z.to_int z).

(** The text of a decimal numeral: digits only. *)
Fixpoint all_digits (s : string) : bool :=
  match s with
  | EmptyString => true
  | String c r => is_digit c && all_digits r
  end.

(* ================================================================== *)
(** * State: the persisted database, storage faults and the clock *)
(* ================================================================== *)

(** A computation over a state [S] that returns or raises. *)
Definition M (S A : Type) : Type := S -> Outcome A * S.

Definition ret {S A} (a : A) : M S A := fun s => (Returned a, s).
Definition raise {S A} (e : Exn) : M S A := fun s => (Raised e, s).
Definition lift {S A} (o : Outcome A) : M S A := fun s => (o, s).

Definition mbind {S A B} (m : M S A) (k : A -> M S B) : M S B :=
  fun s =>
    match m s with
    | (Returned a, s') => k a s'
    | (Raised e, s') => (Raised e, s')
    end.

Notation "x <~ m ;; k" := (mbind m (fun x => k))
  (at level 61, m at next level, right associativity).
Notation "m ;;; k" := (mbind m (fun _ => k))
  (at level 61, right associativity).

(** [for x in l: body x] *)
Fixpoint for_each {S X} (l : list X) (body : X -> M S unit) : M S unit :=
  match l with
  | [] => ret tt
  | x :: r => body x ;;; for_each r body
  end.

Definition is_python_exception (e : Exn) : bool :=
  match e with
  | OutsideModel _ => false
  | _ => true
  end.

(** [try: m  except Exception as e: handler e] *)
Definition try_except {S A} (m : M S A) (handler : Exn -> M S A) : M S A :=
  fun s =>
    match m s with
    | (Raised e, s') =>
        if is_python_exception e then handler e s' else (Raised e, s')
    | r => r
    end.

Module Sqlite.

(** ** The three relations of [_initialize_database]
    Rows are kept in insertion order, which stands for the order of the
    implicit integer keys. *)

Record FacilityRow : Type := {
  fac_id : string;
  fac_name : string;
  facility_type : string;
  address : string;
  latitude : float;
  longitude : float;
  rating : option float;
  phone : option string;
  created_at : string;
  updated_at : string
}.

Record ServiceRow : Type := {
  svc_facility_id : string;
  service_name : string
}.

Record AttributeRow : Type := {
  attr_facility_id : string;
  attribute_key : string;
  attribute_value : string;
  attribute_type : string
}.

Record Database : Type := {
  facilities : list FacilityRow;
  facility_services : list ServiceRow;
  facility_attributes : list AttributeRow
}.

Definition empty_db : Database :=
  {| facilities := []; facility_services := []; facility_attributes := [] |}.

(** The world outside the process: the committed database file, the storage
    faults still to come (one flag per call that reaches the storage:
    connecting, each executed statement, committing; [true] makes that call
    raise [OperationalError]; no flag left means no fault), and the clock as
    [CURRENT_TIMESTAMP] and as [strftime('%Y%m%d%H%M%S')] render it. *)
Record World : Type := {
  persisted : Database;
  faults : list bool;
  now : string;
  now_compact : string
}.

Definition with_persisted (w : World) (db : Database) : World :=
  {| persisted := db; faults := faults w; now := now w;
     now_compact := now_compact w |}.

Definition pop_fault (w : World) : bool * World :=
  match faults w with
  | [] => (false, w)
  | b :: r =>
      (b, {| persisted := persisted w; faults := r; now := now w;
             now_compact := now_compact w |})
  end.

(** An open connection: the uncommitted working copy and the connection's
    [foreign_keys] pragma. *)
Record Conn : Type := {
  world : World;
  work : Database;
  foreign_keys : bool
}.

Definition IO (A : Type) : Type := M World A.
Definition Tx (A : Type) : Type := M Conn A.

(** [sqlite3.connect]: a new connection has [foreign_keys] off, the default of
    SQLite, until a [PRAGMA foreign_keys = ON] is executed on it. *)
Definition connect (w : World) : Outcome Conn * World :=
  match pop_fault w with
  | (true, w') => (Raised (OperationalError "unable to open database file"), w')
  | (false, w') =>
      (Returned {| world := w'; work := persisted w'; foreign_keys := false |}, w')
  end.

(** [cursor.execute] of a statement that writes. *)
Definition execute (stmt : bool -> string -> Database -> Outcome Database)
  : Tx unit :=
  fun c =>
    match pop_fault (world c) with
    | (true, w') =>
        (Raised (OperationalError "disk I/O error"),
         {| world := w'; work := work c; foreign_keys := foreign_keys c |})
    | (false, w') =>
        match stmt (foreign_keys c) (now w') (work c) with
        | Returned db' =>
            (Returned tt,
             {| world := w'; work := db'; foreign_keys := foreign_keys c |})
        | Raised e =>
            (Raised e,
             {| world := w'; work := work c; foreign_keys := foreign_keys c |})
        end
    end.

(** [cursor.execute] of a [SELECT], with its [fetchone] or [fetchall]. *)
Definition query {A} (q : Database -> A) : Tx A :=
  fun c =>
    match pop_fault (world c) with
    | (true, w') =>
        (Raised (OperationalError "disk I/O error"),
         {| world := w'; work := work c; foreign_keys := foreign_keys c |})
    | (false, w') =>
        (Returned (q (work c)),
         {| world := w'; work := work c; foreign_keys := foreign_keys c |})
    end.

(** A call that opens a connection of its own while this one is open. *)
Definition nested {A} (m : IO A) : Tx A :=
  fun c =>
    let '(o, w') := m (world c) in
    (o, {| world := w'; work := work c; foreign_keys := foreign_keys c |}).

(** ** Statements *)

Definition has_service (fid svc : string) (db : Database) : bool :=
  existsb (fun r => String.eqb (svc_facility_id r) fid
                    && String.eqb (service_name r) svc)
          (facility_services db).

Definition has_facility (fid : string) (db : Database) : bool :=
  existsb (fun f => String.eqb (fac_id f) fid) (facilities db).

Definition services_of (fid : string) (db : Database) : list ServiceRow :=
  filter (fun r => String.eqb (svc_facility_id r) fid) (facility_services db).

Definition attributes_of (fid : string) (db : Database) : list AttributeRow :=
  filter (fun r => String.eqb (attr_facility_id r) fid) (facility_attributes db).

(** Removing the facility row [fid]; with [foreign_keys] on, the
    [ON DELETE CASCADE] clauses remove its services and attributes too. *)
Definition remove_facility (fk : bool) (fid : string) (db : Database) : Database :=
  {| facilities :=
       filter (fun f => negb (String.eqb (fac_id f) fid)) (facilities db);
     facility_services :=
       if fk
       then filter (fun r => negb (String.eqb (svc_facility_id r) fid))
                   (facility_services db)
       else facility_services db;
     facility_attributes :=
       if fk
       then filter (fun r => negb (String.eqb (attr_facility_id r) fid))
                   (facility_attributes db)
       else facility_attributes db |}.

(** [INSERT OR REPLACE INTO facilities (id, ..., phone, updated_at)
     VALUES (?, ..., ?, CURRENT_TIMESTAMP)]: a row with the same primary key is
    removed first; [created_at] takes its default. *)
Definition insert_or_replace_facility
    (fid name ftype addr : string) (lat lon : float)
    (rate : option float) (ph : option string)
    (fk : bool) (ts : string) (db : Database) : Outcome Database :=
  let db1 := remove_facility fk fid db in
  Returned
    {| facilities :=
         (facilities db1 ++
          [{| fac_id := fid; fac_name := name; facility_type := ftype;
              address := addr; latitude := lat; longitude := lon;
              rating := rate; phone := ph;
              created_at := ts; updated_at := ts |}])%list;
       facility_services := facility_services db1;
       facility_attributes := facility_attributes db1 |}.

(** [DELETE FROM facility_services WHERE facility_id = ?] *)
Definition delete_services (fid : string)
    (fk : bool) (ts : string) (db : Database) : Outcome Database :=
  Returned
    {| facilities := facilities db;
       facility_services :=
         filter (fun r => negb (String.eqb (svc_facility_id r) fid))
                (facility_services db);
       facility_attributes := facility_attributes db |}.

(** [INSERT INTO facility_services (facility_id, service_name) VALUES (?, ?)]
    under [UNIQUE(facility_id, service_name)] and the foreign key. *)
Definition insert_service (fid svc : string)
    (fk : bool) (ts : string) (db : Database) : Outcome Database :=
  if has_service fid svc db
  then Raised (IntegrityError
         "UNIQUE constraint failed: facility_services.facility_id, facility_services.service_name")
  else if fk && negb (has_facility fid db)
  then Raised (IntegrityError "FOREIGN KEY constraint failed")
  else Returned
    {| facilities := facilities db;
       facility_services :=
         (facility_services db ++
          [{| svc_facility_id := fid; service_name := svc |}])%list;
       facility_attributes := facility_attributes db |}.

(** [DELETE FROM facility_attributes WHERE facility_id = ?] *)
Definition delete_attributes (fid : string)
    (fk : bool) (ts : string) (db : Database) : Outcome Database :=
  Returned
    {| facilities := facilities db;
       facility_services := facility_services db;
       facility_attributes :=
         filter (fun r => negb (String.eqb (attr_facility_id r) fid))
                (facility_attributes db) |}.

Definition same_attribute (fid key : string) (r : AttributeRow) : bool :=
  String.eqb (attr_facility_id r) fid && String.eqb (attribute_key r) key.

Definition has_attribute (fid key : string) (db : Database) : bool :=
  existsb (same_attribute fid key) (facility_attributes db).

(** [INSERT INTO facility_attributes (facility_id, attribute_key,
     attribute_value, attribute_type) VALUES (?, ?, ?, ?)]
    under [UNIQUE(facility_id, attribute_key)] and the foreign key. *)
Definition insert_attribute (fid key value_str attr_type : string)
    (fk : bool) (ts : string) (db : Database) : Outcome Database :=
  if has_attribute fid key db
  then Raised (IntegrityError
         "UNIQUE constraint failed: facility_attributes.facility_id, facility_attributes.attribute_key")
  else if fk && negb (has_facility fid db)
  then Raised (IntegrityError "FOREIGN KEY constraint failed")
  else Returned
    {| facilities := facilities db;
       facility_services := facility_services db;
       facility_attributes :=
         (facility_attributes db ++
          [{| attr_facility_id := fid; attribute_key := key;
              attribute_value := value_str; attribute_type := attr_type |}])%list |}.

(** [INSERT OR REPLACE INTO facility_attributes ...]: a row with the same
    facility and key is removed first. *)
Definition insert_or_replace_attribute (fid key value_str attr_type : string)
    (fk : bool) (ts : string) (db : Database) : Outcome Database :=
  if fk && negb (has_facility fid db)
  then Raised (IntegrityError "FOREIGN KEY constraint failed")
  else Returned
    {| facilities := facilities db;
       facility_services := facility_services db;
       facility_attributes :=
         (filter (fun r => negb (same_attribute fid key r))
                 (facility_attributes db) ++
          [{| attr_facility_id := fid; attribute_key := key;
              attribute_value := value_str; attribute_type := attr_type |}])%list |}.

(** [UPDATE facilities SET updated_at = CURRENT_TIMESTAMP WHERE id = ?] *)
Definition touch_facility (fid : string)
    (fk : bool) (ts : string) (db : Database) : Outcome Database :=
  Returned
    {| facilities :=
         map (fun f =>
                if String.eqb (fac_id f) fid
                then {| fac_id := fac_id f; fac_name := fac_name f;
                        facility_type := facility_type f; address := address f;
                        latitude := latitude f; longitude := longitude f;
                        rating := rating f; phone := phone f;
                        created_at := created_at f; updated_at := ts |}
                else f)
             (facilities db);
       facility_services := facility_services db;
       facility_attributes := facility_attributes db |}.

(** [DELETE FROM facilities WHERE id = ?] *)
Definition delete_facility_row (fid : string)
    (fk : bool) (ts : string) (db : Database) : Outcome Database :=
  Returned (remove_facility fk fid db).

(** ** Queries *)

(** [SELECT * FROM facilities WHERE id = ?], [fetchone] *)
Definition select_facility (fid : string) (db : Database) : option FacilityRow :=
  find (fun f => String.eqb (fac_id f) fid) (facilities db).

Fixpoint insert_sorted (x : string) (l : list string) : list string :=
  match l with
  | [] => [x]
  | y :: r => if String.leb x y then x :: l else y :: insert_sorted x r
  end.

Definition sort_strings (l : list string) : list string :=
  fold_right insert_sorted [] l.

(** [SELECT service_name FROM facility_services WHERE facility_id = ?
     ORDER BY service_name] *)
Definition select_services (fid : string) (db : Database) : list string :=
  sort_strings (map service_name (services_of fid db)).

(** [SELECT attribute_key, attribute_value, attribute_type
     FROM facility_attributes WHERE facility_id = ?] *)
Definition select_attributes (fid : string) (db : Database) : list AttributeRow :=
  attributes_of fid db.

(** [SELECT id FROM facilities] *)
Definition select_ids (db : Database) : list string :=
  map fac_id (facilities db).

(** The [LIKE] operator: [%] stands for any text, [_] for any one character,
    and letters from A to Z match without regard to case. *)
Definition fold_case (c : ascii) : ascii :=
  let n := code c in
  if ((65 <=? n) && (n <=? 90))%N then ascii_of_N (n + 32) else c.

Fixpoint like (pattern text : string) : bool :=
  match pattern with
  | EmptyString =>
      match text with
      | EmptyString => true
      | _ => false
      end
  | String p pattern' =>
      if Ascii.eqb p "%" then
        (fix any (t : string) : bool :=
           like pattern' t ||
           match t with
           | EmptyString => false
           | String _ t' => any t'
           end) text
      else
        match text with
        | EmptyString => false
        | String c text' =>
            (Ascii.eqb p "_" || Ascii.eqb (fold_case p) (fold_case c))
            && like pattern' text'
        end
  end.

Definition contains_pattern (s : string) : string := "%" ++ s ++ "%".

End Sqlite.

(** What CPython takes from the C runtime: libm, and the conversions between
    floats and text ([float.__repr__] and [float(str)], whose [None] stands
    for the [ValueError] of an unparsable text). *)
Class Platform : Type := {
  c_sin : float -> float;
  c_cos : float -> float;
  c_asin : float -> float;
  c_pow : float -> float -> float;
  float_repr : float -> string;
  float_of_str : string -> option float
}.

(* ================================================================== *)
(** * The [json] module: [json.dumps] and [json.loads] *)
(* ================================================================== *)

Module Json.
Section Json.
Context {rt : Platform}.

(** ** Encoder ([json.encoder], default options: [ensure_ascii],
       separators [", "] and [": "], [allow_nan]) *)

Definition hex_digit (n : N) : ascii :=
  if (n <? 10)%N then ascii_of_N (48 + n) else ascii_of_N (87 + n).

(** [ESCAPE_DCT] and the [\uXXXX] fallback of [encode_basestring_ascii]. *)
Definition escape_char (c : ascii) : string :=
  let n := code c in
  if (n =? 34)%N then String backslash (String dquote "")
  else if (n =? 92)%N then String backslash (String backslash "")
  else if (n =? 10)%N then String backslash "n"
  else if (n =? 13)%N then String backslash "r"
  else if (n =? 9)%N then String backslash "t"
  else if (n =? 8)%N then String backslash "b"
  else if (n =? 12)%N then String backslash "f"
  else if ((32 <=? n) && (n <=? 126))%N then String c ""
  else String backslash
         (String "u" (String "0" (String "0"
            (String (hex_digit (n / 16)) (String (hex_digit (n mod 16)) ""))))).

Fixpoint escape_body (s : string) : string :=
  match s with
  | EmptyString => EmptyString
  | String c r => escape_char c ++ escape_body r
  end.

Definition encode_basestring_ascii (s : string) : string :=
  String dquote (escape_body s ++ String dquote "").

(** [floatstr]: the three constants, else [float.__repr__]. *)
Definition floatstr (f : float) : string :=
  if PrimFloat.is_nan f then "NaN"
  else if PrimFloat.eqb f infinity then "Infinity"
  else if PrimFloat.eqb f neg_infinity then "-Infinity"
  else float_repr f.

(** The text of a dict key: a [str] is taken as it is, the other scalars are
    turned into text; any other key is a [TypeError] (see [serializable]). *)
Definition key_text (k : PyVal) : string :=
  match k with
  | PStr s => s
  | PFloat f => floatstr f
  | PBool true => "true"
  | PBool false => "false"
  | PNone => "null"
  | PInt z => int_repr z
  | _ => ""
  end.

Definition key_ok (k : PyVal) : bool :=
  match k with
  | PList _ | PDict _ => false
  | _ => true
  end.

Fixpoint serializable (v : PyVal) : bool :=
  match v with
  | PList l => forallb serializable l
  | PDict d =>
      forallb (fun kv => let '(k, x) := kv in key_ok k && serializable x) d
  | _ => true
  end.

Fixpoint render (v : PyVal) : string :=
  match v with
  | PNone => "null"
  | PBool true => "true"
  | PBool false => "false"
  | PInt z => int_repr z
  | PFloat f => floatstr f
  | PStr s => encode_basestring_ascii s
  | PList l => "[" ++ join ", " (map render l) ++ "]"
  | PDict d =>
      "{" ++ join ", "
               (map (fun kv => let '(k, x) := kv in
                       encode_basestring_ascii (key_text k) ++ ": " ++ render x) d)
          ++ "}"
  end.

Fixpoint distinct (l : list string) : bool :=
  match l with
  | [] => true
  | x :: r => negb (existsb (String.eqb x) r) && distinct r
  end.

(** The values JSON text denotes without loss, floats left aside: [None],
    [bool], [int], [str], lists, and dicts whose keys are pairwise distinct
    strings. *)
Fixpoint plain (v : PyVal) : bool :=
  match v with
  | PFloat _ => false
  | PList l => forallb plain l
  | PDict d =>
      forallb (fun kv => let '(k, x) := kv in
                 match k with
                 | PStr _ => plain x
                 | _ => false
                 end) d
      && distinct (map (fun kv => key_text (fst kv)) d)
  | _ => true
  end.

Definition dumps (v : PyVal) : Outcome string :=
  if serializable v then Returned (render v)
  else Raised (TypeError "keys must be str, int, float, bool or None").

(** ** Decoder ([json.decoder], [json.scanner])
    The interpreter's recursion limit and the digit limit of [int()] are not
    modelled: nesting and numerals may be as long as the text. *)

Definition is_ws (c : ascii) : bool :=
  let n := code c in ((n =? 32) || (n =? 9) || (n =? 10) || (n =? 13))%N.

Fixpoint skip_ws (s : string) : string :=
  match s with
  | EmptyString => EmptyString
  | String c r => if is_ws c then skip_ws r else s
  end.

Definition hex_value (c : ascii) : option N :=
  let n := code c in
  if ((48 <=? n) && (n <=? 57))%N then Some (n - 48)%N
  else if ((97 <=? n) && (n <=? 102))%N then Some (n - 87)%N
  else if ((65 <=? n) && (n <=? 70))%N then Some (n - 55)%N
  else None.

Definition hex4 (a b c d : ascii) : option N :=
  match hex_value a, hex_value b, hex_value c, hex_value d with
  | Some x, Some y, Some z, Some w => Some (((x * 16 + y) * 16 + z) * 16 + w)%N
  | _, _, _, _ => None
  end.

(** The [BACKSLASH] table. *)
Definition unescape (e : ascii) : option ascii :=
  let n := code e in
  if (n =? 34)%N then Some dquote
  else if (n =? 92)%N then Some backslash
  else if (n =? 47)%N then Some "/"%char
  else if (n =? 98)%N then Some "008"%char
  else if (n =? 102)%N then Some "012"%char
  else if (n =? 110)%N then Some "010"%char
  else if (n =? 114)%N then Some "013"%char
  else if (n =? 116)%N then Some "009"%char
  else None.

(** [scanstring] (strict): the text after the opening quote, up to and
    including the closing one. An escape denoting a code point from 256 on is
    outside the model's text. *)
Fixpoint scanstring (s : string) : Outcome (string * string) :=
  match s with
  | EmptyString => Raised (JSONDecodeError "Unterminated string starting at")
  | String c r =>
      if Ascii.eqb c dquote then Returned (EmptyString, r)
      else if Ascii.eqb c backslash then
        match r with
        | EmptyString => Raised (JSONDecodeError "Unterminated string starting at")
        | String e r1 =>
            if Ascii.eqb e "u" then
              match r1 with
              | String h1 (String h2 (String h3 (String h4 r2))) =>
                  match hex4 h1 h2 h3 h4 with
                  | Some n =>
                      if (n <? 256)%N then
                        '(t, rest) <- scanstring r2 ;;
                        Returned (String (ascii_of_N n) t, rest)
                      else Raised (OutsideModel "code point above 255")
                  | None => Raised (JSONDecodeError "Invalid unicode escape")
                  end
              | _ => Raised (JSONDecodeError "Invalid unicode escape")
              end
            else
              match unescape e with
              | Some ch =>
                  '(t, rest) <- scanstring r1 ;; Returned (String ch t, rest)
              | None => Raised (JSONDecodeError "Invalid escape")
              end
        end
      else if (code c <? 32)%N then
        Raised (JSONDecodeError "Invalid control character at")
      else '(t, rest) <- scanstring r ;; Returned (String c t, rest)
  end.

Fixpoint span_digits (s : string) : string * string :=
  match s with
  | EmptyString => (EmptyString, EmptyString)
  | String c r =>
      if is_digit c then let '(ds, rest) := span_digits r in (String c ds, rest)
      else (EmptyString, s)
  end.

(** [NUMBER_RE]: an optional minus and either a single 0 or a digit from 1 to
    9 with any digits after it; then an optional fraction (a dot and at least
    one digit); then an optional exponent (e or E, an optional sign, at least
    one digit). The three groups and the rest of the text are returned. *)
Definition match_integer (s : string) : option (string * string) :=
  let '(sign, r) :=
    match s with
    | String "-" r => ("-", r)
    | _ => ("", s)
    end in
  match r with
  | String c r' =>
      if Ascii.eqb c "0" then Some (sign ++ "0", r')
      else if is_digit c then
        let '(ds, rest) := span_digits r in Some (sign ++ ds, rest)
      else None
  | EmptyString => None
  end.

Definition match_frac (s : string) : string * string :=
  match s with
  | String "." r =>
      match span_digits r with
      | (EmptyString, _) => (EmptyString, s)
      | (ds, rest) => (String "." ds, rest)
      end
  | _ => (EmptyString, s)
  end.

Definition match_exp (s : string) : string * string :=
  match s with
  | String c r =>
      if Ascii.eqb c "e" || Ascii.eqb c "E" then
        let '(sg, r1) :=
          match r with
          | String "-" r1 => ("-", r1)
          | String "+" r1 => ("+", r1)
          | _ => ("", r)
          end in
        match span_digits r1 with
        | (EmptyString, _) => (EmptyString, s)
        | (ds, rest) => (String c (sg ++ ds), rest)
        end
      else (EmptyString, s)
  | EmptyString => (EmptyString, s)
  end.

Definition match_number (s : string) : option (string * string * string * string) :=
  match match_integer s with
  | None => None
  | Some (i, r) =>
      let '(f, r1) := match_frac r in
      let '(e, r2) := match_exp r1 in
      Some (i, f, e, r2)
  end.

Definition scan_number (s : string) : option (Outcome (PyVal * string)) :=
  match match_number s with
  | None => None
  | Some (i, f, e, rest) =>
      Some (match f, e with
            | EmptyString, EmptyString =>
                match py_int i with
                | Some z => Returned (PInt z, rest)
                | None => Raised (ValueError "invalid literal for int()")
                end
            | _, _ =>
                match float_of_str (i ++ f ++ e) with
                | Some x => Returned (PFloat x, rest)
                | None => Raised (ValueError "could not convert string to float")
                end
            end)
  end.

Fixpoint strip_prefix (p s : string) : option string :=
  match p with
  | EmptyString => Some s
  | String a p' =>
      match s with
      | String b s' => if Ascii.eqb a b then strip_prefix p' s' else None
      | EmptyString => None
      end
  end.

(** [dict(pairs)] for string keys: a later pair with a key already present
    replaces the value and keeps the key's place. *)
Fixpoint dict_set (k : string) (x : PyVal) (d : list (PyVal * PyVal))
  : list (PyVal * PyVal) :=
  match d with
  | [] => [(PStr k, x)]
  | (PStr k', y) :: r =>
      if String.eqb k k' then (PStr k', x) :: r else (PStr k', y) :: dict_set k x r
  | kv :: r => kv :: dict_set k x r
  end.

Definition expecting_value : Exn := JSONDecodeError "Expecting value".

(** The loop of [JSONArray], entered at the first item. *)
Fixpoint array_items (scan : string -> Outcome (PyVal * string))
    (fuel : nat) (s : string) (acc : list PyVal) : Outcome (PyVal * string) :=
  match fuel with
  | O => Raised RecursionError
  | S fuel' =>
      '(v, r) <- scan s ;;
      match skip_ws r with
      | String c r' =>
          if Ascii.eqb c "]" then Returned (PList (acc ++ [v])%list, r')
          else if Ascii.eqb c "," then
            array_items scan fuel' (skip_ws r') (acc ++ [v])%list
          else Raised (JSONDecodeError "Expecting ',' delimiter")
      | EmptyString => Raised (JSONDecodeError "Expecting ',' delimiter")
      end
  end.

(** The loop of [JSONObject], entered after the opening quote of a key. *)
Fixpoint object_items (scan : string -> Outcome (PyVal * string))
    (fuel : nat) (s : string) (acc : list (PyVal * PyVal))
  : Outcome (PyVal * string) :=
  match fuel with
  | O => Raised RecursionError
  | S fuel' =>
      '(k, r) <- scanstring s ;;
      match skip_ws r with
      | String c r1 =>
          if Ascii.eqb c ":" then
            '(v, r2) <- scan (skip_ws r1) ;;
            match skip_ws r2 with
            | String c' r3 =>
                if Ascii.eqb c' "}" then Returned (PDict (dict_set k v acc), r3)
                else if Ascii.eqb c' "," then
                  match skip_ws r3 with
                  | String q r4 =>
                      if Ascii.eqb q dquote
                      then object_items scan fuel' r4 (dict_set k v acc)
                      else Raised (JSONDecodeError
                             "Expecting property name enclosed in double quotes")
                  | EmptyString =>
                      Raised (JSONDecodeError
                        "Expecting property name enclosed in double quotes")
                  end
                else Raised (JSONDecodeError "Expecting ',' delimiter")
            | EmptyString => Raised (JSONDecodeError "Expecting ',' delimiter")
            end
          else Raised (JSONDecodeError "Expecting ':' delimiter")
      | EmptyString => Raised (JSONDecodeError "Expecting ':' delimiter")
      end
  end.

(** [scan_once]. The fuel bounds the nesting depth and the number of items
    of one container; [loads] gives as much as the text is long. *)
Fixpoint scan_once (fuel : nat) (s : string) : Outcome (PyVal * string) :=
  match fuel with
  | O => Raised RecursionError
  | S fuel' =>
      match s with
      | EmptyString => Raised expecting_value
      | String c r =>
          if Ascii.eqb c dquote then
            '(t, rest) <- scanstring r ;; Returned (PStr t, rest)
          else if Ascii.eqb c "{" then
            match skip_ws r with
            | String q r1 =>
                if Ascii.eqb q "}" then Returned (PDict [], r1)
                else if Ascii.eqb q dquote
                then object_items (scan_once fuel') fuel' r1 []
                else Raised (JSONDecodeError
                       "Expecting property name enclosed in double quotes")
            | EmptyString =>
                Raised (JSONDecodeError
                  "Expecting property name enclosed in double quotes")
            end
          else if Ascii.eqb c "[" then
            match skip_ws r with
            | String q r1 =>
                if Ascii.eqb q "]" then Returned (PList [], r1)
                else array_items (scan_once fuel') fuel' (skip_ws r) []
            | EmptyString => Raised expecting_value
            end
          else
            match strip_prefix "null" s, strip_prefix "true" s,
                  strip_prefix "false" s with
            | Some rest, _, _ => Returned (PNone, rest)
            | _, Some rest, _ => Returned (PBool true, rest)
            | _, _, Some rest => Returned (PBool false, rest)
            | None, None, None =>
                match scan_number s with
                | Some o => o
                | None =>
                    match strip_prefix "NaN" s, strip_prefix "Infinity" s,
                          strip_prefix "-Infinity" s with
                    | Some rest, _, _ => Returned (PFloat nan, rest)
                    | _, Some rest, _ => Returned (PFloat infinity, rest)
                    | _, _, Some rest => Returned (PFloat neg_infinity, rest)
                    | None, None, None => Raised expecting_value
                    end
                end
            end
      end
  end.

(** [json.loads]: one value between optional whitespace, nothing after it. *)
Definition loads (s : string) : Outcome PyVal :=
  '(v, rest) <- scan_once (S (String.length s)) (skip_ws s) ;;
  match skip_ws rest with
  | EmptyString => Returned v
  | _ => Raised (JSONDecodeError "Extra data")
  end.

(** ** The shape of rendered text *)

(** What may follow a value inside a rendered text. *)
Definition delimited (rest : string) : bool :=
  match rest with
  | EmptyString => true
  | String c _ => Ascii.eqb c "," || Ascii.eqb c "]" || Ascii.eqb c "}"
  end.

(** The characters a rendered value starts with. *)
Definition value_start (c : ascii) : bool :=
  is_digit c || Ascii.eqb c "-" || Ascii.eqb c dquote || Ascii.eqb c "["
  || Ascii.eqb c "{" || Ascii.eqb c "n" || Ascii.eqb c "t" || Ascii.eqb c "f".

Definition starts_value (s : string) : bool :=
  match s with
  | EmptyString => false
  | String c _ => value_start c
  end.

Definition key_strings (d : list (PyVal * PyVal)) : list string :=
  map (fun kv => key_text (fst kv)) d.

Definition string_keyed (d : list (PyVal * PyVal)) : bool :=
  forallb (fun kv => match fst kv with PStr _ => true | _ => false end) d.

(** One rendered item of a dict, and the items after the opening quote of
    the first key. *)
Definition item_text (kv : PyVal * PyVal) : string :=
  let '(k, x) := kv in encode_basestring_ascii (key_text k) ++ ": " ++ render x.

Fixpoint items_text (d : list (PyVal * PyVal)) : string :=
  match d with
  | [] => ""
  | kv :: d' =>
      escape_body (key_text (fst kv))
      ++ String dquote (": " ++ render (snd kv))
      ++ match d' with
         | [] => ""
         | _ => ", " ++ String dquote (items_text d')
         end
  end.

(** The dict [JSONObject] builds from the items [d] on top of [acc]. *)
Definition build (d acc : list (PyVal * PyVal)) : list (PyVal * PyVal) :=
  fold_left (fun a kv => dict_set (key_text (fst kv)) (snd kv) a) d acc.

End Json.
End Json.

(* ================================================================== *)
(** * [class DatabaseManager] *)
(* ================================================================== *)

Module DatabaseManager.
Import Sqlite.
Section DatabaseManager.
Context {rt : Platform}.

(** [@contextmanager get_connection]: connect, run the body of the [with]
    block, commit; any exception (of the body or of the commit) rolls the
    transaction back and is raised again. *)
Definition get_connection {A} (body : Tx A) : IO A :=
  fun w =>
    match connect w with
    | (Raised e, w') => (Raised e, w')
    | (Returned conn, _) =>
        match body conn with
        | (Returned a, c') =>
            match pop_fault (world c') with
            | (true, w2) => (Raised (OperationalError "disk I/O error"), w2)
            | (false, w2) => (Returned a, with_persisted w2 (work c'))
            end
        | (Raised e, c') => (Raised e, world c')
        end
    end.

(** ** The attribute codec *)

Definition _determine_attribute_type (value : PyVal) : string :=
  match value with
  | PBool _ => "boolean"
  | PInt _ => "integer"
  | PFloat _ => "float"
  | PDict _ | PList _ => "json"
  | _ => "text"
  end.

(** [json.dumps(value) if not isinstance(value, str) else value] *)
Definition value_text (value : PyVal) : Outcome string :=
  match value with
  | PStr s => Returned s
  | _ => Json.dumps value
  end.

Definition _parse_attribute_value (value_str attr_type : string) : Outcome PyVal :=
  if String.eqb attr_type "json" then
    match Json.loads value_str with
    | Raised (JSONDecodeError _) => Returned (PStr value_str)
    | o => o
    end
  else if String.eqb attr_type "boolean" then
    Returned (PBool (String.eqb (str_lower value_str) "true"))
  else if String.eqb attr_type "integer" then
    match py_int value_str with
    | Some z => Returned (PInt z)
    | None => Raised (ValueError "invalid literal for int() with base 10")
    end
  else if String.eqb attr_type "float" then
    match float_of_str value_str with
    | Some x => Returned (PFloat x)
    | None => Raised (ValueError "could not convert string to float")
    end
  else Returned (PStr value_str).

(** Encoding a value as [add_facility] and [update_facility_attribute] store
    it, then decoding the stored pair as [get_facility] does. *)
Definition encode_decode (value : PyVal) : Outcome PyVal :=
  value_str <- value_text value ;;
  _parse_attribute_value value_str (_determine_attribute_type value).

(** The values of the five kinds on which the codec is exact: any [bool],
    [int] or [str]; a [float] other than NaN (which equals nothing, itself
    included) whose text the platform reads back as itself; a list or dict
    that is plain JSON. *)
Definition exact_value (value : PyVal) : Prop :=
  match value with
  | PBool _ | PInt _ | PStr _ => True
  | PFloat x =>
      PrimFloat.is_nan x = false /\ float_of_str (Json.floatstr x) = Some x
  | PList _ | PDict _ => Json.plain value = true
  | PNone => False
  end.

(** The text stored for a value that [value_text] accepts. *)
Definition stored_text (value : PyVal) : string :=
  match value_text value with
  | Returned s => s
  | Raised _ => ""
  end.



(** ** [add_facility]
    The dict [attributes] is the list of its items; two items with one key,
    which a dict cannot hold, would fail on the [UNIQUE] constraint. *)

Definition add_facility
    (facility_id name ftype addr : string) (lat lon : float)
    (services : list string) (rate : option float) (ph : option string)
    (attributes : option (list (string * PyVal))) : IO bool :=
  try_except
    (get_connection
       (execute (insert_or_replace_facility
                   facility_id name ftype addr lat lon rate ph) ;;;
        execute (delete_services facility_id) ;;;
        for_each services
          (fun service => execute (insert_service facility_id service)) ;;;
        execute (delete_attributes facility_id) ;;;
        match attributes with
        | Some ((_ :: _) as items) =>
            for_each items
              (fun kv =>
                 let '(key, value) := kv in
                 let attr_type := _determine_attribute_type value in
                 value_str <~ lift (value_text value) ;;
                 execute (insert_attribute facility_id key value_str attr_type))
        | _ => ret tt
        end ;;;
        ret true))
    (fun _ => ret false).

(** ** [get_facility] *)

(** The dict [get_facility] returns: the columns of the row, ['services'],
    ['attributes'] and, once [search_facilities] has set it,
    ['distance_miles']. *)
Record Facility : Type := {
  row : FacilityRow;
  services : list string;
  attributes : list (string * PyVal);
  distance_miles : option float
}.

(** [attributes[key] = value] *)
Fixpoint attr_set (key : string) (value : PyVal) (d : list (string * PyVal))
  : list (string * PyVal) :=
  match d with
  | [] => [(key, value)]
  | (k, old) :: r =>
      if String.eqb key k then (k, value) :: r else (k, old) :: attr_set key value r
  end.

Fixpoint parse_rows (rows : list AttributeRow) (attributes : list (string * PyVal))
  : Outcome (list (string * PyVal)) :=
  match rows with
  | [] => Returned attributes
  | r :: rest =>
      value <- _parse_attribute_value (attribute_value r) (attribute_type r) ;;
      parse_rows rest (attr_set (attribute_key r) value attributes)
  end.

Definition get_facility (facility_id : string) : IO (option Facility) :=
  try_except
    (get_connection
       (found <~ query (select_facility facility_id) ;;
        match found with
        | None => ret None
        | Some r =>
            names <~ query (select_services facility_id) ;;
            attr_rows <~ query (select_attributes facility_id) ;;
            attrs <~ lift (parse_rows attr_rows []) ;;
            ret (Some {| row := r; services := names; attributes := attrs;
                         distance_miles := None |})
        end))
    (fun _ => ret None).

(** ** [_calculate_distance] *)

(** [math_1] of [mathmodule.c]: a NaN from an argument that is none, or an
    infinity from a finite argument, is a [ValueError]. *)
Definition math_1 (f : float -> float) (x : float) : Outcome float :=
  let r := f x in
  if PrimFloat.is_nan r && negb (PrimFloat.is_nan x)
  then Raised (ValueError "math domain error")
  else if PrimFloat.is_infinity r && PrimFloat.is_finite x
  then Raised (ValueError "math domain error")
  else Returned r.

Definition math_sin : float -> Outcome float := math_1 c_sin.
Definition math_cos : float -> Outcome float := math_1 c_cos.
(** C's [asin] returns a NaN outside of [-1, 1] (a domain error); inside, the
    platform's value. *)
Definition libm_asin (x : float) : float :=
  if PrimFloat.ltb 1%float (PrimFloat.abs x) then nan else c_asin x.

Definition math_asin : float -> Outcome float := math_1 libm_asin.
Definition math_sqrt : float -> Outcome float := math_1 PrimFloat.sqrt.

(** [math.radians]: the product with the double nearest to pi / 180. *)
Definition deg_to_rad : float := 0x1.1df46a2529d39p-6%float.
Definition math_radians (x : float) : float := (x * deg_to_rad)%float.

(** [x ** 2] on a float: C's [pow], an overflow being an [OverflowError]. *)
Definition float_pow (x y : float) : Outcome float :=
  let r := c_pow x y in
  if PrimFloat.is_infinity r && PrimFloat.is_finite x
  then Raised (OverflowError "(34, 'Numerical result out of range')")
  else Returned r.

(** The haversine term [a]. *)
Definition haversine_a (lat1 lon1 lat2 lon2 : float) : Outcome float :=
  let dlat := math_radians (lat2 - lat1)%float in
  let dlon := math_radians (lon2 - lon1)%float in
  s1 <- math_sin (dlat / 2)%float ;;
  p1 <- float_pow s1 2%float ;;
  c1 <- math_cos (math_radians lat1) ;;
  c2 <- math_cos (math_radians lat2) ;;
  s2 <- math_sin (dlon / 2)%float ;;
  p2 <- float_pow s2 2%float ;;
  Returned (p1 + c1 * c2 * p2)%float.

Definition _calculate_distance (lat1 lon1 lat2 lon2 : float) : Outcome float :=
  let R := 3959%float in
  a <- haversine_a lat1 lon1 lat2 lon2 ;;
  q <- math_sqrt a ;;
  t <- math_asin q ;;
  let c := (2 * t)%float in
  Returned (R * c)%float.

(** ** [search_facilities] *)

(** [if s:] on an optional text, [if x:] on an optional float *)
Definition truthy_str (o : option string) : option string :=
  match o with
  | Some EmptyString => None
  | _ => o
  end.

Definition truthy_float (o : option float) : option float :=
  match o with
  | Some x => if PrimFloat.eqb x 0%float then None else Some x
  | None => None
  end.

(** [latitude and longitude], as the pair when both are truthy *)
Definition reference_point (latitude longitude : option float)
  : option (float * float) :=
  match truthy_float latitude, truthy_float longitude with
  | Some lat, Some lon => Some (lat, lon)
  | _, _ => None
  end.

(** The [WHERE] clause over the joins: each joined relation has to hold a
    matching row of the facility. The values of [attribute_filters] are
    texts, on which [str(attr_value)] is the identity. *)
Definition matches (ftype service : option string) (min_rating : option float)
    (attribute_filters : option (list (string * string)))
    (db : Database) (f : FacilityRow) : bool :=
  match truthy_str ftype with
  | Some t => String.eqb (facility_type f) t
  | None => true
  end
  && match truthy_str service with
     | Some s =>
         existsb (fun r => like (contains_pattern s) (service_name r))
                 (services_of (fac_id f) db)
     | None => true
     end
  && match min_rating with
     | Some m =>
         match rating f with
         | Some x => PrimFloat.leb m x
         | None => false
         end
     | None => true
     end
  && match attribute_filters with
     | Some filters =>
         forallb (fun kv =>
                    let '(attr_key, attr_value) := kv in
                    existsb (fun r => String.eqb (attribute_key r) attr_key
                                      && like (contains_pattern attr_value)
                                              (attribute_value r))
                            (attributes_of (fac_id f) db))
                 filters
     | None => true
     end.

(** [SELECT DISTINCT f.* FROM facilities f ... WHERE ...], [fetchall].
    SQL leaves the order of the result open; the rows come in table order. *)
Definition select_matching (ftype service : option string)
    (min_rating : option float)
    (attribute_filters : option (list (string * string)))
    (db : Database) : list FacilityRow :=
  filter (matches ftype service min_rating attribute_filters db) (facilities db).

Definition with_distance (f : Facility) (d : float) : Facility :=
  {| row := row f; services := services f; attributes := attributes f;
     distance_miles := Some d |}.

(** The loop over the fetched rows. *)
Fixpoint collect (rows : list FacilityRow)
    (latitude longitude max_distance_miles : option float)
    (facilities : list Facility) : Tx (list Facility) :=
  match rows with
  | [] => ret facilities
  | r :: rest =>
      found <~ nested (get_facility (fac_id r)) ;;
      match found with
      | None => collect rest latitude longitude max_distance_miles facilities
      | Some facility =>
          match reference_point latitude longitude with
          | Some (lat, lon) =>
              distance <~ lift (_calculate_distance lat lon
                                  (Sqlite.latitude (row facility))
                                  (Sqlite.longitude (row facility))) ;;
              let facility' := with_distance facility distance in
              match truthy_float max_distance_miles with
              | Some m =>
                  if PrimFloat.ltb m distance
                  then collect rest latitude longitude max_distance_miles facilities
                  else collect rest latitude longitude max_distance_miles
                         (facilities ++ [facility'])%list
              | None =>
                  collect rest latitude longitude max_distance_miles
                    (facilities ++ [facility'])%list
              end
          | None =>
              collect rest latitude longitude max_distance_miles
                (facilities ++ [facility])%list
          end
      end
  end.

(** [x.get('distance_miles', float('inf'))] *)
Definition sort_key (f : Facility) : float :=
  match distance_miles f with
  | Some d => d
  | None => infinity
  end.

(** [list.sort(key=...)]: a stable sort that compares keys with [<]. *)
Fixpoint insert_by_key (x : Facility) (l : list Facility) : list Facility :=
  match l with
  | [] => [x]
  | y :: r =>
      if PrimFloat.ltb (sort_key x) (sort_key y) then x :: l
      else y :: insert_by_key x r
  end.

Definition sort_by_distance (l : list Facility) : list Facility :=
  fold_left (fun acc x => insert_by_key x acc) l [].

Definition search_facilities
    (ftype service : option string) (min_rating : option float)
    (attribute_filters : option (list (string * string)))
    (latitude longitude max_distance_miles : option float)
  : IO (list Facility) :=
  try_except
    (get_connection
       (rows <~ query (select_matching ftype service min_rating attribute_filters) ;;
        facilities <~ collect rows latitude longitude max_distance_miles [] ;;
        match reference_point latitude longitude with
        | Some _ => ret (sort_by_distance facilities)
        | None => ret facilities
        end))
    (fun _ => ret []).

(** ** [update_facility_attribute], [delete_facility], [get_all_facility_ids] *)

Definition update_facility_attribute
    (facility_id attribute_key : string) (attribute_value : PyVal) : IO bool :=
  try_except
    (get_connection
       (let attr_type := _determine_attribute_type attribute_value in
        value_str <~ lift (value_text attribute_value) ;;
        execute (insert_or_replace_attribute
                   facility_id attribute_key value_str attr_type) ;;;
        execute (touch_facility facility_id) ;;;
        ret true))
    (fun _ => ret false).

Definition delete_facility (facility_id : string) : IO bool :=
  try_except
    (get_connection
       (execute (delete_facility_row facility_id) ;;;
        ret true))
    (fun _ => ret false).

Definition get_all_facility_ids : IO (list string) :=
  try_except
    (get_connection (query select_ids))
    (fun _ => ret []).

End DatabaseManager.
End DatabaseManager.

(* ================================================================== *)
(** * [class HealthcareMapAI]: the handlers and [_execute_function] *)
(* ================================================================== *)

Module HealthcareMapAI.
Import Sqlite.
Section HealthcareMapAI.
Context {rt : Platform}.

(** ** Calling a method with [**arguments] *)

Fixpoint lookup (key : string) (arguments : list (string * PyVal)) : option PyVal :=
  match arguments with
  | [] => None
  | (k, v) :: r => if String.eqb k key then Some v else lookup key r
  end.

(** A keyword that names no parameter is a [TypeError]. *)
Definition check_keywords (fname : string) (params : list string)
    (arguments : list (string * PyVal)) : Outcome unit :=
  match find (fun kv => negb (existsb (String.eqb (fst kv)) params)) arguments with
  | Some (k, _) =>
      Raised (TypeError (fname ++ "() got an unexpected keyword argument '" ++ k ++ "'"))
  | None => Returned tt
  end.

(** A parameter without default that no keyword supplies is a [TypeError]. *)
Definition required (fname key : string) (arguments : list (string * PyVal))
  : Outcome PyVal :=
  match lookup key arguments with
  | Some v => Returned v
  | None =>
      Raised (TypeError (fname ++ "() missing 1 required positional argument: '"
                           ++ key ++ "'"))
  end.

Definition optional (key : string) (default : PyVal)
    (arguments : list (string * PyVal)) : PyVal :=
  match lookup key arguments with
  | Some v => v
  | None => default
  end.

(** The handlers are annotated with [str] and [Optional[str]]; a value of
    another type is outside the typed model. *)
Definition as_str (v : PyVal) : Outcome string :=
  match v with
  | PStr s => Returned s
  | _ => Raised (OutsideModel "an argument annotated str that is no str")
  end.

Definition as_optional_str (v : PyVal) : Outcome (option string) :=
  match v with
  | PNone => Returned None
  | PStr s => Returned (Some s)
  | _ => Raised (OutsideModel "an argument annotated Optional[str] that is neither")
  end.

Definition of_optional_float (o : option float) : PyVal :=
  match o with
  | Some x => PFloat x
  | None => PNone
  end.

Definition of_optional_str (o : option string) : PyVal :=
  match o with
  | Some x => PStr x
  | None => PNone
  end.

Definition error_payload (msg : string) : PyVal :=
  PDict [(PStr "error", PStr msg)].

(** The entries both result formats share. *)
Definition summary (f : DatabaseManager.Facility) : list (PyVal * PyVal) :=
  let r := DatabaseManager.row f in
  [ (PStr "id", PStr (fac_id r));
    (PStr "name", PStr (fac_name r));
    (PStr "type", PStr (facility_type r));
    (PStr "address", PStr (address r));
    (PStr "coordinates",
       PDict [(PStr "lat", PFloat (latitude r)); (PStr "lon", PFloat (longitude r))]);
    (PStr "services", PList (map PStr (DatabaseManager.services f)));
    (PStr "rating", of_optional_float (rating r));
    (PStr "phone", of_optional_str (phone r));
    (PStr "attributes",
       PDict (map (fun kv => (PStr (fst kv), snd kv)) (DatabaseManager.attributes f))) ].

Definition find_healthcare_facilities
    (location facility_type service radius : PyVal) : IO PyVal :=
  ftype <~ lift (as_optional_str facility_type) ;;
  svc <~ lift (as_optional_str service) ;;
  facilities <~ DatabaseManager.search_facilities ftype svc None None None None None ;;
  let results := map (fun f => PDict (summary f)) facilities in
  ret (PDict [ (PStr "location", location);
               (PStr "radius_miles", radius);
               (PStr "facilities_found", PInt (Z.of_nat (List.length results)));
               (PStr "facilities", PList results) ]).

Definition get_facility_details (facility_id : PyVal) : IO PyVal :=
  fid <~ lift (as_str facility_id) ;;
  found <~ DatabaseManager.get_facility fid ;;
  match found with
  | None => ret (error_payload ("Facility " ++ fid ++ " not found"))
  | Some f =>
      ret (PDict (summary f ++
                  [ (PStr "created_at", PStr (created_at (DatabaseManager.row f)));
                    (PStr "updated_at", PStr (updated_at (DatabaseManager.row f)));
                    (PStr "full_details", PBool true) ])%list)
  end.

Definition search_facilities_by_service (service location radius : PyVal)
  : IO PyVal :=
  find_healthcare_facilities location PNone service radius.

Definition get_patient_health_data (patient_id data_type : PyVal) : IO PyVal :=
  ret (PDict [ (PStr "patient_id", patient_id);
               (PStr "data_type", data_type);
               (PStr "message", PStr "Patient data retrieval requires authentication");
               (PStr "note",
                PStr "This is a simulated response. In production, implement secure patient data access.") ]).

(** [datetime.now().strftime('%Y%m%d%H%M%S')] *)
Definition read_clock : IO string := fun w => (Returned (now_compact w), w).

Definition schedule_appointment
    (facility_id service_type date patient_id : PyVal) : IO PyVal :=
  fid <~ lift (as_str facility_id) ;;
  found <~ DatabaseManager.get_facility fid ;;
  match found with
  | None => ret (error_payload ("Facility " ++ fid ++ " not found"))
  | Some f =>
      stamp <~ read_clock ;;
      let appointment_id := "apt_" ++ stamp in
      let record :=
        PDict [ (PStr "appointment_id", PStr appointment_id);
                (PStr "service_type", service_type);
                (PStr "date", date);
                (PStr "patient_id", patient_id);
                (PStr "status", PStr "scheduled") ] in
      appointments <~
        lift (match lookup "appointments" (DatabaseManager.attributes f) with
              | None => Returned [record]
              | Some (PList l) => Returned (l ++ [record])%list
              | Some _ => Raised (AttributeError "object has no attribute 'append'")
              end) ;;
      DatabaseManager.update_facility_attribute fid "appointments"
        (PList appointments) ;;;
      ret (PDict [ (PStr "success", PBool true);
                   (PStr "appointment_id", PStr appointment_id);
                   (PStr "facility", PStr (fac_name (DatabaseManager.row f)));
                   (PStr "facility_id", facility_id);
                   (PStr "service", service_type);
                   (PStr "date", date);
                   (PStr "patient_id", patient_id);
                   (PStr "status", PStr "scheduled");
                   (PStr "message", PStr "Appointment scheduled successfully") ])
  end.

(** ** [_execute_function] *)

Definition registry : list string :=
  [ "find_healthcare_facilities"; "get_facility_details";
    "search_facilities_by_service"; "get_patient_health_data";
    "schedule_appointment" ].

Definition _execute_function (function_name : string)
    (arguments : list (string * PyVal)) : IO PyVal :=
  if String.eqb function_name "find_healthcare_facilities" then
    let f := "find_healthcare_facilities" in
    lift (check_keywords f ["location"; "facility_type"; "service"; "radius"]
                         arguments) ;;;
    location <~ lift (required f "location" arguments) ;;
    find_healthcare_facilities location
      (optional "facility_type" PNone arguments)
      (optional "service" PNone arguments)
      (optional "radius" (PFloat 10%float) arguments)
  else if String.eqb function_name "get_facility_details" then
    let f := "get_facility_details" in
    lift (check_keywords f ["facility_id"] arguments) ;;;
    facility_id <~ lift (required f "facility_id" arguments) ;;
    get_facility_details facility_id
  else if String.eqb function_name "search_facilities_by_service" then
    let f := "search_facilities_by_service" in
    lift (check_keywords f ["service"; "location"; "radius"] arguments) ;;;
    service <~ lift (required f "service" arguments) ;;
    location <~ lift (required f "location" arguments) ;;
    search_facilities_by_service service location
      (optional "radius" (PFloat 10%float) arguments)
  else if String.eqb function_name "get_patient_health_data" then
    let f := "get_patient_health_data" in
    lift (check_keywords f ["patient_id"; "data_type"] arguments) ;;;
    patient_id <~ lift (required f "patient_id" arguments) ;;
    get_patient_health_data patient_id (optional "data_type" (PStr "all") arguments)
  else if String.eqb function_name "schedule_appointment" then
    let f := "schedule_appointment" in
    lift (check_keywords f ["facility_id"; "service_type"; "date"; "patient_id"]
                         arguments) ;;;
    facility_id <~ lift (required f "facility_id" arguments) ;;
    service_type <~ lift (required f "service_type" arguments) ;;
    date <~ lift (required f "date" arguments) ;;
    schedule_appointment facility_id service_type date
      (optional "patient_id" PNone arguments)
  else
    ret (error_payload ("Unknown function: " ++ function_name)).

End HealthcareMapAI.
End HealthcareMapAI.

(* ================================================================== *)
(** * Specification vocabulary *)
(* ================================================================== *)

Module Spec.
Import Sqlite.

(** What a step inside a transaction leaves alone: the committed database,
    the clock and the pragma of the connection. *)
Definition frame (c c' : Conn) : Prop :=
  persisted (world c') = persisted (world c)
  /\ now (world c') = now (world c)
  /\ now_compact (world c') = now_compact (world c)
  /\ foreign_keys c' = foreign_keys c.

(** On a connection as [connect] opens it, [m] either returns a result that
    [post] relates to the working copy before and after, or raises a Python
    exception; in both cases it keeps the frame. *)
Definition tx_spec {A} (m : Tx A)
    (post : A -> string -> Database -> Database -> Prop) : Prop :=
  forall c, foreign_keys c = false ->
    match m c with
    | (Returned a, c') => post a (now (world c)) (work c) (work c') /\ frame c c'
    | (Raised e, c') => is_python_exception e = true /\ frame c c'
    end.

(** The working copies a loop passes through. *)
Fixpoint steps {X} (step : X -> string -> Database -> Database -> Prop)
    (l : list X) (ts : string) (db db' : Database) : Prop :=
  match l with
  | [] => db' = db
  | x :: r => exists mid, step x ts db mid /\ steps step r ts mid db'
  end.


Section Written.
Context {rt : Platform}.

Definition items_of (attributes : option (list (string * PyVal)))
  : list (string * PyVal) :=
  match attributes with
  | Some l => l
  | None => []
  end.

Definition service_row (fid svc : string) : ServiceRow :=
  {| svc_facility_id := fid; service_name := svc |}.

Definition attribute_row (fid : string) (kv : string * PyVal) : AttributeRow :=
  {| attr_facility_id := fid; attribute_key := fst kv;
     attribute_value := DatabaseManager.stored_text (snd kv);
     attribute_type := DatabaseManager._determine_attribute_type (snd kv) |}.

(** The three writes of [add_facility] taken together: the facility row is
    replaced or added, the services and the attributes of the facility are
    exactly the supplied ones, every other facility keeps its own. *)
Definition full_write
    (fid name ftype addr : string) (lat lon : float)
    (services : list string) (rate : option float) (ph : option string)
    (attributes : option (list (string * PyVal)))
    (ts : string) (db : Database) : Database :=
  {| facilities :=
       (filter (fun f => negb (String.eqb (fac_id f) fid)) (facilities db) ++
        [{| fac_id := fid; fac_name := name; facility_type := ftype;
            address := addr; latitude := lat; longitude := lon;
            rating := rate; phone := ph;
            created_at := ts; updated_at := ts |}])%list;
     facility_services :=
       (filter (fun r => negb (String.eqb (svc_facility_id r) fid))
               (facility_services db) ++
        map (service_row fid) services)%list;
     facility_attributes :=
       (filter (fun r => negb (String.eqb (attr_facility_id r) fid))
               (facility_attributes db) ++
        map (attribute_row fid) (items_of attributes))%list |}.

End Written.

(** The parameters without default of the registered operations. *)
Definition required_keys (function_name : string) : list string :=
  if String.eqb function_name "find_healthcare_facilities" then ["location"]
  else if String.eqb function_name "get_facility_details" then ["facility_id"]
  else if String.eqb function_name "search_facilities_by_service"
  then ["service"; "location"]
  else if String.eqb function_name "get_patient_health_data" then ["patient_id"]
  else if String.eqb function_name "schedule_appointment"
  then ["facility_id"; "service_type"; "date"]
  else [].

End Spec.

(* ================================================================== *)
(** * A recorded platform and the seed data *)
(* ================================================================== *)

Module Sample.
Import Sqlite.

(** Values of glibc 2.36 (x86-64) under CPython 3.11 at the arguments the
    examples below reach; any other argument yields a NaN, which [math_1]
    reports, or no text. *)
Definition recorded_sin (x : float) : float :=
  if PrimFloat.eqb x 0x1.04c498745243dp+0%float then 0x1.b3e90f97d6792p-1%float
  else if PrimFloat.eqb x 0x1.921fb51ec7c4fp+0%float then 1%float
  else if PrimFloat.eqb x 0%float then 0%float
  else nan.

Definition recorded_cos (x : float) : float :=
  if PrimFloat.eqb x (-0x1.04c4984ed7373p+0)%float then 0x1.0c90264c21a0bp-1%float
  else if PrimFloat.eqb x 0x1.04c49899cd505p+0%float then 0x1.0c9025cc7d357p-1%float
  else if PrimFloat.eqb x 0%float then 1%float
  else nan.

Definition recorded_asin (x : float) : float :=
  if PrimFloat.eqb x 0%float then 0%float
  else if PrimFloat.eqb x 1%float then 0x1.921fb54442d18p+0%float
  else nan.

Definition recorded_pow (x y : float) : float :=
  if PrimFloat.eqb y 2%float then
    if PrimFloat.eqb x 0x1.b3e90f97d6792p-1%float then 0x1.7320ef95b31bap-1%float
    else if PrimFloat.eqb x 1%float then 1%float
    else if PrimFloat.eqb x 0%float then 0%float
    else nan
  else nan.

Definition recorded_repr (x : float) : string :=
  if PrimFloat.eqb x 4.5%float then "4.5"
  else if PrimFloat.eqb x 10%float then "10.0"
  else "".

Definition recorded_float (s : string) : option float :=
  if String.eqb s "4.5" then Some 4.5%float
  else if String.eqb s "10.0" then Some 10%float
  else None.

Definition glibc : Platform :=
  {| c_sin := recorded_sin; c_cos := recorded_cos; c_asin := recorded_asin;
     c_pow := recorded_pow;
     float_repr := recorded_repr; float_of_str := recorded_float |}.

Definition fresh (db : Database) : World :=
  {| persisted := db; faults := [];
     now := "2024-12-01 09:30:00"; now_compact := "20241201093000" |}.

(** The first and the third facility of [_initialize_sample_data]. *)
Definition add_hosp_001 : IO bool :=
  @DatabaseManager.add_facility glibc
    "hosp_001" "City General Hospital" "hospital"
    "123 Main St, City, State 12345" 40.7128%float (-74.0060)%float
    ["emergency"; "surgery"; "cardiology"; "pediatrics"; "mri"; "xray"]
    (Some 4.5%float) (Some "(555) 123-4567")
    (Some [ ("bed_count", PInt 250);
            ("emergency_room", PBool true);
            ("accepts_insurance",
               PList [PStr "Medicare"; PStr "Medicaid"; PStr "Blue Cross"]);
            ("parking_available", PBool true);
            ("visiting_hours", PStr "24/7") ]).

Definition add_pharm_001 : IO bool :=
  @DatabaseManager.add_facility glibc
    "pharm_001" "Central Pharmacy" "pharmacy"
    "789 Elm St, City, State 12345" 40.7489%float (-73.9680)%float
    ["prescription"; "vaccination"; "flu_shot"]
    (Some 4.0%float) (Some "(555) 345-6789")
    (Some [ ("drive_through", PBool true);
            ("open_24_hours", PBool false);
            ("delivery_available", PBool true) ]).

Definition seeded : World :=
  snd (add_pharm_001 (snd (add_hosp_001 (fresh empty_db)))).

(** The seeded store with one attribute row damaged from outside: an
    [integer] tag on a body that is no integer. *)
Definition corrupted : World :=
  fresh
    {| facilities := facilities (persisted seeded);
       facility_services := facility_services (persisted seeded);
       facility_attributes :=
         (facility_attributes (persisted seeded) ++
          [{| attr_facility_id := "pharm_001"; attribute_key := "stock_count";
              attribute_value := "12 boxes"; attribute_type := "integer" |}])%list |}.

End Sample.

(* ================================================================== *)
(** * The constraints of the schema *)
(* ================================================================== *)

Module Schema.
Import Sqlite.

(** No item of [l] is followed by one that is the [same]. *)
Fixpoint no_repeat {A} (same : A -> A -> bool) (l : list A) : bool :=
  match l with
  | [] => true
  | x :: r => negb (existsb (same x) r) && no_repeat same r
  end.

Definition same_id (a b : FacilityRow) : bool :=
  String.eqb (fac_id a) (fac_id b).

Definition same_service (a b : ServiceRow) : bool :=
  String.eqb (svc_facility_id a) (svc_facility_id b)
  && String.eqb (service_name a) (service_name b).

Definition same_key (a b : AttributeRow) : bool :=
  String.eqb (attr_facility_id a) (attr_facility_id b)
  && String.eqb (attribute_key a) (attribute_key b).

(** [id TEXT PRIMARY KEY], [UNIQUE(facility_id, service_name)] and
    [UNIQUE(facility_id, attribute_key)] of [_initialize_database]. *)
Definition constraints_hold (db : Database) : bool :=
  no_repeat same_id (facilities db)
  && no_repeat same_service (facility_services db)
  && no_repeat same_key (facility_attributes db).

(** What the three relations hold about one facility. *)
Definition view (fid : string) (db : Database)
  : option FacilityRow * list ServiceRow * list AttributeRow :=
  (select_facility fid db, services_of fid db, attributes_of fid db).

(** The row [add_facility] writes at the clock reading [ts]. *)
Definition written_row (fid name ftype addr : string) (lat lon : float)
    (rate : option float) (ph : option string) (ts : string) : FacilityRow :=
  {| fac_id := fid; fac_name := name; facility_type := ftype;
     address := addr; latitude := lat; longitude := lon;
     rating := rate; phone := ph; created_at := ts; updated_at := ts |}.

(** The row of a facility after [UPDATE facilities SET updated_at = ...]. *)
Definition touched (f : FacilityRow) (ts : string) : FacilityRow :=
  {| fac_id := fac_id f; fac_name := fac_name f;
     facility_type := facility_type f; address := address f;
     latitude := latitude f; longitude := longitude f;
     rating := rating f; phone := phone f;
     created_at := created_at f; updated_at := ts |}.


Section Reading.
Context {rt : Platform}.

(** A stored attribute that [_parse_attribute_value] decodes. *)
Definition decodes (r : AttributeRow) : Prop :=
  exists v,
    DatabaseManager._parse_attribute_value (attribute_value r) (attribute_type r)
    = Returned v.

(** A facility as [get_facility] reads it from the database [db]. *)
Definition read_of (db : Database) (f : DatabaseManager.Facility) : Prop :=
  select_facility (fac_id (DatabaseManager.row f)) db = Some (DatabaseManager.row f)
  /\ DatabaseManager.services f
     = select_services (fac_id (DatabaseManager.row f)) db
  /\ DatabaseManager.parse_rows
       (select_attributes (fac_id (DatabaseManager.row f)) db) []
     = Returned (DatabaseManager.attributes f).

End Reading.

End Schema.

(* ================================================================== *)
(** * [class HealthcareMapAI]: the other methods *)
(* ================================================================== *)

Module MapQueries.
Import Sqlite.
Section MapQueries.
Context {rt : Platform}.

(** ** Values of any type, as the untyped code handles them *)

(** [bool(v)], the test of [if v:], [not v] and [v or w] *)
Definition truthy (v : PyVal) : bool :=
  match v with
  | PNone => false
  | PBool b => b
  | PInt z => negb (Z.eqb z 0)
  | PFloat x => negb (PrimFloat.eqb x 0%float)
  | PStr s => negb (String.eqb s "")
  | PList l => match l with [] => false | _ => true end
  | PDict d => match d with [] => false | _ => true end
  end.

(** [str(v)], also the text of [v] in an f-string. The text of a list or a
    dict, which is built from the [repr] of its items, is outside the
    model. *)
Definition py_str (v : PyVal) : Outcome string :=
  match v with
  | PNone => Returned "None"
  | PBool true => Returned "True"
  | PBool false => Returned "False"
  | PInt z => Returned (int_repr z)
  | PFloat x => Returned (float_repr x)
  | PStr s => Returned s
  | _ => Raised (OutsideModel "str() of a list or a dict")
  end.

(** [d.get(key, default)]; only a dict has the method. *)
Definition dict_get (d : PyVal) (key : string) (default : PyVal) : Outcome PyVal :=
  match d with
  | PDict items =>
      Returned match find (fun kv => py_eqb (fst kv) (PStr key)) items with
               | Some (_, v) => v
               | None => default
               end
  | _ => Raised (AttributeError "object has no attribute 'get'")
  end.

(** The keywords of a call that expands [arguments] with the double star:
    [arguments] has to be a mapping and its keys have to be strings. *)
Fixpoint keywords (items : list (PyVal * PyVal)) : Outcome (list (string * PyVal)) :=
  match items with
  | [] => Returned []
  | (PStr k, v) :: r => rest <- keywords r ;; Returned ((k, v) :: rest)
  | _ => Raised (TypeError "keywords must be strings")
  end.

Definition as_keywords (arguments : PyVal) : Outcome (list (string * PyVal)) :=
  match arguments with
  | PDict items => keywords items
  | _ => Raised (TypeError "argument after ** must be a mapping")
  end.

(** ** [process_natural_language_query] *)

(** The call [self._execute_function(function_name, arguments)] with values
    of any type: a name that is no string equals none of the five names and
    is put into the error text by an f-string; the arguments are expanded
    only on the five branches. *)
Definition call_execute_function (function_name arguments : PyVal) : IO PyVal :=
  match function_name with
  | PStr name =>
      if existsb (String.eqb name) HealthcareMapAI.registry then
        kwargs <~ lift (as_keywords arguments) ;;
        HealthcareMapAI._execute_function name kwargs
      else HealthcareMapAI._execute_function name []
  | other =>
      text <~ lift (py_str other) ;;
      ret (HealthcareMapAI.error_payload ("Unknown function: " ++ text))
  end.

(** [json.loads(arguments)] under [except json.JSONDecodeError], for
    arguments that are a string. *)
Definition parse_arguments (arguments : PyVal) : Outcome PyVal :=
  match arguments with
  | PStr s =>
      match Json.loads s with
      | Raised (JSONDecodeError _) => Returned (PDict [])
      | o => o
      end
  | v => Returned v
  end.

(** The method with what it takes from outside as parameters:
    [function_call] is what [generate_function_call] returned for the query
    ([PNone] after a failed request, else the decoded JSON of the answer),
    [timestamp] the text of [datetime.now().isoformat()]. *)
Definition process_natural_language_query
    (function_call : PyVal) (timestamp : string) (user_query : string)
  : IO PyVal :=
  if negb (truthy function_call) then
    ret (PDict [ (PStr "success", PBool false);
                 (PStr "error",
                    PStr "Failed to generate function call from Gorilla LLM");
                 (PStr "query", PStr user_query) ])
  else
    name <~ lift (dict_get function_call "name" PNone) ;;
    function_name <~
      (if truthy name then ret name
       else lift (dict_get function_call "function" PNone)) ;;
    given <~ lift (dict_get function_call "arguments" PNone) ;;
    arguments <~
      (if truthy given then ret given
       else lift (dict_get function_call "args" (PDict []))) ;;
    arguments <~ lift (parse_arguments arguments) ;;
    result <~ call_execute_function function_name arguments ;;
    ret (PDict [ (PStr "success", PBool true);
                 (PStr "function_name", function_name);
                 (PStr "arguments", arguments);
                 (PStr "result", result);
                 (PStr "query", PStr user_query);
                 (PStr "timestamp", PStr timestamp) ]).

(** ** [search_by_attribute] *)


(** ** [get_all_facilities_for_map] *)





(** ** [_initialize_sample_data] *)

Definition add_facility_parameters : list string :=
  [ "facility_id"; "name"; "facility_type"; "address"; "latitude"; "longitude";
    "services"; "rating"; "phone"; "attributes" ].

Definition as_float (v : PyVal) : Outcome float :=
  match v with
  | PFloat x => Returned x
  | _ => Raised (OutsideModel "an argument annotated float that is no float")
  end.

Definition as_optional_float (v : PyVal) : Outcome (option float) :=
  match v with
  | PNone => Returned None
  | PFloat x => Returned (Some x)
  | _ => Raised (OutsideModel "an argument annotated Optional[float] that is neither")
  end.

Fixpoint as_str_list (l : list PyVal) : Outcome (list string) :=
  match l with
  | [] => Returned []
  | PStr s :: r => rest <- as_str_list r ;; Returned (s :: rest)
  | _ => Raised (OutsideModel "an item of List[str] that is no str")
  end.

Definition as_services (v : PyVal) : Outcome (list string) :=
  match v with
  | PList l => as_str_list l
  | _ => Raised (OutsideModel "an argument annotated List[str] that is no list")
  end.

Definition as_attributes (v : PyVal) : Outcome (option (list (string * PyVal))) :=
  match v with
  | PNone => Returned None
  | PDict items =>
      match keywords items with
      | Returned l => Returned (Some l)
      | Raised _ => Raised (OutsideModel "an attribute key that is no str")
      end
  | _ => Raised (OutsideModel "an argument annotated Optional[Dict] that is neither")
  end.

(** The call of [self.db_manager.add_facility] with keywords only: they are
    bound to the parameters of the method, then the method runs. *)
Definition call_add_facility (kwargs : list (string * PyVal)) : IO bool :=
  let f := "DatabaseManager.add_facility" in
  lift (HealthcareMapAI.check_keywords f add_facility_parameters kwargs) ;;;
  facility_id <~ lift (HealthcareMapAI.required f "facility_id" kwargs) ;;
  name <~ lift (HealthcareMapAI.required f "name" kwargs) ;;
  ftype <~ lift (HealthcareMapAI.required f "facility_type" kwargs) ;;
  addr <~ lift (HealthcareMapAI.required f "address" kwargs) ;;
  lat <~ lift (HealthcareMapAI.required f "latitude" kwargs) ;;
  lon <~ lift (HealthcareMapAI.required f "longitude" kwargs) ;;
  services <~ lift (HealthcareMapAI.required f "services" kwargs) ;;
  facility_id <~ lift (HealthcareMapAI.as_str facility_id) ;;
  name <~ lift (HealthcareMapAI.as_str name) ;;
  ftype <~ lift (HealthcareMapAI.as_str ftype) ;;
  addr <~ lift (HealthcareMapAI.as_str addr) ;;
  lat <~ lift (as_float lat) ;;
  lon <~ lift (as_float lon) ;;
  services <~ lift (as_services services) ;;
  rate <~ lift (as_optional_float (HealthcareMapAI.optional "rating" PNone kwargs)) ;;
  ph <~ lift (HealthcareMapAI.as_optional_str
                (HealthcareMapAI.optional "phone" PNone kwargs)) ;;
  attributes <~
    lift (as_attributes (HealthcareMapAI.optional "attributes" PNone kwargs)) ;;
  DatabaseManager.add_facility facility_id name ftype addr lat lon services
    rate ph attributes.

Definition sample_facilities : list (list (string * PyVal)) :=
  [ [ ("id", PStr "hosp_001");
      ("name", PStr "City General Hospital");
      ("facility_type", PStr "hospital");
      ("address", PStr "123 Main St, City, State 12345");
      ("latitude", PFloat 40.7128%float);
      ("longitude", PFloat (-74.0060)%float);
      ("services", PList [ PStr "emergency"; PStr "surgery"; PStr "cardiology";
                           PStr "pediatrics"; PStr "mri"; PStr "xray" ]);
      ("rating", PFloat 4.5%float);
      ("phone", PStr "(555) 123-4567");
      ("attributes",
         PDict [ (PStr "bed_count", PInt 250);
                 (PStr "emergency_room", PBool true);
                 (PStr "accepts_insurance",
                    PList [PStr "Medicare"; PStr "Medicaid"; PStr "Blue Cross"]);
                 (PStr "parking_available", PBool true);
                 (PStr "visiting_hours", PStr "24/7") ]) ];
    [ ("id", PStr "clinic_001");
      ("name", PStr "Downtown Health Clinic");
      ("facility_type", PStr "clinic");
      ("address", PStr "456 Oak Ave, City, State 12345");
      ("latitude", PFloat 40.7589%float);
      ("longitude", PFloat (-73.9851)%float);
      ("services", PList [ PStr "primary_care"; PStr "vaccination";
                           PStr "lab_tests"; PStr "mental_health" ]);
      ("rating", PFloat 4.2%float);
      ("phone", PStr "(555) 234-5678");
      ("attributes",
         PDict [ (PStr "accepts_walk_ins", PBool true);
                 (PStr "languages_spoken",
                    PList [PStr "English"; PStr "Spanish"; PStr "French"]);
                 (PStr "wheelchair_accessible", PBool true);
                 (PStr "parking_available", PBool false) ]) ];
    [ ("id", PStr "pharm_001");
      ("name", PStr "Central Pharmacy");
      ("facility_type", PStr "pharmacy");
      ("address", PStr "789 Elm St, City, State 12345");
      ("latitude", PFloat 40.7489%float);
      ("longitude", PFloat (-73.9680)%float);
      ("services", PList [PStr "prescription"; PStr "vaccination"; PStr "flu_shot"]);
      ("rating", PFloat 4.0%float);
      ("phone", PStr "(555) 345-6789");
      ("attributes",
         PDict [ (PStr "drive_through", PBool true);
                 (PStr "open_24_hours", PBool false);
                 (PStr "delivery_available", PBool true) ]) ];
    [ ("id", PStr "urgent_001");
      ("name", PStr "Express Urgent Care");
      ("facility_type", PStr "urgent_care");
      ("address", PStr "321 Pine Rd, City, State 12345");
      ("latitude", PFloat 40.7280%float);
      ("longitude", PFloat (-73.9942)%float);
      ("services", PList [ PStr "urgent_care"; PStr "xray"; PStr "lab_tests";
                           PStr "sutures" ]);
      ("rating", PFloat 4.3%float);
      ("phone", PStr "(555) 456-7890");
      ("attributes",
         PDict [ (PStr "average_wait_time_minutes", PInt 25);
                 (PStr "accepts_walk_ins", PBool true);
                 (PStr "xray_on_site", PBool true) ]) ] ].

(** [d.pop(key, None)]: the value and the dict without the key. *)
Definition dict_pop (key : string) (d : list (string * PyVal))
  : PyVal * list (string * PyVal) :=
  (HealthcareMapAI.optional key PNone d,
   filter (fun kv => negb (String.eqb (fst kv) key)) d).

Definition _initialize_sample_data : IO unit :=
  existing_ids <~ DatabaseManager.get_all_facility_ids ;;
  match existing_ids with
  | _ :: _ => ret tt
  | [] =>
      for_each sample_facilities
        (fun facility_data =>
           let '(attributes, facility_data) := dict_pop "attributes" facility_data in
           call_add_facility (("attributes", attributes) :: facility_data) ;;;
           ret tt)
  end.

End MapQueries.


(** The parameters of the five registered handlers. *)
Definition parameters_of (function_name : string) : list string :=
  if String.eqb function_name "find_healthcare_facilities"
  then ["location"; "facility_type"; "service"; "radius"]
  else if String.eqb function_name "get_facility_details" then ["facility_id"]
  else if String.eqb function_name "search_facilities_by_service"
  then ["service"; "location"; "radius"]
  else if String.eqb function_name "get_patient_health_data"
  then ["patient_id"; "data_type"]
  else if String.eqb function_name "schedule_appointment"
  then ["facility_id"; "service_type"; "date"; "patient_id"]
  else [].

(** The record [schedule_appointment] appends, and its answer. *)
Definition appointment_record (stamp : string) (service_type date patient_id : PyVal)
  : PyVal :=
  PDict [ (PStr "appointment_id", PStr ("apt_" ++ stamp));
          (PStr "service_type", service_type);
          (PStr "date", date);
          (PStr "patient_id", patient_id);
          (PStr "status", PStr "scheduled") ].

Definition appointment_answer (stamp name : string)
    (facility_id service_type date patient_id : PyVal) : PyVal :=
  PDict [ (PStr "success", PBool true);
          (PStr "appointment_id", PStr ("apt_" ++ stamp));
          (PStr "facility", PStr name);
          (PStr "facility_id", facility_id);
          (PStr "service", service_type);
          (PStr "date", date);
          (PStr "patient_id", patient_id);
          (PStr "status", PStr "scheduled");
          (PStr "message", PStr "Appointment scheduled successfully") ].

End MapQueries.

(* ================================================================== *)
(** * The order of the search results *)
(* ================================================================== *)

Module Nearest.




End Nearest.

(** A store with one facility, at coordinates whose cosine the recorded
    platform knows. *)
Module Northern.

Definition store : Sqlite.World :=
  snd (@DatabaseManager.add_facility Sample.glibc
         "clinic_north" "Northern Clinic" "clinic" "1 Harbour Rd"
         58.362903%float 150.993442%float ["xray"] None None None
         (Sample.fresh Sqlite.empty_db)).

(** The same store with a second facility, nearly antipodal to the first. *)
Definition both : Sqlite.World :=
  snd (@DatabaseManager.add_facility Sample.glibc
         "clinic_south" "Southern Clinic" "clinic" "2 Harbour Rd"
         (-58.362902)%float (-29.006557)%float ["xray"] None None None
         store).

End Northern.

(* ================================================================== *)
(** * Facts about text and numbers *)
(* ================================================================== *)

Section TextFacts.

Lemma append_assoc (a b c : string) : (a ++ b) ++ c = a ++ (b ++ c).
Proof. induction a as [|x a IH]; simpl; [reflexivity | now rewrite IH]. Qed.

Lemma append_nil_r (a : string) : a ++ "" = a.
Proof. induction a as [|x a IH]; simpl; [reflexivity | now rewrite IH]. Qed.

Lemma length_append (a b : string) :
  String.length (a ++ b) = String.length a + String.length b.
Proof. induction a as [|x a IH]; simpl; [reflexivity | now rewrite IH]. Qed.

Lemma digits_of_uint (d : Decimal.uint) :
  all_digits (NilEmpty.string_of_uint d) = true.
Proof. induction d; cbn [NilEmpty.string_of_uint all_digits]; auto. Qed.

Lemma digit_not_space (c : ascii) : is_digit c = true -> is_space c = false.
Proof.
  destruct c as [[|] [|] [|] [|] [|] [|] [|] [|]]; vm_compute; congruence.
Qed.

Lemma lstrip_digits (s : string) : all_digits s = true -> lstrip s = s.
Proof.
  destruct s as [|c r]; cbn [all_digits lstrip]; [reflexivity|].
  intros H. apply andb_prop in H as [H _].
  now rewrite (digit_not_space _ H).
Qed.

Lemma rstrip_digits (s : string) : all_digits s = true -> rstrip s = s.
Proof.
  induction s as [|c r IH]; cbn [all_digits rstrip]; [reflexivity|].
  intros H. apply andb_prop in H as [Hc Hr].
  rewrite (IH Hr). destruct r; [|reflexivity].
  now rewrite (digit_not_space _ Hc).
Qed.

Lemma strip_digits (s : string) : all_digits s = true -> strip s = s.
Proof.
  intros H. unfold strip. rewrite (lstrip_digits _ H). now apply rstrip_digits.
Qed.

Lemma int_digits_of_uint (d : Decimal.uint) :
  d <> Decimal.Nil -> int_digits (NilEmpty.string_of_uint d) = Some d.
Proof.
  induction d as [|d IH|d IH|d IH|d IH|d IH|d IH|d IH|d IH|d IH|d IH];
    intros Hd; [congruence|..];
    (destruct d as [|d'|d'|d'|d'|d'|d'|d'|d'|d'|d'];
     [reflexivity
     | cbn [NilEmpty.string_of_uint int_digits] in *;
       rewrite IH by discriminate; reflexivity ..]).
Qed.

(** A numeral of [Pos.to_uint] has no leading zero. *)
Lemma to_uint_no_leading_zero (p : positive) (d : Decimal.uint) :
  Pos.to_uint p <> Decimal.D0 d.
Proof.
  intros E.
  assert (U : Decimal.unorm (Pos.to_uint p) = Pos.to_uint p).
  { rewrite <- (DecimalPos.Unsigned.to_of (Pos.to_uint p)).
    now rewrite DecimalPos.Unsigned.of_to. }
  rewrite E in U. unfold Decimal.unorm in U. simpl in U.
  destruct (Decimal.nzhead d) eqn:N.
  - apply (DecimalPos.Unsigned.to_uint_nonzero p). rewrite E.
    injection U as <-. reflexivity.
  - exact (DecimalFacts.nzhead_nonzero _ _ N).
  - discriminate. - discriminate. - discriminate. - discriminate.
  - discriminate. - discriminate. - discriminate. - discriminate.
  - discriminate.
Qed.

Lemma py_int_unsigned (s : string) :
  all_digits s = true -> py_int s = option_map Z.of_uint (int_digits s).
Proof.
  intros H. unfold py_int. rewrite (strip_digits _ H).
  destruct s as [|c r]; [reflexivity|].
  cbn [all_digits] in H. apply andb_prop in H as [Hc _].
  destruct c as [[|] [|] [|] [|] [|] [|] [|] [|]];
    try (vm_compute in Hc; discriminate); reflexivity.
Qed.

Lemma string_of_pos_uint (p : positive) :
  NilZero.string_of_uint (Pos.to_uint p) = NilEmpty.string_of_uint (Pos.to_uint p).
Proof.
  pose proof (DecimalPos.Unsigned.to_uint_nonnil p) as Hn.
  unfold NilZero.string_of_uint. destruct (Pos.to_uint p); congruence.
Qed.

Lemma of_uint_to_uint (p : positive) : Z.of_uint (Pos.to_uint p) = Z.pos p.
Proof. unfold Z.of_uint. now rewrite DecimalPos.Unsigned.of_to. Qed.

Lemma py_int_repr (z : Z) : py_int (int_repr z) = Some z.
Proof.
  unfold int_repr.
  destruct z as [|p|p]; [reflexivity | |];
    cbn [Z.to_int NilZero.string_of_int]; rewrite string_of_pos_uint.
  - rewrite py_int_unsigned by apply digits_of_uint.
    rewrite int_digits_of_uint by apply DecimalPos.Unsigned.to_uint_nonnil.
    cbn [option_map]. now rewrite of_uint_to_uint.
  - unfold py_int.
    assert (strip (String "-" (NilEmpty.string_of_uint (Pos.to_uint p)))
            = String "-" (NilEmpty.string_of_uint (Pos.to_uint p))) as St.
    { unfold strip. cbn [lstrip]. change (is_space "-") with false. cbv iota.
      cbn [rstrip]. rewrite rstrip_digits by apply digits_of_uint.
      destruct (NilEmpty.string_of_uint (Pos.to_uint p)) eqn:S; [|reflexivity].
      exfalso. pose proof (DecimalPos.Unsigned.to_uint_nonnil p).
      destruct (Pos.to_uint p); simpl in S; congruence. }
    rewrite St.
    rewrite int_digits_of_uint by apply DecimalPos.Unsigned.to_uint_nonnil.
    cbn [option_map]. now rewrite of_uint_to_uint.
Qed.

End TextFacts.

(* ================================================================== *)
(** * Facts about the JSON encoder and decoder *)
(* ================================================================== *)

(** Induction over values that reaches into lists and dicts. *)
Lemma PyVal_nested_ind (P : PyVal -> Prop) :
  P PNone ->
  (forall b, P (PBool b)) ->
  (forall z, P (PInt z)) ->
  (forall f, P (PFloat f)) ->
  (forall s, P (PStr s)) ->
  (forall l, Forall P l -> P (PList l)) ->
  (forall d, Forall (fun kv => P (snd kv)) d -> P (PDict d)) ->
  forall v, P v.
Proof.
  intros HN HB HI HF HS HL HD.
  fix IH 1. intros [ | b | z | f | s | l | d ].
  - exact HN.
  - apply HB.
  - apply HI.
  - apply HF.
  - apply HS.
  - apply HL. induction l as [|x l IHl]; constructor; [apply IH | exact IHl].
  - apply HD. induction d as [|[k x] d IHd]; constructor; [apply IH | exact IHd].
Qed.

Section JsonFacts.
Context {rt : Platform}.
Import Json.

Lemma scanstring_escape_char (c : ascii) (t : string) :
  scanstring (escape_char c ++ t)
  = ('(u, rest) <- scanstring t ;; Returned (String c u, rest)).
Proof.
  destruct c as [[|] [|] [|] [|] [|] [|] [|] [|]]; reflexivity.
Qed.

Lemma scanstring_escape_body (s rest : string) :
  scanstring (escape_body s ++ String dquote rest) = Returned (s, rest).
Proof.
  induction s as [|c s IH]; cbn [escape_body].
  - reflexivity.
  - rewrite append_assoc, scanstring_escape_char, IH. reflexivity.
Qed.

Lemma skip_ws_value (s : string) : starts_value s = true -> skip_ws s = s.
Proof.
  destruct s as [|c r]; [discriminate|]. cbn [starts_value skip_ws].
  destruct c as [[|] [|] [|] [|] [|] [|] [|] [|]];
    try (intros H; vm_compute in H; discriminate H); reflexivity.
Qed.

Lemma span_digits_numeral (d : Decimal.uint) (rest : string) :
  delimited rest = true ->
  span_digits (NilEmpty.string_of_uint d ++ rest)
  = (NilEmpty.string_of_uint d, rest).
Proof.
  intros Hr.
  induction d; cbn [NilEmpty.string_of_uint append span_digits];
    try (change (is_digit _) with true; cbv iota; rewrite IHd; reflexivity).
  destruct rest as [|c r]; [reflexivity|].
  cbn [span_digits].
  destruct c as [[|] [|] [|] [|] [|] [|] [|] [|]];
    try (vm_compute in Hr; discriminate Hr); reflexivity.
Qed.

Lemma match_frac_delimited (rest : string) :
  delimited rest = true -> match_frac rest = (EmptyString, rest).
Proof.
  destruct rest as [|c r]; [reflexivity|]. intros Hr.
  destruct c as [[|] [|] [|] [|] [|] [|] [|] [|]];
    try (vm_compute in Hr; discriminate Hr); reflexivity.
Qed.

Lemma match_exp_delimited (rest : string) :
  delimited rest = true -> match_exp rest = (EmptyString, rest).
Proof.
  destruct rest as [|c r]; [reflexivity|]. intros Hr.
  destruct c as [[|] [|] [|] [|] [|] [|] [|] [|]];
    try (vm_compute in Hr; discriminate Hr); reflexivity.
Qed.

Lemma match_integer_pos (p : positive) (rest : string) :
  delimited rest = true ->
  match_integer (NilEmpty.string_of_uint (Pos.to_uint p) ++ rest)
  = Some (NilEmpty.string_of_uint (Pos.to_uint p), rest).
Proof.
  intros Hr.
  pose proof (DecimalPos.Unsigned.to_uint_nonnil p) as Hn.
  pose proof (to_uint_no_leading_zero p) as Hz.
  destruct (Pos.to_uint p) as [|d|d|d|d|d|d|d|d|d|d];
    [congruence | exfalso; exact (Hz d eq_refl) | ..];
    cbn [NilEmpty.string_of_uint append];
    unfold match_integer; cbv beta iota;
    change (Ascii.eqb _ "0") with false; cbv iota;
    change (is_digit _) with true; cbv iota;
    cbn [span_digits]; change (is_digit _) with true; cbv iota;
    rewrite (span_digits_numeral d rest Hr); reflexivity.
Qed.

Lemma match_integer_repr (z : Z) (rest : string) :
  delimited rest = true ->
  match_integer (int_repr z ++ rest) = Some (int_repr z, rest).
Proof.
  intros Hr. unfold int_repr.
  destruct z as [|p|p]; [reflexivity | |];
    cbn [Z.to_int NilZero.string_of_int]; rewrite string_of_pos_uint.
  - now apply match_integer_pos.
  - pose proof (match_integer_pos p rest Hr) as H.
    pose proof (DecimalPos.Unsigned.to_uint_nonnil p) as Hn.
    unfold match_integer in *. cbn [append].
    destruct (NilEmpty.string_of_uint (Pos.to_uint p) ++ rest) as [|c r] eqn:E;
      [discriminate H|].
    assert (c <> "-"%char) as Hc.
    { intros ->. destruct (Pos.to_uint p); cbn in E; try congruence;
        try (injection E as E1 _; discriminate E1). }
    destruct c as [[|] [|] [|] [|] [|] [|] [|] [|]]; try congruence;
      cbv beta iota in H |- *;
      match type of H with
      | (if ?b then _ else _) = _ =>
          destruct b; [injection H as <- <-; reflexivity|]
      end;
      match type of H with
      | (if ?b then _ else _) = _ => destruct b; [|discriminate H]
      end;
      destruct (span_digits _) as [ds rs]; injection H as <- <-; reflexivity.
Qed.

Lemma scan_number_int (z : Z) (rest : string) :
  delimited rest = true ->
  scan_number (int_repr z ++ rest) = Some (Returned (PInt z, rest)).
Proof.
  intros Hr. unfold scan_number, match_number.
  rewrite (match_integer_repr z rest Hr).
  rewrite (match_frac_delimited rest Hr), (match_exp_delimited rest Hr).
  now rewrite py_int_repr.
Qed.

End JsonFacts.

Section JsonRoundTrip.
Context {rt : Platform}.
Import Json.

Lemma starts_value_numeral (p : positive) (rest : string) :
  starts_value (NilEmpty.string_of_uint (Pos.to_uint p) ++ rest) = true.
Proof.
  pose proof (DecimalPos.Unsigned.to_uint_nonnil p) as Hn.
  destruct (Pos.to_uint p); [congruence | reflexivity ..].
Qed.

Lemma starts_value_int (z : Z) (rest : string) :
  starts_value (int_repr z ++ rest) = true.
Proof.
  unfold int_repr. destruct z as [|p|p]; [reflexivity | |];
    cbn [Z.to_int NilZero.string_of_int]; rewrite string_of_pos_uint.
  - apply starts_value_numeral.
  - reflexivity.
Qed.

Lemma starts_value_render (v : PyVal) (rest : string) :
  plain v = true -> starts_value (render v ++ rest) = true.
Proof.
  destruct v as [ | [|] | z | f | s | l | d ]; intros Hp;
    try reflexivity; try discriminate Hp.
  apply starts_value_int.
Qed.

(** A numeral goes through the chain of [scan_once] down to the number
    scanner. *)
Lemma scan_once_number (n : nat) (s : string) (o : Outcome (PyVal * string)) :
  match s with
  | String c _ => is_digit c || Ascii.eqb c "-"
  | EmptyString => false
  end = true ->
  scan_number s = Some o ->
  scan_once (S n) s = o.
Proof.
  destruct s as [|c r]; [discriminate|]. intros Hc Hs.
  destruct c as [[|] [|] [|] [|] [|] [|] [|] [|]];
    try (vm_compute in Hc; discriminate Hc);
    cbn -[scan_number]; rewrite Hs; reflexivity.
Qed.

Lemma numeric_head_int (z : Z) (rest : string) :
  match int_repr z ++ rest with
  | String c _ => is_digit c || Ascii.eqb c "-"
  | EmptyString => false
  end = true.
Proof.
  unfold int_repr. destruct z as [|p|p]; [reflexivity | |];
    cbn [Z.to_int NilZero.string_of_int]; rewrite string_of_pos_uint.
  - pose proof (DecimalPos.Unsigned.to_uint_nonnil p) as Hn.
    destruct (Pos.to_uint p); [congruence | reflexivity ..].
  - reflexivity.
Qed.

Lemma render_nonempty (v : PyVal) : plain v = true -> 1 <= String.length (render v).
Proof.
  intros Hp. pose proof (starts_value_render v "" Hp) as H.
  rewrite append_nil_r in H. destruct (render v); [discriminate | simpl; lia].
Qed.

Lemma array_items_render (scan : string -> Outcome (PyVal * string))
    (l : list PyVal) :
  forall (acc : list PyVal) (k : nat) (rest : string),
    l <> [] -> List.length l <= k ->
    forallb plain l = true ->
    Forall (fun x => forall rest', delimited rest' = true ->
                       scan (render x ++ rest') = Returned (x, rest')) l ->
    array_items scan k (join ", " (map render l) ++ "]" ++ rest) acc
    = Returned (PList (acc ++ l)%list, rest).
Proof.
  induction l as [|x l IH]; intros acc k rest Hne Hk Hp Hs; [congruence|].
  destruct k as [|k]; [simpl in Hk; lia|].
  inversion Hs as [|? ? Hx Hl]; subst.
  cbn [forallb] in Hp. apply andb_prop in Hp as [Hpx Hpl].
  destruct l as [|y l].
  - cbn [map join array_items].
    rewrite Hx by reflexivity. reflexivity.
  - change (join ", " (map render (x :: y :: l)))
      with (render x ++ ", " ++ join ", " (map render (y :: l))).
    rewrite !append_assoc. cbn [array_items].
    rewrite Hx by reflexivity. cbn [bind append skip_ws].
    change (is_ws ",") with false. cbv iota.
    change (Ascii.eqb "," "]") with false.
    change (Ascii.eqb "," ",") with true. cbv iota.
    change (skip_ws (String " " ?t)) with (skip_ws t).
    change (String "]" rest) with ("]" ++ rest).
    assert (starts_value (join ", " (map render (y :: l)) ++ "]" ++ rest) = true)
      as Hsv.
    { cbn [forallb] in Hpl. apply andb_prop in Hpl as [Hpy _].
      destruct l; cbn [map join]; rewrite ?append_assoc;
        now apply starts_value_render. }
    rewrite (skip_ws_value _ Hsv).
    rewrite (IH (acc ++ [x])%list k rest); try assumption;
      [now rewrite <- List.app_assoc | discriminate | simpl in *; lia].
Qed.

Lemma dict_set_fresh (k : string) (x : PyVal) (acc : list (PyVal * PyVal)) :
  string_keyed acc = true ->
  existsb (String.eqb k) (key_strings acc) = false ->
  dict_set k x acc = (acc ++ [(PStr k, x)])%list.
Proof.
  induction acc as [|[k' y] acc IH]; intros Hs Hk; [reflexivity|].
  cbn [string_keyed forallb fst] in Hs. destruct k'; try discriminate Hs.
  cbn [key_strings map existsb fst key_text] in Hk.
  apply orb_false_elim in Hk as [Hk1 Hk2].
  cbn [dict_set]. rewrite Hk1. cbn [app]. f_equal. now apply IH.
Qed.

End JsonRoundTrip.

Section JsonObjects.
Context {rt : Platform}.
Import Json.

Lemma render_dict (d : list (PyVal * PyVal)) :
  render (PDict d) = "{" ++ join ", " (map item_text d) ++ "}".
Proof. reflexivity. Qed.

Lemma item_text_quote (kv : PyVal * PyVal) :
  item_text kv
  = String dquote (escape_body (key_text (fst kv))
                   ++ String dquote (": " ++ render (snd kv))).
Proof.
  destruct kv as [k x]. unfold item_text, encode_basestring_ascii.
  cbn [fst snd append]. now rewrite append_assoc.
Qed.

Lemma join_items (d : list (PyVal * PyVal)) :
  d <> [] -> join ", " (map item_text d) = String dquote (items_text d).
Proof.
  induction d as [|kv d IH]; intros Hne; [congruence|].
  destruct d as [|kv' d].
  - cbn [map join items_text]. rewrite item_text_quote.
    cbn [append]. now rewrite append_nil_r.
  - change (join ", " (map item_text (kv :: kv' :: d)))
      with (item_text kv ++ ", " ++ join ", " (map item_text (kv' :: d))).
    rewrite IH by discriminate. rewrite item_text_quote.
    cbn [items_text append]. now rewrite ?append_assoc.
Qed.

Lemma distinct_middle (l1 l2 : list string) (s : string) :
  distinct (l1 ++ s :: l2)%list = true -> existsb (String.eqb s) l1 = false.
Proof.
  induction l1 as [|a l1 IH]; intros H; [reflexivity|].
  cbn [app distinct] in H. apply andb_prop in H as [Ha H].
  cbn [existsb]. rewrite (IH H), orb_false_r.
  apply negb_true_iff in Ha. rewrite existsb_app in Ha.
  apply orb_false_elim in Ha as [_ Ha]. cbn [existsb] in Ha.
  apply orb_false_elim in Ha as [Ha _]. now rewrite String.eqb_sym.
Qed.

Lemma build_fresh (d : list (PyVal * PyVal)) :
  forall acc,
    string_keyed acc = true -> string_keyed d = true ->
    distinct (key_strings acc ++ key_strings d)%list = true ->
    build d acc = (acc ++ d)%list.
Proof.
  induction d as [|[k x] d IH]; intros acc Ha Hd Hn.
  - cbn. now rewrite List.app_nil_r.
  - cbn [string_keyed forallb fst] in Hd. destruct k; try discriminate Hd.
    change (key_strings ((PStr s, x) :: d)) with (s :: key_strings d) in Hn.
    cbn [build fold_left fst snd key_text].
    rewrite (dict_set_fresh s x acc Ha (distinct_middle _ _ _ Hn)).
    change (fold_left _ d ?a) with (build d a).
    rewrite IH.
    + now rewrite <- List.app_assoc.
    + unfold string_keyed in *. rewrite forallb_app, Ha. reflexivity.
    + exact Hd.
    + unfold key_strings in *. rewrite map_app, <- List.app_assoc. exact Hn.
Qed.

Lemma object_items_render (scan : string -> Outcome (PyVal * string))
    (d : list (PyVal * PyVal)) :
  forall (acc : list (PyVal * PyVal)) (k : nat) (rest : string),
    d <> [] -> List.length d <= k ->
    forallb (fun kv => plain (snd kv)) d = true ->
    Forall (fun kv => forall rest', delimited rest' = true ->
              scan (render (snd kv) ++ rest') = Returned (snd kv, rest')) d ->
    object_items scan k (items_text d ++ "}" ++ rest) acc
    = Returned (PDict (build d acc), rest).
Proof.
  induction d as [|kv d IH]; intros acc k rest Hne Hk Hp Hs; [congruence|].
  destruct k as [|k]; [simpl in Hk; lia|].
  inversion Hs as [|? ? Hx Hl]; subst.
  cbn [forallb] in Hp. apply andb_prop in Hp as [Hpx Hpl].
  cbn [items_text object_items]. rewrite append_assoc. cbn [append].
  rewrite scanstring_escape_body. cbn [bind append skip_ws].
  change (is_ws ":") with false. cbv iota.
  change (Ascii.eqb ":" ":") with true. cbv iota.
  change (skip_ws (String " " ?t)) with (skip_ws t).
  destruct d as [|kv' d].
  - cbv iota. rewrite append_nil_r.
    rewrite (skip_ws_value (render (snd kv) ++ _))
      by now apply starts_value_render.
    rewrite Hx by reflexivity. reflexivity.
  - rewrite append_assoc. cbn [append].
    rewrite (skip_ws_value (render (snd kv) ++ _))
      by now apply starts_value_render.
    rewrite Hx by reflexivity.
    cbn [bind skip_ws].
    change (is_ws ",") with false. cbv iota.
    change (Ascii.eqb "," "}") with false.
    change (Ascii.eqb "," ",") with true. cbv iota.
    change (skip_ws (String " " ?t)) with (skip_ws t).
    cbn [skip_ws].
    change (is_ws dquote) with false. cbv iota.
    change (Ascii.eqb dquote dquote) with true. cbv iota.
    change (String "}" rest) with ("}" ++ rest).
    rewrite (IH (dict_set (key_text (fst kv)) (snd kv) acc) k rest);
      try assumption; [reflexivity | discriminate | simpl in *; lia].
Qed.

End JsonObjects.

Section JsonMain.
Context {rt : Platform}.
Import Json.

Lemma join_bounds (sep : string) (ls : list string) :
  Forall (fun s => 1 <= String.length s) ls ->
  List.length ls <= String.length (join sep ls)
  /\ Forall (fun s => String.length s <= String.length (join sep ls)) ls.
Proof.
  induction ls as [|x ls IH]; intros H; [split; [simpl; lia | constructor]|].
  inversion H as [|? ? Hx Hl]; subst. specialize (IH Hl) as [IH1 IH2].
  destruct ls as [|y ls].
  - cbn [join List.length]. split; [lia | constructor; [lia | constructor]].
  - change (join sep (x :: y :: ls)) with (x ++ sep ++ join sep (y :: ls)).
    rewrite !length_append. cbn [List.length] in *. split; [lia|].
    constructor; [lia|].
    eapply Forall_impl; [|exact IH2]. cbv beta. intros a Ha. lia.
Qed.

Lemma item_text_length (kv : PyVal * PyVal) :
  String.length (render (snd kv)) < String.length (item_text kv).
Proof.
  rewrite item_text_quote. cbn [String.length]. rewrite length_append.
  cbn [String.length]. rewrite length_append. cbn [String.length]. lia.
Qed.

Lemma plain_dict (d : list (PyVal * PyVal)) :
  plain (PDict d) = true ->
  string_keyed d = true
  /\ forallb (fun kv => plain (snd kv)) d = true
  /\ distinct (key_strings d) = true.
Proof.
  cbn [plain]. intros H. apply andb_prop in H as [H Hd].
  split; [|split; [|exact Hd]].
  - clear Hd. induction d as [|[k x] d IH]; [reflexivity|].
    cbn [forallb string_keyed fst] in *. apply andb_prop in H as [Hk H].
    destruct k; try discriminate Hk. now apply IH.
  - clear Hd. induction d as [|[k x] d IH]; [reflexivity|].
    cbn [forallb snd] in *. apply andb_prop in H as [Hk H].
    destruct k; try discriminate Hk. rewrite Hk. now apply IH.
Qed.

(** The scanner reads a rendered plain value back, whatever follows it. *)
Lemma scan_once_render (v : PyVal) :
  plain v = true ->
  forall (fuel : nat) (rest : string),
    String.length (render v) <= fuel -> delimited rest = true ->
    scan_once fuel (render v ++ rest) = Returned (v, rest).
Proof.
  induction v as [ | b | z | f | s | l IHl | d IHd ] using PyVal_nested_ind;
    intros Hp fuel rest Hf Hr.
  - destruct fuel; [simpl in Hf; lia | reflexivity].
  - destruct fuel; [destruct b; simpl in Hf; lia | destruct b; reflexivity].
  - pose proof (render_nonempty (PInt z) Hp) as Hn.
    destruct fuel; [lia|].
    apply scan_once_number; [apply numeric_head_int | now apply scan_number_int].
  - discriminate Hp.
  - destruct fuel; [simpl in Hf; lia|].
    cbn [render]. unfold encode_basestring_ascii. cbn [append].
    rewrite append_assoc. cbn [append scan_once].
    change (Ascii.eqb dquote dquote) with true. cbv iota.
    now rewrite scanstring_escape_body.
  - destruct fuel as [|n]; [simpl in Hf; lia|].
    cbn [plain] in Hp.
    destruct l as [|x l]; [reflexivity|].
    change (render (PList (x :: l)))
      with ("[" ++ join ", " (map render (x :: l)) ++ "]") in *.
    assert (Forall (fun s => 1 <= String.length s) (map render (x :: l))) as Hne.
    { apply Forall_map. apply Forall_forall. intros y Hy.
      apply render_nonempty. rewrite forallb_forall in Hp. now apply Hp. }
    destruct (join_bounds ", " _ Hne) as [B1 B2].
    rewrite length_map in B1. rewrite Forall_map in B2.
    cbn [append String.length] in Hf. rewrite length_append in Hf.
    cbn [String.length] in Hf.
    cbn [append]. rewrite append_assoc.
    assert (starts_value (join ", " (map render (x :: l)) ++ "]" ++ rest) = true)
      as Hsv.
    { cbn [forallb] in Hp. apply andb_prop in Hp as [Hpx _].
      destruct l; cbn [map join]; rewrite ?append_assoc;
        now apply starts_value_render. }
    pose proof (array_items_render (scan_once n) (x :: l) [] n rest) as A.
    cbn [scan_once].
    change (Ascii.eqb "[" dquote) with false.
    change (Ascii.eqb "[" "{") with false.
    change (Ascii.eqb "[" "[") with true. cbv iota.
    rewrite (skip_ws_value _ Hsv).
    destruct (join ", " (map render (x :: l)) ++ "]" ++ rest) as [|q r1] eqn:E;
      [discriminate Hsv|].
    cbn [starts_value] in Hsv.
    assert (Ascii.eqb q "]" = false) as Hq.
    { destruct q as [[|] [|] [|] [|] [|] [|] [|] [|]];
        try reflexivity; vm_compute in Hsv; discriminate Hsv. }
    rewrite Hq. apply A; [discriminate | lia | exact Hp |].
    rewrite Forall_forall in IHl, B2 |- *. intros y Hy rest' Hr'.
    apply (IHl y Hy); [|specialize (B2 y Hy); lia | exact Hr'].
    rewrite forallb_forall in Hp. now apply Hp.
  - destruct fuel as [|n]; [simpl in Hf; lia|].
    destruct (plain_dict d Hp) as (Hk & Hv & Hd).
    destruct d as [|kv d]; [reflexivity|].
    rewrite render_dict in *.
    assert (Forall (fun s => 1 <= String.length s) (map item_text (kv :: d)))
      as Hne.
    { apply Forall_map. apply Forall_forall. intros y _.
      pose proof (item_text_length y). lia. }
    destruct (join_bounds ", " _ Hne) as [B1 B2].
    rewrite length_map in B1. rewrite Forall_map in B2.
    cbn [append String.length] in Hf. rewrite length_append in Hf.
    cbn [String.length] in Hf.
    rewrite join_items in * by discriminate.
    cbn [String.length] in Hf, B1.
    cbn [append]. rewrite append_assoc.
    pose proof (object_items_render (scan_once n) (kv :: d) [] n rest) as A.
    cbn [scan_once skip_ws].
    change (Ascii.eqb "{" dquote) with false.
    change (Ascii.eqb "{" "{") with true. cbv iota.
    change (is_ws dquote) with false. cbv iota.
    change (Ascii.eqb dquote "}") with false.
    change (Ascii.eqb dquote dquote) with true. cbv iota.
    rewrite A; [| discriminate | lia | exact Hv |].
    + rewrite build_fresh; [reflexivity | reflexivity | exact Hk | exact Hd].
    + rewrite Forall_forall in IHd, B2 |- *. intros y Hy rest' Hr'.
      apply (IHd y Hy); [| | exact Hr'].
      * rewrite forallb_forall in Hv. now apply Hv.
      * specialize (B2 y Hy). pose proof (item_text_length y).
        cbn [String.length] in B2. lia.
Qed.

(** [json.loads(json.dumps(v))] is [v] on plain values. *)
Lemma loads_dumps (v : PyVal) :
  plain v = true ->
  (s <- dumps v ;; loads s) = Returned v.
Proof.
  intros Hp. unfold dumps.
  assert (serializable v = true) as Hs.
  { clear - Hp. induction v as [ | | | | | l IHl | d IHd ] using PyVal_nested_ind;
      try reflexivity.
    - cbn [plain serializable] in *. rewrite forallb_forall in Hp |- *.
      rewrite Forall_forall in IHl. intros x Hx. now apply IHl, Hp.
    - destruct (plain_dict d Hp) as (Hk & Hv & _). clear Hp.
      cbn [serializable]. rewrite forallb_forall in Hv |- *.
      unfold string_keyed in Hk. rewrite forallb_forall in Hk.
      rewrite Forall_forall in IHd. intros [k x] Hx.
      specialize (Hk _ Hx). specialize (Hv _ Hx). specialize (IHd _ Hx).
      cbn [fst snd] in *. destruct k; try discriminate Hk.
      now rewrite (IHd Hv). }
  rewrite Hs. cbn [bind]. unfold loads.
  rewrite (skip_ws_value (render v)).
  - rewrite <- (append_nil_r (render v)) at 2.
    rewrite scan_once_render; [reflexivity | exact Hp | lia | reflexivity].
  - rewrite <- (append_nil_r (render v)). now apply starts_value_render.
Qed.

End JsonMain.

(* ================================================================== *)
(** * The attribute codec *)
(* ================================================================== *)

Section Codec.
Context {rt : Platform}.
Import DatabaseManager.


(** A value for which [json.dumps] raises is stored by neither write path;
    [None], which is none of the five kinds, comes back as the text of its
    JSON form. *)
Lemma none_comes_back_as_text : encode_decode PNone = Returned (PStr "null").
Proof. reflexivity. Qed.

End Codec.



(* ================================================================== *)
(** * Transactions *)
(* ================================================================== *)

Section Transactions.
Import Sqlite Spec.

Lemma pop_fault_keeps (w : World) :
  persisted (snd (pop_fault w)) = persisted w
  /\ now (snd (pop_fault w)) = now w
  /\ now_compact (snd (pop_fault w)) = now_compact w.
Proof. unfold pop_fault. destruct (faults w); repeat split. Qed.

Lemma frame_refl (c : Conn) : frame c c.
Proof. repeat split. Qed.

Lemma frame_trans (a b c : Conn) : frame a b -> frame b c -> frame a c.
Proof.
  unfold frame. intros (H1 & H2 & H3 & H4) (K1 & K2 & K3 & K4).
  repeat split; congruence.
Qed.

Lemma ret_spec {A} (a : A) :
  tx_spec (ret a) (fun r _ db db' => r = a /\ db' = db).
Proof. intros c _. cbn. repeat split. Qed.

Lemma lift_spec {A} (o : Outcome A) :
  (forall e, o = Raised e -> is_python_exception e = true) ->
  tx_spec (lift o) (fun r _ db db' => o = Returned r /\ db' = db).
Proof.
  intros H c _. unfold lift. destruct o as [a|e].
  - repeat split.
  - split; [now apply H | apply frame_refl].
Qed.

Lemma bind_spec {A B} (m : Tx A) (k : A -> Tx B)
    (P : A -> string -> Database -> Database -> Prop)
    (Q : A -> B -> string -> Database -> Database -> Prop) :
  tx_spec m P ->
  (forall a, tx_spec (k a) (Q a)) ->
  tx_spec (mbind m k)
    (fun b ts db db'' => exists a mid, P a ts db mid /\ Q a b ts mid db'').
Proof.
  intros Hm Hk c Hc. unfold mbind. specialize (Hm c Hc).
  destruct (m c) as [[a|e] c1].
  - destruct Hm as [HP F1].
    assert (foreign_keys c1 = false) as Hc1.
    { destruct F1 as (_ & _ & _ & F). congruence. }
    specialize (Hk a c1 Hc1).
    assert (now (world c1) = now (world c)) as Hn by apply F1.
    destruct (k a c1) as [[b|e] c2].
    + destruct Hk as [HQ F2]. split; [|eapply frame_trans; eassumption].
      exists a, (work c1). rewrite Hn in HQ. now split.
    + destruct Hk as [He F2]. split; [exact He | eapply frame_trans; eassumption].
  - exact Hm.
Qed.

Lemma weaken_spec {A} (m : Tx A)
    (P Q : A -> string -> Database -> Database -> Prop) :
  tx_spec m P ->
  (forall a ts db db', P a ts db db' -> Q a ts db db') ->
  tx_spec m Q.
Proof.
  intros Hm HPQ c Hc. specialize (Hm c Hc).
  destruct (m c) as [[a|e] c1]; [|exact Hm].
  destruct Hm as [HP F]. split; [now apply HPQ | exact F].
Qed.

Lemma execute_spec (stmt : bool -> string -> Database -> Outcome Database) :
  (forall ts db e, stmt false ts db = Raised e -> is_python_exception e = true) ->
  tx_spec (execute stmt) (fun _ ts db db' => stmt false ts db = Returned db').
Proof.
  intros Hs c Hc. unfold execute.
  pose proof (pop_fault_keeps (world c)) as (K1 & K2 & K3).
  destruct (pop_fault (world c)) as [[|] w']; cbn [snd] in *.
  - split; [reflexivity | repeat split; assumption].
  - rewrite Hc, K2.
    destruct (stmt false (now (world c)) (work c)) as [db'|e] eqn:E.
    + split; [reflexivity | repeat split; cbn; congruence].
    + split; [eapply Hs; eassumption | repeat split; cbn; congruence].
Qed.

Lemma query_spec {A} (q : Database -> A) :
  tx_spec (query q) (fun r _ db db' => r = q db /\ db' = db).
Proof.
  intros c Hc. unfold query.
  pose proof (pop_fault_keeps (world c)) as (K1 & K2 & K3).
  destruct (pop_fault (world c)) as [[|] w']; cbn [snd] in *.
  - split; [reflexivity | repeat split; assumption].
  - split; [split; reflexivity | repeat split; cbn; congruence].
Qed.

Lemma for_each_spec {X} (l : list X) (body : X -> Tx unit)
    (step : X -> string -> Database -> Database -> Prop) :
  (forall x, tx_spec (body x) (fun _ => step x)) ->
  tx_spec (for_each l body) (fun _ => steps step l).
Proof.
  intros Hb. induction l as [|x l IH]; cbn [for_each steps].
  - eapply weaken_spec; [apply (ret_spec tt)|]. cbv beta. intros a ts db db' [Ha H].
    exact H.
  - eapply weaken_spec; [eapply bind_spec; [apply Hb | intros ?; apply IH]|].
    cbv beta. intros a ts db db' (a' & mid & H1 & H2). now exists mid.
Qed.

(** The committed database after a scoped transaction: what the body made
    of it if the body returned and the commit went through, else what it
    was. *)
Lemma get_connection_spec {rt : Platform} {A} (body : Tx A)
    (post : A -> string -> Database -> Database -> Prop) :
  tx_spec body post ->
  forall w,
    match DatabaseManager.get_connection body w with
    | (Returned a, w') =>
        post a (now w) (persisted w) (persisted w')
        /\ now w' = now w /\ now_compact w' = now_compact w
    | (Raised e, w') =>
        is_python_exception e = true
        /\ persisted w' = persisted w
        /\ now w' = now w /\ now_compact w' = now_compact w
    end.
Proof.
  intros Hb w. unfold DatabaseManager.get_connection, connect.
  pose proof (pop_fault_keeps w) as (K1 & K2 & K3).
  destruct (pop_fault w) as [[|] w1]; cbn [snd] in *.
  - repeat split; assumption.
  - specialize (Hb {| world := w1; work := persisted w1; foreign_keys := false |}
                   eq_refl).
    destruct (body _) as [[a|e] c1]; cbn [world work] in Hb.
    + destruct Hb as [HP (F1 & F2 & F3 & _)]. cbn [world] in F1, F2, F3.
      pose proof (pop_fault_keeps (world c1)) as (L1 & L2 & L3).
      destruct (pop_fault (world c1)) as [[|] w2]; cbn [snd] in *.
      * repeat split; congruence.
      * unfold with_persisted. cbn [persisted now now_compact].
        rewrite K2, K1 in HP. repeat split; [exact HP | congruence | congruence].
    + destruct Hb as [He (F1 & F2 & F3 & _)]. cbn [world] in F1, F2, F3.
      repeat split; congruence.
Qed.

End Transactions.

(* ================================================================== *)
(** * [add_facility] *)
(* ================================================================== *)

Section AddFacility.
Context {rt : Platform}.
Import Sqlite Spec DatabaseManager.

Lemma value_text_raises (value : PyVal) (e : Exn) :
  value_text value = Raised e -> is_python_exception e = true.
Proof.
  unfold value_text, Json.dumps.
  destruct value; try discriminate;
    match goal with
    | |- context [if ?b then _ else _] => destruct b
    end; intros [= <-]; reflexivity.
Qed.

Lemma value_text_stored (value : PyVal) (s : string) :
  value_text value = Returned s -> stored_text value = s.
Proof. unfold stored_text. now intros ->. Qed.

Lemma insert_service_raises fid svc ts db e :
  insert_service fid svc false ts db = Raised e -> is_python_exception e = true.
Proof.
  unfold insert_service. destruct (has_service _ _ _); cbn [andb]; intros [= <-].
  reflexivity.
Qed.

Lemma insert_attribute_raises fid key s t ts db e :
  insert_attribute fid key s t false ts db = Raised e ->
  is_python_exception e = true.
Proof.
  unfold insert_attribute. destruct (has_attribute _ _ _); cbn [andb]; intros [= <-].
  reflexivity.
Qed.

Lemma steps_insert_service (fid : string) (services : list string) :
  forall ts db db',
    steps (fun svc ts db db' => insert_service fid svc false ts db = Returned db')
          services ts db db' ->
    db' = {| facilities := facilities db;
             facility_services :=
               (facility_services db ++ map (service_row fid) services)%list;
             facility_attributes := facility_attributes db |}
    /\ Json.distinct services = true
    /\ (forall svc, In svc services -> has_service fid svc db = false).
Proof.
  induction services as [|x r IH]; intros ts db db' H; cbn [steps] in H.
  - subst db'. destruct db. cbn [map]. rewrite List.app_nil_r.
    repeat split. intros svc [].
  - destruct H as (mid & H1 & H2).
    unfold insert_service in H1.
    destruct (has_service fid x db) eqn:Hx; [discriminate H1|].
    cbn [andb] in H1. injection H1 as <-.
    destruct (IH _ _ _ H2) as (E & Hd & Hn). clear IH H2.
    cbn [facilities facility_services facility_attributes] in E.
    assert (forall svc, In svc r ->
              String.eqb x svc = false /\ has_service fid svc db = false) as Hr.
    { intros svc Hin. specialize (Hn svc Hin). unfold has_service in Hn |- *.
      cbn [facility_services] in Hn. rewrite existsb_app in Hn.
      apply orb_false_elim in Hn as [Hn1 Hn2]. split; [|exact Hn1].
      cbn [existsb svc_facility_id service_name] in Hn2.
      rewrite String.eqb_refl, orb_false_r in Hn2. exact Hn2. }
    split; [|split].
    + rewrite E. cbn [map]. now rewrite <- List.app_assoc.
    + cbn [Json.distinct]. rewrite Hd, andb_true_r. apply negb_true_iff.
      clear - Hr. induction r as [|y r IHr]; [reflexivity|].
      cbn [existsb]. rewrite (proj1 (Hr y (or_introl eq_refl))).
      apply IHr. intros svc Hin. apply Hr. now right.
    + intros svc [<- | Hin]; [exact Hx | now apply Hr].
Qed.

Lemma steps_insert_attribute (fid : string) (items : list (string * PyVal)) :
  forall ts db db',
    steps (fun kv ts db db' =>
             exists s,
               value_text (snd kv) = Returned s
               /\ insert_attribute fid (fst kv) s
                    (_determine_attribute_type (snd kv)) false ts db
                  = Returned db')
          items ts db db' ->
    db' = {| facilities := facilities db;
             facility_services := facility_services db;
             facility_attributes :=
               (facility_attributes db ++ map (attribute_row fid) items)%list |}.
Proof.
  induction items as [|[k v] r IH]; intros ts db db' H; cbn [steps] in H.
  - subst db'. destruct db. cbn [map]. now rewrite List.app_nil_r.
  - destruct H as (mid & (s & Hs & H1) & H2). cbn [fst snd] in *.
    unfold insert_attribute in H1.
    destruct (has_attribute _ _ _); [discriminate H1|].
    cbn [andb] in H1. injection H1 as <-.
    rewrite (IH _ _ _ H2). cbn [facilities facility_services facility_attributes map].
    unfold attribute_row at 2. cbn [fst snd].
    rewrite (value_text_stored _ _ Hs). now rewrite <- List.app_assoc.
Qed.

(** The body of the [with] block of [add_facility]: if it returns, the
    working copy holds the three writes, and no service name came twice. *)
Lemma add_facility_body
    (fid name ftype addr : string) (lat lon : float)
    (services : list string) (rate : option float) (ph : option string)
    (attributes : option (list (string * PyVal))) :
  tx_spec
    (execute (insert_or_replace_facility fid name ftype addr lat lon rate ph) ;;;
     execute (delete_services fid) ;;;
     for_each services (fun service => execute (insert_service fid service)) ;;;
     execute (delete_attributes fid) ;;;
     match attributes with
     | Some ((_ :: _) as items) =>
         for_each items
           (fun kv =>
              let '(key, value) := kv in
              let attr_type := _determine_attribute_type value in
              value_str <~ lift (value_text value) ;;
              execute (insert_attribute fid key value_str attr_type))
     | _ => ret tt
     end ;;;
     ret true)
    (fun r ts db db' =>
       r = true
       /\ db' = full_write fid name ftype addr lat lon services rate ph
                  attributes ts db
       /\ Json.distinct services = true).
Proof.
  eapply weaken_spec.
  - eapply bind_spec; [apply execute_spec; intros ? ? ? [=] | intros ?].
    eapply bind_spec; [apply execute_spec; intros ? ? ? [=] | intros ?].
    eapply bind_spec;
      [apply for_each_spec; intros x; apply execute_spec;
       apply insert_service_raises | intros ?].
    eapply bind_spec; [apply execute_spec; intros ? ? ? [=] | intros ?].
    eapply bind_spec; [| intros ?; apply (ret_spec true)].
    instantiate
      (1 := fun _ ts db db' =>
              db' = {| facilities := facilities db;
                       facility_services := facility_services db;
                       facility_attributes :=
                         (facility_attributes db
                          ++ map (attribute_row fid) (items_of attributes))%list |}).
    destruct attributes as [[|kv items]|].
    + eapply weaken_spec; [apply (ret_spec tt)|]. cbv beta.
      intros ? ? db db' [_ ->]. destruct db. cbn. now rewrite List.app_nil_r.
    + eapply weaken_spec.
      * apply for_each_spec with
          (step := fun kv ts db db' =>
                     exists s,
                       value_text (snd kv) = Returned s
                       /\ insert_attribute fid (fst kv) s
                            (_determine_attribute_type (snd kv)) false ts db
                          = Returned db').
        intros [k v]. eapply weaken_spec.
        -- eapply bind_spec;
             [apply lift_spec, value_text_raises
             | intros s; apply execute_spec; apply insert_attribute_raises].
        -- cbv beta. intros ? ts db db' (s & mid & [Hs ->] & H).
           exists s. now split.
      * cbv beta. intros ? ts db db' H. cbn [items_of].
        now apply steps_insert_attribute in H.
    + eapply weaken_spec; [apply (ret_spec tt)|]. cbv beta.
      intros ? ? db db' [_ ->]. destruct db. cbn. now rewrite List.app_nil_r.
  - cbv beta.
    intros r ts db db'
      (? & db1 & H1 & ? & db2 & H2 & ? & db3 & H3 & ? & db4 & H4
         & ? & db5 & H5 & Hr & ->).
    apply steps_insert_service in H3 as (E3 & Hd & _).
    injection H1 as <-. injection H2 as <-. injection H4 as <-.
    subst db3 db5 r. split; [reflexivity | split; [|exact Hd]].
    reflexivity.
Qed.

(** [add_facility] reports a boolean, and the committed database afterwards
    is either the complete write or what it was. *)
Lemma add_facility_outcome
    (fid name ftype addr : string) (lat lon : float)
    (services : list string) (rate : option float) (ph : option string)
    (attributes : option (list (string * PyVal))) (w : World) :
  (fst (add_facility fid name ftype addr lat lon services rate ph attributes w)
   = Returned true
   /\ persisted
        (snd (add_facility fid name ftype addr lat lon services rate ph
                attributes w))
      = full_write fid name ftype addr lat lon services rate ph attributes
          (now w) (persisted w)
   /\ Json.distinct services = true)
  \/ (fst (add_facility fid name ftype addr lat lon services rate ph attributes w)
      = Returned false
      /\ persisted
           (snd (add_facility fid name ftype addr lat lon services rate ph
                   attributes w))
         = persisted w).
Proof.
  unfold add_facility, try_except.
  pose proof (get_connection_spec _ _
                (add_facility_body fid name ftype addr lat lon services rate ph
                   attributes) w) as H.
  destruct (get_connection _ w) as [[r|e] w'].
  - destruct H as ((-> & E & Hd) & _). left. cbn [fst snd]. now repeat split.
  - destruct H as (He & E & _). rewrite He. right. cbn. now split.
Qed.

End AddFacility.

Section AddFacilityClaims.
Context {rt : Platform}.
Import Sqlite Spec DatabaseManager.

Lemma services_of_full_write
    (fid name ftype addr : string) (lat lon : float)
    (services : list string) (rate : option float) (ph : option string)
    (attributes : option (list (string * PyVal))) (ts : string) (db : Database) :
  services_of fid
    (full_write fid name ftype addr lat lon services rate ph attributes ts db)
  = map (service_row fid) services.
Proof.
  unfold services_of, full_write. cbn [facility_services].
  rewrite filter_app.
  assert (filter (fun r => String.eqb (svc_facility_id r) fid)
            (filter (fun r => negb (String.eqb (svc_facility_id r) fid))
               (facility_services db)) = []) as ->.
  { induction (facility_services db) as [|r l IH]; [reflexivity|].
    cbn [filter]. destruct (String.eqb (svc_facility_id r) fid) eqn:E;
      cbn [negb filter]; [exact IH | now rewrite E]. }
  cbn [app]. induction services as [|s l IH]; [reflexivity|].
  cbn [map filter service_row svc_facility_id].
  rewrite String.eqb_refl. now rewrite IH.
Qed.

Lemma attributes_of_full_write
    (fid name ftype addr : string) (lat lon : float)
    (services : list string) (rate : option float) (ph : option string)
    (attributes : option (list (string * PyVal))) (ts : string) (db : Database) :
  attributes_of fid
    (full_write fid name ftype addr lat lon services rate ph attributes ts db)
  = map (attribute_row fid) (items_of attributes).
Proof.
  unfold attributes_of, full_write. cbn [facility_attributes].
  rewrite filter_app.
  assert (filter (fun r => String.eqb (attr_facility_id r) fid)
            (filter (fun r => negb (String.eqb (attr_facility_id r) fid))
               (facility_attributes db)) = []) as ->.
  { induction (facility_attributes db) as [|r l IH]; [reflexivity|].
    cbn [filter]. destruct (String.eqb (attr_facility_id r) fid) eqn:E;
      cbn [negb filter]; [exact IH | now rewrite E]. }
  cbn [app]. induction (items_of attributes) as [|kv l IH]; [reflexivity|].
  cbn [map filter attribute_row attr_facility_id].
  rewrite String.eqb_refl. now rewrite IH.
Qed.


(** C3: for every facility id present in the store, after an [add_facility]
    with that id that returned [True] the rows of the facility in
    [facility_services] are exactly the supplied service names and its rows in
    [facility_attributes] are exactly the supplied keys with their encoded
    values: nothing of the previous write is left, and [get_facility] lists
    the supplied names in order. *)
Theorem readd_replaces_services_and_attributes
    (fid name ftype addr : string) (lat lon : float)
    (services : list string) (rate : option float) (ph : option string)
    (attributes : option (list (string * PyVal))) (w : World) :
  let r := add_facility fid name ftype addr lat lon services rate ph attributes w in
  has_facility fid (persisted w) = true ->
  fst r = Returned true ->
  services_of fid (persisted (snd r)) = map (service_row fid) services
  /\ attributes_of fid (persisted (snd r))
     = map (attribute_row fid) (items_of attributes)
  /\ select_services fid (persisted (snd r)) = sort_strings services.
Proof.
  cbv zeta. intros _ Hr.
  destruct (add_facility_outcome fid name ftype addr lat lon services rate ph
              attributes w) as [(_ & H2 & _) | [H _]]; [|congruence].
  unfold select_services. rewrite H2.
  rewrite services_of_full_write, attributes_of_full_write.
  repeat split. f_equal. rewrite map_map. cbn [service_row service_name].
  apply map_id.
Qed.

(** C10: for every call of [add_facility] whose list of services holds a
    name twice, [UNIQUE(facility_id, service_name)] makes the second insert
    raise, the transaction is rolled back, the call returns [False] and the
    committed database is what it was, the facility row written before the
    services included. *)
Theorem duplicate_service_rolls_back
    (fid name ftype addr : string) (lat lon : float)
    (services : list string) (rate : option float) (ph : option string)
    (attributes : option (list (string * PyVal))) (w : World) :
  let r := add_facility fid name ftype addr lat lon services rate ph attributes w in
  Json.distinct services = false ->
  fst r = Returned false /\ persisted (snd r) = persisted w.
Proof.
  cbv zeta. intros Hd.
  destruct (add_facility_outcome fid name ftype addr lat lon services rate ph
              attributes w) as [(_ & _ & H) | H]; [congruence | exact H].
Qed.

End AddFacilityClaims.

Lemma readd_replaces_services_and_attributes_witness :
  let r :=
    @DatabaseManager.add_facility Sample.glibc
      "hosp_001" "City General Hospital" "hospital" "1 New Rd"
      40.7128%float (-74.0060)%float ["dialysis"; "cardiology"]
      None None (Some [("bed_count", PInt 300)]) Sample.seeded in
  Sqlite.has_facility "hosp_001" (Sqlite.persisted Sample.seeded) = true
  /\ fst r = Returned true
  /\ map Sqlite.service_name (Sqlite.services_of "hosp_001" (Sqlite.persisted (snd r)))
     = ["dialysis"; "cardiology"]
  /\ map Sqlite.attribute_key
       (Sqlite.attributes_of "hosp_001" (Sqlite.persisted (snd r)))
     = ["bed_count"]
  /\ Sqlite.select_services "hosp_001" (Sqlite.persisted (snd r))
     = ["cardiology"; "dialysis"].
Proof.
  cbv zeta.
  pose proof (@readd_replaces_services_and_attributes Sample.glibc
                "hosp_001" "City General Hospital" "hospital" "1 New Rd"
                40.7128%float (-74.0060)%float ["dialysis"; "cardiology"]
                None None (Some [("bed_count", PInt 300)]) Sample.seeded
                eq_refl eq_refl) as (H1 & H2 & H3).
  rewrite H1, H2, H3. repeat split.
Defined.

Lemma duplicate_service_rolls_back_witness :
  let r :=
    @DatabaseManager.add_facility Sample.glibc
      "clinic_009" "Twice" "clinic" "9 Elm St"
      40.75%float (-73.99)%float ["xray"; "lab_tests"; "xray"]
      None None None Sample.seeded in
  Json.distinct ["xray"; "lab_tests"; "xray"] = false
  /\ fst r = Returned false
  /\ Sqlite.persisted (snd r) = Sqlite.persisted Sample.seeded.
Proof.
  cbv zeta. split; [reflexivity|].
  apply (@duplicate_service_rolls_back Sample.glibc). reflexivity.
Defined.

(* ================================================================== *)
(** * [get_facility], [delete_facility], [update_facility_attribute] *)
(* ================================================================== *)

(** One call that reaches the storage: it faults or goes through. *)
Ltac pop_storage w w' K :=
  cbn [snd fst Sqlite.world Sqlite.work Sqlite.foreign_keys is_python_exception];
  pose proof (pop_fault_keeps w) as (K & _);
  destruct (Sqlite.pop_fault w) as [[|] w'];
  cbn [snd fst Sqlite.world Sqlite.work Sqlite.foreign_keys is_python_exception] in *.

Section ReadUpdateDelete.
Context {rt : Platform}.
Import Sqlite Spec DatabaseManager.

(** What [get_facility] can answer: nothing, the facility as the committed
    database has it, or a decoding that left the model. It writes nothing. *)
Lemma get_facility_cases (fid : string) (w : World) :
  persisted (snd (get_facility fid w)) = persisted w
  /\ (fst (get_facility fid w) = Returned None
      \/ (exists r attrs,
            select_facility fid (persisted w) = Some r
            /\ parse_rows (select_attributes fid (persisted w)) [] = Returned attrs
            /\ fst (get_facility fid w)
               = Returned (Some {| row := r;
                                   services := select_services fid (persisted w);
                                   attributes := attrs;
                                   distance_miles := None |}))
      \/ (exists what,
            parse_rows (select_attributes fid (persisted w)) []
            = Raised (OutsideModel what)
            /\ fst (get_facility fid w) = Raised (OutsideModel what))).
Proof.
  unfold get_facility, try_except, get_connection, connect, mbind, query, lift, ret.
  pop_storage w w1 K1; [split; [exact K1 | left; reflexivity]|].
  pop_storage w1 w2 K2; [split; [congruence | left; reflexivity]|].
  rewrite K1.
  destruct (select_facility fid (persisted w)) as [r|] eqn:Hsel.
  - pop_storage w2 w3 K3; [split; [congruence | left; reflexivity]|].
    pop_storage w3 w4 K4; [split; [congruence | left; reflexivity]|].
    destruct (parse_rows (select_attributes fid (persisted w)) []) as [attrs|e]
      eqn:Hp.
    + pop_storage w4 w5 K5; [split; [congruence | left; reflexivity]|].
      unfold with_persisted. cbn [persisted]. split; [congruence|].
      right; left. exists r, attrs. repeat split.
    + destruct (is_python_exception e) eqn:He; cbn [fst snd world].
      * split; [congruence | left; reflexivity].
      * split; [congruence|]. right; right.
        destruct e; try discriminate He. now exists what.
  - pop_storage w2 w3 K3; [split; [congruence | left; reflexivity]|].
    unfold with_persisted. cbn [persisted]. split; [congruence | left; reflexivity].
Qed.

Lemma get_facility_absent (fid : string) (w : World) :
  select_facility fid (persisted w) = None ->
  fst (get_facility fid w) = Returned None.
Proof.
  intros Hs.
  destruct (get_facility_cases fid w) as (_ & [H | [H | H]]); [exact H | |].
  - destruct H as (r & attrs & H & _). congruence.
  - destruct H as (what & _ & H). revert H.
    unfold get_facility, try_except, get_connection, connect, mbind,
      query, lift, ret.
    pop_storage w w1 K1; [discriminate|].
    pop_storage w1 w2 K2; [discriminate|].
    rewrite K1, Hs. pop_storage w2 w3 K3; discriminate.
Qed.



(** What [delete_facility] commits: the facility row is removed, under the
    [foreign_keys] setting of a fresh connection. *)
Lemma delete_facility_outcome (fid : string) (w : World) :
  (fst (delete_facility fid w) = Returned true
   /\ persisted (snd (delete_facility fid w))
      = remove_facility false fid (persisted w))
  \/ (fst (delete_facility fid w) = Returned false
      /\ persisted (snd (delete_facility fid w)) = persisted w).
Proof.
  unfold delete_facility, try_except.
  assert (tx_spec (execute (delete_facility_row fid) ;;; ret true)
            (fun r ts db db' => r = true /\ db' = remove_facility false fid db))
    as Hb.
  { eapply weaken_spec.
    - eapply bind_spec; [apply execute_spec; intros ? ? ? [=] | intros ?].
      apply (ret_spec true).
    - cbv beta. intros r ts db db' (? & mid & H1 & -> & ->).
      injection H1 as <-. now split. }
  pose proof (get_connection_spec _ _ Hb w) as H.
  destruct (get_connection _ w) as [[r|e] w'].
  - destruct H as ((-> & E) & _). left. cbn [fst snd]. now split.
  - destruct H as (He & E & _). rewrite He. right. cbn. now split.
Qed.

(** Without [PRAGMA foreign_keys = ON] the rows of the two child relations
    stay, whatever [delete_facility] returns. *)
Lemma delete_facility_keeps_children (fid : string) (w : World) :
  facility_services (persisted (snd (delete_facility fid w)))
  = facility_services (persisted w)
  /\ facility_attributes (persisted (snd (delete_facility fid w)))
     = facility_attributes (persisted w).
Proof.
  destruct (delete_facility_outcome fid w) as [[_ ->] | [_ ->]];
    split; reflexivity.
Qed.

(** With the pragma on, the same statement would remove them. *)
Lemma remove_facility_cascades (fid : string) (db : Database) :
  services_of fid (remove_facility true fid db) = []
  /\ attributes_of fid (remove_facility true fid db) = [].
Proof.
  unfold services_of, attributes_of, remove_facility.
  cbn [facility_services facility_attributes]. split.
  - induction (facility_services db) as [|r l IH]; [reflexivity|].
    cbn [filter]. destruct (String.eqb (svc_facility_id r) fid) eqn:E;
      cbn [negb filter]; [exact IH | now rewrite E].
  - induction (facility_attributes db) as [|r l IH]; [reflexivity|].
    cbn [filter]. destruct (String.eqb (attr_facility_id r) fid) eqn:E;
      cbn [negb filter]; [exact IH | now rewrite E].
Qed.

(** What [update_facility_attribute] commits. *)
Lemma update_facility_attribute_outcome
    (fid key : string) (value : PyVal) (w : World) :
  (fst (update_facility_attribute fid key value w) = Returned true
   /\ exists db1,
        insert_or_replace_attribute fid key (stored_text value)
          (_determine_attribute_type value) false (now w) (persisted w)
        = Returned db1
        /\ touch_facility fid false (now w) db1
           = Returned (persisted (snd (update_facility_attribute fid key value w))))
  \/ (fst (update_facility_attribute fid key value w) = Returned false
      /\ persisted (snd (update_facility_attribute fid key value w)) = persisted w).
Proof.
  unfold update_facility_attribute, try_except.
  assert (tx_spec
            (let attr_type := _determine_attribute_type value in
             value_str <~ lift (value_text value) ;;
             execute (insert_or_replace_attribute fid key value_str attr_type) ;;;
             execute (touch_facility fid) ;;;
             ret true)
            (fun r ts db db' =>
               r = true
               /\ exists db1,
                    insert_or_replace_attribute fid key (stored_text value)
                      (_determine_attribute_type value) false ts db = Returned db1
                    /\ touch_facility fid false ts db1 = Returned db')) as Hb.
  { cbv zeta. eapply weaken_spec.
    - eapply bind_spec; [apply lift_spec, value_text_raises | intros s].
      eapply bind_spec; [apply execute_spec; intros ? ? ? [=] | intros ?].
      eapply bind_spec; [apply execute_spec; intros ? ? ? [=] | intros ?].
      apply (ret_spec true).
    - cbv beta.
      intros r ts db db'
        (s & m0 & [Hs ->] & ? & db1 & H1 & ? & db2 & H2 & -> & ->).
      split; [reflexivity|]. exists db1.
      rewrite (value_text_stored _ _ Hs). now split. }
  pose proof (get_connection_spec _ _ Hb w) as H.
  destruct (get_connection _ w) as [[r|e] w'].
  - destruct H as ((-> & E) & _). left. cbn [fst snd]. now split.
  - destruct H as (He & E & _). rewrite He. right. cbn. now split.
Qed.

Lemma touch_absent (fid ts : string) (db : Database) :
  has_facility fid db = false ->
  touch_facility fid false ts db = Returned db.
Proof.
  unfold has_facility, touch_facility. intros H. f_equal.
  destruct db as [fs ss ats]. cbn [facilities facility_services
                                   facility_attributes] in *.
  f_equal. induction fs as [|f fs IH]; [reflexivity|].
  cbn [existsb] in H. apply orb_false_elim in H as [H1 H2].
  cbn [map]. rewrite H1. now rewrite IH.
Qed.

End ReadUpdateDelete.

Section ReadUpdateDeleteClaims.
Context {rt : Platform}.
Import Sqlite Spec DatabaseManager.

(** C8, as amended: for every facility id absent from the store,
    [update_facility_attribute] returns a plain boolean to the caller, never
    a structured error value and never an exception, and it adds no facility
    row. *)
Theorem update_absent_returns_boolean
    (fid key : string) (value : PyVal) (w : World) :
  has_facility fid (persisted w) = false ->
  exists b : bool,
    fst (update_facility_attribute fid key value w) = Returned b
    /\ facilities (persisted (snd (update_facility_attribute fid key value w)))
       = facilities (persisted w).
Proof.
  intros Ha.
  destruct (update_facility_attribute_outcome fid key value w)
    as [(Hr & db1 & H1 & H2) | (Hr & Hp)].
  - exists true. split; [exact Hr|].
    unfold insert_or_replace_attribute in H1. cbn [andb] in H1.
    injection H1 as <-.
    rewrite touch_absent in H2 by exact Ha.
    injection H2 as <-. reflexivity.
  - exists false. split; [exact Hr | now rewrite Hp].
Qed.


End ReadUpdateDeleteClaims.

(** C4 at the seeded store: [delete_facility("hosp_001")] returns [True] and
    [get_facility] then finds nothing, but the six service rows and the five
    attribute rows of the facility are still in their relations: no
    connection sets [PRAGMA foreign_keys = ON], so [ON DELETE CASCADE] does
    not act. *)
Lemma delete_facility_leaves_orphans :
  let r := DatabaseManager.delete_facility "hosp_001" Sample.seeded in
  fst r = Returned true
  /\ fst (@DatabaseManager.get_facility Sample.glibc "hosp_001" (snd r))
     = Returned None
  /\ map Sqlite.service_name
       (Sqlite.services_of "hosp_001" (Sqlite.persisted (snd r)))
     = ["emergency"; "surgery"; "cardiology"; "pediatrics"; "mri"; "xray"]
  /\ map Sqlite.attribute_key
       (Sqlite.attributes_of "hosp_001" (Sqlite.persisted (snd r)))
     = ["bed_count"; "emergency_room"; "accepts_insurance";
        "parking_available"; "visiting_hours"].
Proof. vm_compute. repeat split. Qed.

(** C8 fails at the seeded store: for the absent id ["ghost_404"] the call
    returns [True], and the attribute row is committed for a facility that
    does not exist. *)
Lemma update_absent_reports_success :
  let r :=
    @DatabaseManager.update_facility_attribute Sample.glibc
      "ghost_404" "bed_count" (PInt 12) Sample.seeded in
  Sqlite.has_facility "ghost_404" (Sqlite.persisted Sample.seeded) = false
  /\ fst r = Returned true
  /\ Sqlite.attributes_of "ghost_404" (Sqlite.persisted (snd r))
     = [{| Sqlite.attr_facility_id := "ghost_404";
           Sqlite.attribute_key := "bed_count";
           Sqlite.attribute_value := "12";
           Sqlite.attribute_type := "integer" |}]
  /\ Sqlite.has_facility "ghost_404" (Sqlite.persisted (snd r)) = false.
Proof. vm_compute. repeat split. Qed.

Lemma update_absent_returns_boolean_witness :
  Sqlite.has_facility "ghost_404" (Sqlite.persisted Sample.seeded) = false
  /\ exists b : bool,
       fst (@DatabaseManager.update_facility_attribute Sample.glibc
              "ghost_404" "bed_count" (PInt 12) Sample.seeded) = Returned b
       /\ Sqlite.facilities
            (Sqlite.persisted
               (snd (@DatabaseManager.update_facility_attribute Sample.glibc
                       "ghost_404" "bed_count" (PInt 12) Sample.seeded)))
          = Sqlite.facilities (Sqlite.persisted Sample.seeded).
Proof.
  split; [reflexivity|].
  apply (@update_absent_returns_boolean Sample.glibc). reflexivity.
Defined.



(* ================================================================== *)
(** * [_calculate_distance] and [search_facilities] *)
(* ================================================================== *)

Section Distance.
Context {rt : Platform}.
Import Sqlite Spec DatabaseManager.

(** The haversine term reaches [math.sqrt] and [math.asin] as it was
    computed: once its square root exceeds 1 the distance is a
    [ValueError]. *)
Lemma unclamped_term_raises (lat1 lon1 lat2 lon2 a : float) :
  haversine_a lat1 lon1 lat2 lon2 = Returned a ->
  PrimFloat.is_nan (PrimFloat.sqrt a) = false ->
  PrimFloat.ltb 1%float (PrimFloat.abs (PrimFloat.sqrt a)) = true ->
  _calculate_distance lat1 lon1 lat2 lon2 = Raised (ValueError "math domain error").
Proof.
  intros Ha Hn Hq. unfold _calculate_distance. rewrite Ha. cbn [bind].
  unfold math_sqrt, math_1. rewrite Hn. cbn [andb].
  destruct (PrimFloat.is_infinity (PrimFloat.sqrt a) && PrimFloat.is_finite a);
    [reflexivity|].
  cbn [bind]. unfold math_asin, math_1, libm_asin. rewrite Hq, Hn. reflexivity.
Qed.

(** A latitude of zero, of either sign, is no reference point for
    [latitude and longitude], whatever the longitude. *)
Lemma zero_latitude_is_no_reference (longitude : option float) :
  reference_point (Some 0%float) longitude = None
  /\ reference_point (Some (-0)%float) longitude = None.
Proof. split; reflexivity. Qed.

(** No reference point, no distance: every facility [search_facilities]
    returns then is as [get_facility] gave it. *)
Lemma collect_without_reference (rows : list FacilityRow)
    (latitude longitude max_distance_miles : option float) :
  reference_point latitude longitude = None ->
  forall acc c found c',
    Forall (fun f => distance_miles f = None) acc ->
    collect rows latitude longitude max_distance_miles acc c = (Returned found, c') ->
    Forall (fun f => distance_miles f = None) found.
Proof.
  intros Hr. induction rows as [|r rows IH]; intros acc c found c' Hacc H.
  - cbn in H. injection H as <- _. exact Hacc.
  - cbn [collect] in H. unfold mbind, nested in H.
    pose proof (get_facility_cases (fac_id r) (world c)) as (_ & Hg).
    destruct (get_facility (fac_id r) (world c)) as [[[f|]|e] w'];
      cbn [fst] in Hg; [| |discriminate H].
    + rewrite Hr in H. apply IH in H; [exact H|].
      apply Forall_app. split; [exact Hacc|]. constructor; [|constructor].
      destruct Hg as [Hg | [(r0 & attrs & _ & _ & Hg) | (what & _ & Hg)]];
        try discriminate Hg.
      injection Hg as ->. reflexivity.
    + apply IH in H; assumption.
Qed.

End Distance.

(** C7 at a pair of valid coordinates: from (-58.362902, -29.006557) to
    (58.362903, 150.993442), nearly antipodal, the haversine term comes out
    as 1 + 2^-51, its square root as 1 + 2^-52, and [math.asin] raises
    [ValueError]: the term is not clamped into [0, 1] and the computation does
    not complete. (The sines and cosines are those of glibc 2.36.) *)
Lemma calculate_distance_domain_error :
  @DatabaseManager.haversine_a Sample.glibc
    (-58.362902)%float (-29.006557)%float 58.362903%float 150.993442%float
  = Returned 0x1.0000000000002p+0%float
  /\ PrimFloat.sqrt 0x1.0000000000002p+0%float = 0x1.0000000000001p+0%float
  /\ PrimFloat.ltb 1%float 0x1.0000000000001p+0%float = true
  /\ @DatabaseManager._calculate_distance Sample.glibc
       (-58.362902)%float (-29.006557)%float 58.362903%float 150.993442%float
     = Raised (ValueError "math domain error").
Proof. vm_compute. repeat split. Qed.

(** C5 at the seeded store with the reference point (0.0, -74.006) on the
    equator and a radius of 5 miles: [latitude and longitude] is false for the
    latitude 0.0, so no distance is attached, the radius is not applied and
    nothing is sorted; both facilities, in New York, are returned. *)
Lemma search_from_equator_attaches_no_distance :
  exists found,
    fst (@DatabaseManager.search_facilities Sample.glibc
           None None None None
           (Some 0%float) (Some (-74.006)%float) (Some 5%float) Sample.seeded)
    = Returned found
    /\ map (fun f => (Sqlite.fac_id (DatabaseManager.row f),
                      DatabaseManager.distance_miles f)) found
       = [("hosp_001", None); ("pharm_001", None)].
Proof. eexists. split; vm_compute; reflexivity. Qed.

Section SearchWithoutReference.
Context {rt : Platform}.
Import Sqlite Spec DatabaseManager.

Lemma search_without_reference
    (ftype service : option string) (min_rating : option float)
    (attribute_filters : option (list (string * string)))
    (latitude longitude max_distance_miles : option float) (w : World)
    (found : list Facility) :
  reference_point latitude longitude = None ->
  fst (search_facilities ftype service min_rating attribute_filters
         latitude longitude max_distance_miles w) = Returned found ->
  Forall (fun f => distance_miles f = None) found.
Proof.
  intros Hr. unfold search_facilities, try_except, get_connection, connect,
    mbind, query, ret. rewrite Hr.
  pop_storage w w1 K1; [intros [= <-]; constructor|].
  pop_storage w1 w2 K2; [intros [= <-]; constructor|].
  destruct (collect _ latitude longitude max_distance_miles [] _)
    as [[fs|e] c'] eqn:Hc.
  - apply collect_without_reference in Hc; [|exact Hr | constructor].
    destruct (pop_fault (world c')) as [[|] w3]; cbn [fst is_python_exception];
      intros [= <-]; [constructor | exact Hc].
  - destruct (is_python_exception e); cbn [fst]; [|discriminate].
    intros [= <-]. constructor.
Qed.




End SearchWithoutReference.

(* ================================================================== *)
(** * [_execute_function] *)
(* ================================================================== *)

Section Dispatch.
Context {rt : Platform}.
Import Sqlite Spec HealthcareMapAI.

Lemma check_keywords_raises (fname : string) (params : list string)
    (arguments : list (string * PyVal)) (e : Exn) :
  check_keywords fname params arguments = Raised e -> exists msg, e = TypeError msg.
Proof.
  unfold check_keywords. destruct (find _ arguments) as [[k v]|]; intros [= <-].
  eexists; reflexivity.
Qed.

Lemma required_missing (fname key : string) (arguments : list (string * PyVal)) :
  lookup key arguments = None ->
  exists msg, required fname key arguments = Raised (TypeError msg).
Proof. unfold required. intros ->. eexists; reflexivity. Qed.

(** A call with the keywords of [arguments] that lacks the required key [key]: whether a
    keyword is unexpected or not, and whichever required keys come before
    it, the call raises a [TypeError] and leaves the world as it is. *)
Ltac missing_key :=
  unfold mbind, lift;
  repeat match goal with
    | H : lookup ?k ?a = None |- context [required ?f ?k ?a] =>
        destruct (required_missing f k a H) as [? ->]
    | |- context [check_keywords ?f ?p ?a] =>
        let E := fresh "E" in
        destruct (check_keywords f p a) as [[]|?] eqn:E;
        [| destruct (check_keywords_raises _ _ _ _ E) as [? ->]]
    | |- context [required ?f ?k ?a] =>
        let E := fresh "E" in
        destruct (required f k a) as [?|?] eqn:E;
        [| unfold required in E; destruct (lookup k a); [discriminate E|];
           injection E as <-]
    end;
  eexists; reflexivity.

(** C6, as amended: a name outside the five registered operations returns
    the payload [{"error": "Unknown function: <name>"}] and changes nothing;
    a registered name whose arguments lack a required key raises a
    [TypeError] out of [_execute_function], which has no handler, instead of
    returning an error payload. *)
Theorem execute_function_errors
    (function_name : string) (arguments : list (string * PyVal)) (w : World) :
  (existsb (String.eqb function_name) registry = false ->
   _execute_function function_name arguments w
   = (Returned (error_payload ("Unknown function: " ++ function_name)), w))
  /\ (forall key,
        In key (required_keys function_name) ->
        lookup key arguments = None ->
        exists msg,
          _execute_function function_name arguments w = (Raised (TypeError msg), w)).
Proof.
  split.
  - unfold registry. cbn [existsb]. intros H.
    repeat (apply orb_false_elim in H as [?E H]).
    unfold _execute_function. now rewrite E, E0, E1, E2, E3.
  - unfold required_keys, _execute_function. intros key Hin Hk.
    destruct (String.eqb function_name "find_healthcare_facilities");
      [destruct Hin as [<- | []]; missing_key|].
    destruct (String.eqb function_name "get_facility_details");
      [destruct Hin as [<- | []]; missing_key|].
    destruct (String.eqb function_name "search_facilities_by_service");
      [destruct Hin as [<- | [<- | []]]; missing_key|].
    destruct (String.eqb function_name "get_patient_health_data");
      [destruct Hin as [<- | []]; missing_key|].
    destruct (String.eqb function_name "schedule_appointment");
      [destruct Hin as [<- | [<- | [<- | []]]]; missing_key|].
    destruct Hin.
Qed.

End Dispatch.

(** C6 fails for [find_healthcare_facilities] without [location]: calling
    the handler with the keywords of an empty mapping raises a [TypeError],
    which leaves [_execute_function] as an exception; no payload is
    returned. *)
Lemma missing_location_raises :
  fst (@HealthcareMapAI._execute_function Sample.glibc
         "find_healthcare_facilities" [] Sample.seeded)
  = Raised (TypeError
      "find_healthcare_facilities() missing 1 required positional argument: 'location'").
Proof. vm_compute. reflexivity. Qed.

Lemma execute_function_errors_witness :
  (existsb (String.eqb "unsupported_op") HealthcareMapAI.registry = false
   /\ @HealthcareMapAI._execute_function Sample.glibc "unsupported_op" []
        Sample.seeded
      = (Returned (HealthcareMapAI.error_payload "Unknown function: unsupported_op"),
         Sample.seeded))
  /\ (In "date" (Spec.required_keys "schedule_appointment")
      /\ HealthcareMapAI.lookup "date"
           [("facility_id", PStr "hosp_001"); ("service_type", PStr "mri")] = None
      /\ exists msg,
           @HealthcareMapAI._execute_function Sample.glibc "schedule_appointment"
             [("facility_id", PStr "hosp_001"); ("service_type", PStr "mri")]
             Sample.seeded
           = (Raised (TypeError msg), Sample.seeded)).
Proof.
  split.
  - split; [reflexivity|].
    apply (proj1 (@execute_function_errors Sample.glibc "unsupported_op" []
                    Sample.seeded)). reflexivity.
  - split; [vm_compute; tauto|]. split; [reflexivity|].
    apply (proj2 (@execute_function_errors Sample.glibc "schedule_appointment"
                    [("facility_id", PStr "hosp_001"); ("service_type", PStr "mri")]
                    Sample.seeded) "date"); [vm_compute; tauto | reflexivity].
Defined.

(* ================================================================== *)
(** * [add_facility] without faults *)
(* ================================================================== *)

Section AddFacilitySucceeds.
Context {rt : Platform}.
Import Sqlite Spec DatabaseManager.








End AddFacilitySucceeds.

(* ================================================================== *)
(** * The schema constraints as an invariant of the writes *)
(* ================================================================== *)

Section Constraints.
Context {rt : Platform}.
Import Sqlite Spec DatabaseManager Schema.

Lemma no_repeat_filter {A} (same : A -> A -> bool) (p : A -> bool) (l : list A) :
  no_repeat same l = true -> no_repeat same (filter p l) = true.
Proof.
  induction l as [|a l IH]; cbn [no_repeat filter]; intros H; [reflexivity|].
  apply andb_prop in H as [H1 H2]. destruct (p a); [|now apply IH].
  cbn [no_repeat]. rewrite (IH H2), andb_true_r.
  apply negb_true_iff. apply negb_true_iff in H1. clear - H1.
  induction l as [|b l IH]; [reflexivity|].
  cbn [existsb] in H1. apply orb_false_elim in H1 as [H1 H2].
  cbn [filter]. destruct (p b); cbn [existsb]; [rewrite H1|]; now apply IH.
Qed.

Lemma no_repeat_snoc {A} (same : A -> A -> bool) (l : list A) (x : A) :
  no_repeat same l = true ->
  existsb (fun y => same y x) l = false ->
  no_repeat same (l ++ [x]) = true.
Proof.
  induction l as [|a l IH]; cbn [no_repeat existsb app]; intros H K; [reflexivity|].
  apply andb_prop in H as [H1 H2]. apply orb_false_elim in K as [K1 K2].
  rewrite (IH H2 K2), andb_true_r. apply negb_true_iff in H1.
  rewrite existsb_app, H1. cbn [existsb]. now rewrite K1.
Qed.

Lemma no_repeat_map {A} (same : A -> A -> bool) (f : A -> A) (l : list A) :
  (forall a b, same (f a) (f b) = same a b) ->
  no_repeat same (map f l) = no_repeat same l.
Proof.
  intros Hf. induction l as [|a l IH]; [reflexivity|].
  cbn [map no_repeat]. rewrite IH. f_equal. f_equal.
  clear IH. induction l as [|b l IH]; [reflexivity|].
  cbn [map existsb]. now rewrite Hf, IH.
Qed.

(** A filter that drops the rows of [x]'s kind leaves none the same as [x]. *)
Lemma filter_drops {A} (same : A -> A -> bool) (p : A -> bool) (x : A) (l : list A) :
  (forall y, p y = true -> same y x = false) ->
  existsb (fun y => same y x) (filter p l) = false.
Proof.
  intros Hp. induction l as [|a l IH]; [reflexivity|].
  cbn [filter]. destruct (p a) eqn:E; [|exact IH].
  cbn [existsb]. now rewrite (Hp a E), IH.
Qed.

Lemma insert_or_replace_facility_keeps
    (fid name ftype addr : string) (lat lon : float)
    (rate : option float) (ph : option string) (ts : string) (db db' : Database) :
  insert_or_replace_facility fid name ftype addr lat lon rate ph false ts db
  = Returned db' ->
  constraints_hold db = true -> constraints_hold db' = true.
Proof.
  unfold insert_or_replace_facility, constraints_hold. intros [= <-] H.
  apply andb_prop in H as [H H3]. apply andb_prop in H as [H1 H2].
  cbn [remove_facility facilities facility_services facility_attributes].
  rewrite H2, H3, !andb_true_r. apply no_repeat_snoc.
  - now apply no_repeat_filter.
  - apply filter_drops. intros y Hy. unfold same_id. cbn [fac_id].
    now apply negb_true_iff.
Qed.

Lemma delete_services_keeps (fid ts : string) (db db' : Database) :
  delete_services fid false ts db = Returned db' ->
  constraints_hold db = true -> constraints_hold db' = true.
Proof.
  unfold delete_services, constraints_hold. intros [= <-] H.
  apply andb_prop in H as [H H3]. apply andb_prop in H as [H1 H2].
  cbn [facilities facility_services facility_attributes].
  now rewrite H1, H3, (no_repeat_filter _ _ _ H2).
Qed.

Lemma delete_attributes_keeps (fid ts : string) (db db' : Database) :
  delete_attributes fid false ts db = Returned db' ->
  constraints_hold db = true -> constraints_hold db' = true.
Proof.
  unfold delete_attributes, constraints_hold. intros [= <-] H.
  apply andb_prop in H as [H H3]. apply andb_prop in H as [H1 H2].
  cbn [facilities facility_services facility_attributes].
  now rewrite H1, H2, (no_repeat_filter _ _ _ H3).
Qed.

Lemma insert_service_keeps (fid svc ts : string) (db db' : Database) :
  insert_service fid svc false ts db = Returned db' ->
  constraints_hold db = true -> constraints_hold db' = true.
Proof.
  unfold insert_service, constraints_hold.
  destruct (has_service fid svc db) eqn:E; [discriminate|].
  cbn [andb]. intros [= <-] H.
  apply andb_prop in H as [H H3]. apply andb_prop in H as [H1 H2].
  cbn [facilities facility_services facility_attributes].
  rewrite H1, H3, andb_true_r. cbn [andb].
  apply no_repeat_snoc; [exact H2 | exact E].
Qed.

Lemma insert_attribute_keeps (fid key s t ts : string) (db db' : Database) :
  insert_attribute fid key s t false ts db = Returned db' ->
  constraints_hold db = true -> constraints_hold db' = true.
Proof.
  unfold insert_attribute, constraints_hold.
  destruct (has_attribute fid key db) eqn:E; [discriminate|].
  cbn [andb]. intros [= <-] H.
  apply andb_prop in H as [H H3]. apply andb_prop in H as [H1 H2].
  cbn [facilities facility_services facility_attributes].
  rewrite H1, H2. cbn [andb].
  apply no_repeat_snoc; [exact H3 | exact E].
Qed.

Lemma insert_or_replace_attribute_keeps (fid key s t ts : string)
    (db db' : Database) :
  insert_or_replace_attribute fid key s t false ts db = Returned db' ->
  constraints_hold db = true -> constraints_hold db' = true.
Proof.
  unfold insert_or_replace_attribute, constraints_hold. cbn [andb].
  intros [= <-] H.
  apply andb_prop in H as [H H3]. apply andb_prop in H as [H1 H2].
  cbn [facilities facility_services facility_attributes].
  rewrite H1, H2. cbn [andb]. apply no_repeat_snoc.
  - now apply no_repeat_filter.
  - apply filter_drops. intros y Hy. apply negb_true_iff in Hy. exact Hy.
Qed.

Lemma touch_facility_keeps (fid ts : string) (db db' : Database) :
  touch_facility fid false ts db = Returned db' ->
  constraints_hold db = true -> constraints_hold db' = true.
Proof.
  unfold touch_facility, constraints_hold. intros [= <-] H.
  cbn [facilities facility_services facility_attributes].
  rewrite no_repeat_map; [exact H|].
  intros a b. unfold same_id.
  destruct (String.eqb (fac_id a) fid), (String.eqb (fac_id b) fid); reflexivity.
Qed.

Lemma delete_facility_row_keeps (fid ts : string) (db db' : Database) :
  delete_facility_row fid false ts db = Returned db' ->
  constraints_hold db = true -> constraints_hold db' = true.
Proof.
  unfold delete_facility_row, remove_facility, constraints_hold. intros [= <-] H.
  apply andb_prop in H as [H H3]. apply andb_prop in H as [H1 H2].
  cbn [facilities facility_services facility_attributes].
  now rewrite H2, H3, (no_repeat_filter _ _ _ H1).
Qed.

(** A property of the working copy that every step of a loop preserves. *)
Lemma steps_preserve {X} (P : Database -> Prop)
    (step : X -> string -> Database -> Database -> Prop) (l : list X) :
  (forall x ts db db', step x ts db db' -> P db -> P db') ->
  forall ts db db', steps step l ts db db' -> P db -> P db'.
Proof.
  intros Hs. induction l as [|x l IH]; cbn [steps]; intros ts db db' H HP.
  - now subst.
  - destruct H as (mid & H1 & H2). eapply IH; [exact H2|]. eapply Hs; eassumption.
Qed.

(** A write method: a transaction under [try ... except Exception] that
    answers [dflt] on failure. What the body preserves on the working copy,
    the method preserves on the committed database. *)
Lemma guarded_write_preserves {A} (body : Tx A) (dflt : A) (P : Database -> Prop) :
  tx_spec body (fun _ _ db db' => P db -> P db') ->
  forall w,
    P (persisted w) ->
    P (persisted (snd (try_except (get_connection body) (fun _ => ret dflt) w))).
Proof.
  intros Hb w HP. unfold try_except.
  pose proof (get_connection_spec _ _ Hb w) as H.
  destruct (get_connection body w) as [[a|e] w'].
  - cbn [snd]. destruct H as [H _]. now apply H.
  - destruct H as (He & E & _). rewrite He. cbn. now rewrite E.
Qed.

Lemma add_facility_keeps
    (fid name ftype addr : string) (lat lon : float)
    (services : list string) (rate : option float) (ph : option string)
    (attributes : option (list (string * PyVal))) (w : World) :
  constraints_hold (persisted w) = true ->
  constraints_hold
    (persisted (snd (add_facility fid name ftype addr lat lon services rate ph
                       attributes w))) = true.
Proof.
  unfold add_facility.
  apply (guarded_write_preserves _ false (fun db => constraints_hold db = true)).
  eapply weaken_spec.
  - eapply bind_spec; [apply execute_spec; intros ? ? ? [=] | intros ?].
    eapply bind_spec; [apply execute_spec; intros ? ? ? [=] | intros ?].
    eapply bind_spec;
      [apply for_each_spec; intros x; apply execute_spec;
       apply insert_service_raises | intros ?].
    eapply bind_spec; [apply execute_spec; intros ? ? ? [=] | intros ?].
    eapply bind_spec; [| intros ?; apply (ret_spec true)].
    instantiate
      (1 := fun _ _ db db' =>
              constraints_hold db = true -> constraints_hold db' = true).
    destruct attributes as [[|kv items]|].
    + eapply weaken_spec; [apply (ret_spec tt)|]. cbv beta.
      now intros ? ? db db' [_ ->].
    + eapply weaken_spec.
      * apply for_each_spec with
          (step := fun (kv : string * PyVal) ts db db' =>
                     constraints_hold db = true -> constraints_hold db' = true).
        intros [k v]. eapply weaken_spec.
        -- eapply bind_spec;
             [apply lift_spec, value_text_raises
             | intros s; apply execute_spec; apply insert_attribute_raises].
        -- cbv beta. intros ? ts db db' (s & mid & [Hs ->] & H).
           eapply insert_attribute_keeps; eassumption.
      * cbv beta. intros ? ts db db' H.
        exact (steps_preserve (fun db => constraints_hold db = true) _ _
                 (fun _ _ _ _ K => K) _ _ _ H).
    + eapply weaken_spec; [apply (ret_spec tt)|]. cbv beta.
      now intros ? ? db db' [_ ->].
  - cbv beta.
    intros r ts db db'
      (? & db1 & H1 & ? & db2 & H2 & ? & db3 & H3 & ? & db4 & H4
         & ? & db5 & H5 & Hr & ->) H.
    apply H5. eapply delete_attributes_keeps; [exact H4|].
    refine (steps_preserve (fun db => constraints_hold db = true) _ _ _ _ _ _
              H3 _).
    + cbv beta. intros svc ts' d d'. apply insert_service_keeps.
    + eapply delete_services_keeps; [exact H2|].
      eapply insert_or_replace_facility_keeps; eassumption.
Qed.

Lemma update_facility_attribute_keeps
    (fid key : string) (value : PyVal) (w : World) :
  constraints_hold (persisted w) = true ->
  constraints_hold
    (persisted (snd (update_facility_attribute fid key value w))) = true.
Proof.
  unfold update_facility_attribute.
  apply (guarded_write_preserves _ false (fun db => constraints_hold db = true)).
  cbv zeta. eapply weaken_spec.
  - eapply bind_spec; [apply lift_spec, value_text_raises | intros s].
    eapply bind_spec; [apply execute_spec; intros ? ? ? [=] | intros ?].
    eapply bind_spec; [apply execute_spec; intros ? ? ? [=] | intros ?].
    apply (ret_spec true).
  - cbv beta.
    intros r ts db db'
      (s & m0 & [Hs ->] & ? & db1 & H1 & ? & db2 & H2 & -> & ->) H.
    eapply touch_facility_keeps; [exact H2|].
    eapply insert_or_replace_attribute_keeps; eassumption.
Qed.

Lemma delete_facility_keeps (fid : string) (w : World) :
  constraints_hold (persisted w) = true ->
  constraints_hold (persisted (snd (delete_facility fid w))) = true.
Proof.
  unfold delete_facility.
  apply (guarded_write_preserves _ false (fun db => constraints_hold db = true)).
  eapply weaken_spec.
  - eapply bind_spec; [apply execute_spec; intros ? ? ? [=] | intros ?].
    apply (ret_spec true).
  - cbv beta. intros r ts db db' (? & mid & H1 & -> & ->) H.
    eapply delete_facility_row_keeps; eassumption.
Qed.

(** X1: the primary key of [facilities] and the two [UNIQUE] constraints
    are an invariant of the three write methods: if they hold of the
    committed database before a call of [add_facility],
    [update_facility_attribute] or [delete_facility], they hold after it,
    whatever the arguments, the storage faults and the result of the call. *)
Theorem writes_keep_constraints (w : World) :
  constraints_hold (persisted w) = true ->
  (forall fid name ftype addr lat lon services rate ph attributes,
      constraints_hold
        (persisted (snd (add_facility fid name ftype addr lat lon services
                           rate ph attributes w))) = true)
  /\ (forall fid key value,
        constraints_hold
          (persisted (snd (update_facility_attribute fid key value w))) = true)
  /\ (forall fid,
        constraints_hold (persisted (snd (delete_facility fid w))) = true).
Proof.
  intros H. split; [|split]; intros.
  - now apply add_facility_keeps.
  - now apply update_facility_attribute_keeps.
  - now apply delete_facility_keeps.
Qed.

End Constraints.

Lemma writes_keep_constraints_witness :
  Schema.constraints_hold (Sqlite.persisted Sample.seeded) = true
  /\ Schema.constraints_hold
       (Sqlite.persisted
          (snd (@DatabaseManager.add_facility Sample.glibc
                  "hosp_001" "City General Hospital" "hospital" "1 New Rd"
                  40.7128%float (-74.0060)%float ["dialysis"; "dialysis"]
                  None None (Some [("bed_count", PInt 300)]) Sample.seeded)))
     = true
  /\ Schema.constraints_hold
       (Sqlite.persisted
          (snd (@DatabaseManager.update_facility_attribute Sample.glibc
                  "hosp_001" "bed_count" (PInt 300) Sample.seeded))) = true
  /\ Schema.constraints_hold
       (Sqlite.persisted
          (snd (DatabaseManager.delete_facility "hosp_001" Sample.seeded)))
     = true.
Proof.
  split; [reflexivity|].
  pose proof (@writes_keep_constraints Sample.glibc Sample.seeded eq_refl)
    as (H1 & H2 & H3).
  split; [apply H1 | split; [apply H2 | apply H3]].
Defined.

(* ================================================================== *)
(** * Reading back what was written *)
(* ================================================================== *)

Section ReadBack.
Context {rt : Platform}.
Import Sqlite Spec DatabaseManager Schema.

Lemma pop_fault_none (w : World) : faults w = [] -> pop_fault w = (false, w).
Proof. unfold pop_fault. now intros ->. Qed.

Lemma with_persisted_same (w : World) : with_persisted w (persisted w) = w.
Proof. now destruct w. Qed.

(** [get_facility] with no storage fault to come. *)
Lemma get_facility_reads (fid : string) (w : World)
    (r : FacilityRow) (attrs : list (string * PyVal)) :
  faults w = [] ->
  select_facility fid (persisted w) = Some r ->
  parse_rows (select_attributes fid (persisted w)) [] = Returned attrs ->
  get_facility fid w
  = (Returned (Some {| row := r;
                       services := select_services fid (persisted w);
                       attributes := attrs;
                       distance_miles := None |}), w).
Proof.
  intros Hf Hs Hp.
  unfold get_facility, try_except, get_connection, connect, mbind, query, lift, ret.
  repeat (first [rewrite (pop_fault_none w Hf) | rewrite Hs | rewrite Hp];
          cbn [world work foreign_keys]).
  now rewrite with_persisted_same.
Qed.

(** The stored pair of an exact value decodes to the value. *)
Lemma stored_pair_decodes (value : PyVal) :
  exact_value value ->
  value_text value = Returned (stored_text value)
  /\ _parse_attribute_value (stored_text value) (_determine_attribute_type value)
     = Returned value.
Proof.
  unfold stored_text.
  destruct value as [ | [|] | z | x | s | l | d ]; intros H;
    try (split; reflexivity).
  - destruct H.
  - split; [reflexivity|].
    cbn [value_text Json.dumps Json.serializable Json.render
         _determine_attribute_type].
    unfold _parse_attribute_value. cbn [String.eqb Ascii.eqb Bool.eqb].
    now rewrite py_int_repr.
  - split; [reflexivity|].
    cbn [value_text Json.dumps Json.serializable Json.render
         _determine_attribute_type].
    unfold _parse_attribute_value. cbn [String.eqb Ascii.eqb Bool.eqb].
    cbn [exact_value] in H. destruct H as [_ H]. now rewrite H.
  - cbn [exact_value] in H. pose proof (loads_dumps _ H) as L.
    cbn [value_text _determine_attribute_type].
    destruct (Json.dumps (PList l)) as [s|e]; [|discriminate L].
    cbn [bind] in L. split; [reflexivity|]. unfold _parse_attribute_value.
    cbn [String.eqb Ascii.eqb Bool.eqb]. now rewrite L.
  - cbn [exact_value] in H. pose proof (loads_dumps _ H) as L.
    cbn [value_text _determine_attribute_type].
    destruct (Json.dumps (PDict d)) as [s|e]; [|discriminate L].
    cbn [bind] in L. split; [reflexivity|]. unfold _parse_attribute_value.
    cbn [String.eqb Ascii.eqb Bool.eqb]. now rewrite L.
Qed.


Lemma lookup_attr_set (key : string) (value : PyVal) (d : list (string * PyVal)) :
  HealthcareMapAI.lookup key (attr_set key value d) = Some value.
Proof.
  induction d as [|[k x] d IH]; cbn [attr_set HealthcareMapAI.lookup].
  - now rewrite String.eqb_refl.
  - destruct (String.eqb key k) eqn:E; cbn [HealthcareMapAI.lookup].
    + rewrite String.eqb_sym in E. now rewrite E.
    + rewrite String.eqb_sym in E. now rewrite E.
Qed.

Lemma parse_rows_app (l1 l2 : list AttributeRow) :
  forall acc,
    parse_rows (l1 ++ l2)%list acc
    = bind (parse_rows l1 acc) (fun a => parse_rows l2 a).
Proof.
  induction l1 as [|r l1 IH]; intros acc; [reflexivity|].
  cbn [app parse_rows].
  destruct (_parse_attribute_value _ _); cbn [bind]; [apply IH | reflexivity].
Qed.




End ReadBack.


(* ================================================================== *)
(** * One facility at a time: updates, deletions, the other facilities *)
(* ================================================================== *)

Section OneFacility.
Context {rt : Platform}.
Import Sqlite Spec DatabaseManager Schema.

Lemma find_filter_other (fid other : string) (l : list FacilityRow) :
  String.eqb other fid = false ->
  find (fun f => String.eqb (fac_id f) other)
       (filter (fun f => negb (String.eqb (fac_id f) fid)) l)
  = find (fun f => String.eqb (fac_id f) other) l.
Proof.
  intros Ho. induction l as [|f l IH]; [reflexivity|].
  cbn [filter find]. destruct (String.eqb (fac_id f) fid) eqn:E; cbn [negb find].
  - apply String.eqb_eq in E.
    destruct (String.eqb (fac_id f) other) eqn:E2; [|exact IH].
    apply String.eqb_eq in E2. subst other. rewrite E, String.eqb_refl in Ho.
    discriminate.
  - now rewrite IH.
Qed.

Lemma filter_filter_other {A} (id : A -> string) (fid other : string) (l : list A) :
  String.eqb other fid = false ->
  filter (fun r => String.eqb (id r) other)
         (filter (fun r => negb (String.eqb (id r) fid)) l)
  = filter (fun r => String.eqb (id r) other) l.
Proof.
  intros Ho. induction l as [|r l IH]; [reflexivity|].
  cbn [filter]. destruct (String.eqb (id r) fid) eqn:E; cbn [negb filter].
  - apply String.eqb_eq in E.
    destruct (String.eqb (id r) other) eqn:E2; [|exact IH].
    apply String.eqb_eq in E2. subst other. rewrite E, String.eqb_refl in Ho.
    discriminate.
  - now rewrite IH.
Qed.

Lemma filter_all_other {A B} (id : A -> string) (g : B -> A) (fid other : string)
    (l : list B) :
  String.eqb other fid = false ->
  (forall b, id (g b) = fid) ->
  filter (fun r => String.eqb (id r) other) (map g l) = [].
Proof.
  intros Ho Hg. induction l as [|b l IH]; [reflexivity|].
  cbn [map filter]. rewrite Hg, (String.eqb_sym fid other), Ho. exact IH.
Qed.

Lemma find_append {A} (p : A -> bool) (l1 l2 : list A) :
  find p (l1 ++ l2)%list
  = match find p l1 with
    | Some x => Some x
    | None => find p l2
    end.
Proof.
  induction l1 as [|a l1 IH]; [reflexivity|].
  cbn [app find]. destruct (p a); [reflexivity | exact IH].
Qed.

Lemma view_full_write
    (fid name ftype addr : string) (lat lon : float)
    (services : list string) (rate : option float) (ph : option string)
    (attributes : option (list (string * PyVal))) (ts : string) (db : Database)
    (other : string) :
  String.eqb other fid = false ->
  view other
    (full_write fid name ftype addr lat lon services rate ph attributes ts db)
  = view other db.
Proof.
  intros Ho. unfold view, select_facility, services_of, attributes_of, full_write.
  cbn [facilities facility_services facility_attributes].
  rewrite find_append, (find_filter_other fid other _ Ho).
  rewrite !filter_app.
  rewrite (filter_filter_other svc_facility_id fid other _ Ho).
  rewrite (filter_filter_other attr_facility_id fid other _ Ho).
  rewrite (filter_all_other svc_facility_id (service_row fid) fid other _ Ho)
    by reflexivity.
  rewrite (filter_all_other attr_facility_id (attribute_row fid) fid other _ Ho)
    by reflexivity.
  rewrite !List.app_nil_r.
  destruct (find _ (facilities db)); [reflexivity|].
  cbn [find fac_id]. now rewrite (String.eqb_sym fid other), Ho.
Qed.

Lemma find_touch (fid other ts : string) (l : list FacilityRow) :
  find (fun f => String.eqb (fac_id f) other)
       (map (fun f => if String.eqb (fac_id f) fid then touched f ts else f) l)
  = option_map (fun f => if String.eqb (fac_id f) fid then touched f ts else f)
      (find (fun f => String.eqb (fac_id f) other) l).
Proof.
  induction l as [|f l IH]; [reflexivity|].
  cbn [map find].
  assert (fac_id (if String.eqb (fac_id f) fid then touched f ts else f)
          = fac_id f) as -> by (destruct (String.eqb (fac_id f) fid); reflexivity).
  destruct (String.eqb (fac_id f) other); [reflexivity | exact IH].
Qed.

Lemma filter_same_attribute (fid key : string) (l : list AttributeRow) :
  filter (fun r => String.eqb (attr_facility_id r) fid)
         (filter (fun r => negb (same_attribute fid key r)) l)
  = filter (fun r => negb (String.eqb (attribute_key r) key))
           (filter (fun r => String.eqb (attr_facility_id r) fid) l).
Proof.
  induction l as [|r l IH]; [reflexivity|].
  cbn [filter]. unfold same_attribute at 1.
  destruct (String.eqb (attr_facility_id r) fid) eqn:E; cbn [andb negb filter].
  - destruct (String.eqb (attribute_key r) key); cbn [negb filter];
      [exact IH | now rewrite E, IH].
  - now rewrite E.
Qed.

Lemma filter_same_attribute_other (fid key other : string) (l : list AttributeRow) :
  String.eqb other fid = false ->
  filter (fun r => String.eqb (attr_facility_id r) other)
         (filter (fun r => negb (same_attribute fid key r)) l)
  = filter (fun r => String.eqb (attr_facility_id r) other) l.
Proof.
  intros Ho. induction l as [|r l IH]; [reflexivity|].
  cbn [filter]. unfold same_attribute at 1.
  destruct (String.eqb (attr_facility_id r) fid) eqn:E; cbn [andb negb filter].
  - apply String.eqb_eq in E.
    assert (String.eqb (attr_facility_id r) other = false) as E2.
    { rewrite E, String.eqb_sym. exact Ho. }
    destruct (String.eqb (attribute_key r) key); cbn [negb filter];
      rewrite E2; exact IH.
  - now rewrite IH.
Qed.

(** What a successful [update_facility_attribute] committed, relation by
    relation. *)
Lemma update_facility_attribute_writes
    (fid key : string) (value : PyVal) (w : World) :
  fst (update_facility_attribute fid key value w) = Returned true ->
  persisted (snd (update_facility_attribute fid key value w))
  = {| facilities :=
         map (fun f => if String.eqb (fac_id f) fid then touched f (now w) else f)
             (facilities (persisted w));
       facility_services := facility_services (persisted w);
       facility_attributes :=
         (filter (fun r => negb (same_attribute fid key r))
                 (facility_attributes (persisted w))
          ++ [attribute_row fid (key, value)])%list |}.
Proof.
  intros Hr.
  destruct (update_facility_attribute_outcome fid key value w)
    as [(_ & db1 & H1 & H2) | [H _]]; [|congruence].
  unfold insert_or_replace_attribute in H1. cbn [andb] in H1.
  injection H1 as <-. unfold touch_facility in H2.
  cbn [facilities facility_services facility_attributes] in H2.
  injection H2 as <-. reflexivity.
Qed.

Lemma attributes_after_update (fid key : string) (value : PyVal) (w : World) :
  fst (update_facility_attribute fid key value w) = Returned true ->
  attributes_of fid (persisted (snd (update_facility_attribute fid key value w)))
  = (filter (fun r => negb (String.eqb (attribute_key r) key))
            (attributes_of fid (persisted w))
     ++ [attribute_row fid (key, value)])%list.
Proof.
  intros Hr. rewrite (update_facility_attribute_writes fid key value w Hr).
  unfold attributes_of. cbn [facility_attributes].
  rewrite filter_app, filter_same_attribute.
  cbn [filter attribute_row attr_facility_id]. now rewrite String.eqb_refl.
Qed.

(** X3: a write to one facility leaves every other facility as it was.
    Whatever [add_facility], [update_facility_attribute] or
    [delete_facility] do for the id [fid], and whatever they return, the
    row, the services and the attributes of any other id are the same in the
    committed database after the call as before. *)
Theorem writes_leave_other_facilities (fid other : string) (w : World) :
  String.eqb other fid = false ->
  (forall name ftype addr lat lon services rate ph attributes,
      view other
        (persisted (snd (add_facility fid name ftype addr lat lon services
                           rate ph attributes w)))
      = view other (persisted w))
  /\ (forall key value,
        view other (persisted (snd (update_facility_attribute fid key value w)))
        = view other (persisted w))
  /\ view other (persisted (snd (delete_facility fid w)))
     = view other (persisted w).
Proof.
  intros Ho. split; [|split].
  - intros name ftype addr lat lon svcs rate ph attrs.
    destruct (add_facility_outcome fid name ftype addr lat lon svcs rate ph
                attrs w) as [(_ & -> & _) | [_ ->]]; [|reflexivity].
    now apply view_full_write.
  - intros key value.
    destruct (update_facility_attribute_outcome fid key value w)
      as [(Hr & _) | [_ ->]]; [|reflexivity].
    rewrite (update_facility_attribute_writes fid key value w Hr).
    unfold view, select_facility, services_of, attributes_of.
    cbn [facilities facility_services facility_attributes].
    rewrite find_touch, filter_app.
    rewrite (filter_same_attribute_other fid key other _ Ho).
    cbn [filter attribute_row attr_facility_id].
    rewrite (String.eqb_sym fid other), Ho, List.app_nil_r.
    destruct (find _ (facilities (persisted w))) as [f|] eqn:E; [|reflexivity].
    cbn [option_map]. apply find_some in E as [_ E].
    apply String.eqb_eq in E. rewrite E, Ho. reflexivity.
  - destruct (delete_facility_outcome fid w) as [[_ ->] | [_ ->]]; [|reflexivity].
    unfold view, select_facility, services_of, attributes_of, remove_facility.
    cbn [facilities facility_services facility_attributes].
    now rewrite (find_filter_other fid other _ Ho).
Qed.

(** X4: what a successful [update_facility_attribute] changes of the
    facility itself. Its attributes are the former ones without the key,
    followed by the one new row with the encoded value and its tag; its
    services are untouched; no facility row is added or removed, and the row
    of the facility, if there is one, keeps every column but [updated_at],
    which takes the clock reading of the call. *)
Theorem update_replaces_one_attribute
    (fid key : string) (value : PyVal) (w : World) :
  let db' := persisted (snd (update_facility_attribute fid key value w)) in
  fst (update_facility_attribute fid key value w) = Returned true ->
  attributes_of fid db'
  = (filter (fun r => negb (String.eqb (attribute_key r) key))
            (attributes_of fid (persisted w))
     ++ [attribute_row fid (key, value)])%list
  /\ facility_services db' = facility_services (persisted w)
  /\ select_ids db' = select_ids (persisted w)
  /\ select_facility fid db'
     = option_map (fun f => touched f (now w))
         (select_facility fid (persisted w)).
Proof.
  cbv zeta. intros Hr. split; [now apply attributes_after_update|].
  rewrite (update_facility_attribute_writes fid key value w Hr).
  unfold select_ids, select_facility.
  cbn [facilities facility_services facility_attributes].
  split; [reflexivity | split].
  - rewrite map_map. apply map_ext. intros f.
    destruct (String.eqb (fac_id f) fid); reflexivity.
  - rewrite find_touch.
    destruct (find _ (facilities (persisted w))) as [f|] eqn:E; [|reflexivity].
    cbn [option_map]. apply find_some in E as [_ E]. now rewrite E.
Qed.

Lemma lookup_attr_set_other (k key : string) (value : PyVal)
    (d : list (string * PyVal)) :
  String.eqb k key = false ->
  HealthcareMapAI.lookup k (attr_set key value d) = HealthcareMapAI.lookup k d.
Proof.
  intros Hk. induction d as [|[k' x] d IH]; cbn [attr_set HealthcareMapAI.lookup].
  - rewrite String.eqb_sym. now rewrite Hk.
  - destruct (String.eqb key k') eqn:E; cbn [HealthcareMapAI.lookup].
    + apply String.eqb_eq in E. subst k'. rewrite String.eqb_sym. now rewrite Hk.
    + destruct (String.eqb k' k); [reflexivity | exact IH].
Qed.

(** Decoding the rows without those of [key] gives every other key the
    value that decoding all the rows gives it. *)
Lemma parse_rows_without_key (key : string) (rows : list AttributeRow) :
  forall acc acc' d d',
    (forall k, String.eqb k key = false ->
               HealthcareMapAI.lookup k acc' = HealthcareMapAI.lookup k acc) ->
    parse_rows rows acc = Returned d ->
    parse_rows (filter (fun r => negb (String.eqb (attribute_key r) key)) rows) acc'
    = Returned d' ->
    forall k, String.eqb k key = false ->
              HealthcareMapAI.lookup k d' = HealthcareMapAI.lookup k d.
Proof.
  induction rows as [|r rows IH]; intros acc acc' d d' Ha H H'.
  - cbn in H, H'. injection H as <-. injection H' as <-. exact Ha.
  - cbn [parse_rows filter] in H, H'.
    destruct (_parse_attribute_value (attribute_value r) (attribute_type r))
      as [v|e] eqn:Ev; [|discriminate H]. cbn [bind] in H.
    destruct (String.eqb (attribute_key r) key) eqn:Ek; cbn [negb] in H'.
    + apply String.eqb_eq in Ek.
      eapply IH; [|exact H | exact H'].
      intros k Hk. rewrite Ek, lookup_attr_set_other by exact Hk. now apply Ha.
    + cbn [parse_rows] in H'. rewrite Ev in H'. cbn [bind] in H'.
      eapply IH; [|exact H | exact H'].
      intros k Hk.
      destruct (String.eqb k (attribute_key r)) eqn:E.
      * apply String.eqb_eq in E. subst k. now rewrite !lookup_attr_set.
      * rewrite !lookup_attr_set_other by exact E. now apply Ha.
Qed.

(** X5: an updated attribute reads back. After a call of
    [update_facility_attribute] that returned [True] with a value on which
    the codec is exact, every read of the facility that returns it has the
    value under the key, and every other key has what a read before the
    update had for it. *)
Theorem update_then_get
    (fid key : string) (value : PyVal) (w w2 : World) (f : Facility) :
  fst (update_facility_attribute fid key value w) = Returned true ->
  exact_value value ->
  persisted w2 = persisted (snd (update_facility_attribute fid key value w)) ->
  fst (get_facility fid w2) = Returned (Some f) ->
  HealthcareMapAI.lookup key (attributes f) = Some value
  /\ (forall w0 f0 k,
        persisted w0 = persisted w ->
        fst (get_facility fid w0) = Returned (Some f0) ->
        String.eqb k key = false ->
        HealthcareMapAI.lookup k (attributes f)
        = HealthcareMapAI.lookup k (attributes f0)).
Proof.
  intros Hr Hx Hp Hg.
  pose proof (attributes_after_update fid key value w Hr) as Ha.
  destruct (get_facility_cases fid w2) as (_ & [H | [H | H]]);
    [congruence | | destruct H as (? & _ & H); congruence].
  destruct H as (r & attrs & _ & Hparse & H). rewrite Hg in H.
  injection H as ->. cbn [attributes].
  unfold select_attributes in Hparse. rewrite Hp, Ha in Hparse.
  rewrite parse_rows_app in Hparse.
  destruct (parse_rows _ []) as [d|e] eqn:Ed; [|discriminate Hparse].
  cbn [bind parse_rows attribute_row attribute_value attribute_type
       attribute_key fst snd] in Hparse.
  rewrite (proj2 (stored_pair_decodes value Hx)) in Hparse.
  cbn [bind] in Hparse. injection Hparse as <-.
  split; [apply lookup_attr_set|].
  intros w0 f0 k Hp0 Hg0 Hk. rewrite lookup_attr_set_other by exact Hk.
  destruct (get_facility_cases fid w0) as (_ & [H | [H | H]]);
    [congruence | | destruct H as (? & _ & H); congruence].
  destruct H as (r0 & attrs0 & _ & Hparse0 & H). rewrite Hg0 in H.
  injection H as ->. cbn [attributes].
  unfold select_attributes in Hparse0. rewrite Hp0 in Hparse0.
  exact (parse_rows_without_key key _ [] [] _ _ (fun _ _ => eq_refl)
           Hparse0 Ed k Hk).
Qed.

End OneFacility.

Lemma writes_leave_other_facilities_witness :
  String.eqb "pharm_001" "hosp_001" = false
  /\ Schema.view "pharm_001"
       (Sqlite.persisted
          (snd (DatabaseManager.delete_facility "hosp_001" Sample.seeded)))
     = Schema.view "pharm_001" (Sqlite.persisted Sample.seeded).
Proof.
  split; [reflexivity|].
  exact (proj2 (proj2 (@writes_leave_other_facilities Sample.glibc
                         "hosp_001" "pharm_001" Sample.seeded eq_refl))).
Defined.

Lemma update_replaces_one_attribute_witness :
  let u :=
    @DatabaseManager.update_facility_attribute Sample.glibc
      "hosp_001" "bed_count" (PInt 300) Sample.seeded in
  fst u = Returned true
  /\ Sqlite.select_facility "hosp_001" (Sqlite.persisted (snd u))
     = option_map (fun f => Schema.touched f "2024-12-01 09:30:00")
         (Sqlite.select_facility "hosp_001" (Sqlite.persisted Sample.seeded)).
Proof.
  cbv zeta. split; [reflexivity|].
  exact (proj2 (proj2 (proj2 (@update_replaces_one_attribute Sample.glibc
                                "hosp_001" "bed_count" (PInt 300) Sample.seeded
                                eq_refl)))).
Defined.

Lemma update_then_get_witness :
  let u :=
    @DatabaseManager.update_facility_attribute Sample.glibc
      "hosp_001" "bed_count" (PInt 300) Sample.seeded in
  exists f,
    fst (@DatabaseManager.get_facility Sample.glibc "hosp_001" (snd u))
    = Returned (Some f)
    /\ HealthcareMapAI.lookup "bed_count" (DatabaseManager.attributes f)
       = Some (PInt 300).
Proof.
  cbv zeta. eexists. split; [vm_compute; reflexivity|].
  refine (proj1 (@update_then_get Sample.glibc "hosp_001" "bed_count" (PInt 300)
                   Sample.seeded _ _ eq_refl I eq_refl _)).
  vm_compute. reflexivity.
Defined.

(* ================================================================== *)
(** * Deleting, and the methods that only read *)
(* ================================================================== *)

Section DeleteAndRead.
Context {rt : Platform}.
Import Sqlite Spec DatabaseManager Schema.

Lemma select_facility_removed (fid : string) (db : Database) :
  select_facility fid (remove_facility false fid db) = None
  /\ existsb (String.eqb fid) (select_ids (remove_facility false fid db)) = false.
Proof.
  unfold select_facility, select_ids, remove_facility. cbn [facilities].
  induction (facilities db) as [|f l IH]; [split; reflexivity|].
  cbn [filter]. destruct (String.eqb (fac_id f) fid) eqn:E; cbn [negb];
    [exact IH|].
  cbn [find map existsb]. rewrite E, (String.eqb_sym fid (fac_id f)), E.
  exact IH.
Qed.

(** What [get_all_facility_ids] can answer; it writes nothing. *)
Lemma get_all_facility_ids_cases (w : World) :
  persisted (snd (get_all_facility_ids w)) = persisted w
  /\ (fst (get_all_facility_ids w) = Returned (select_ids (persisted w))
      \/ fst (get_all_facility_ids w) = Returned []).
Proof.
  unfold get_all_facility_ids, try_except, get_connection, connect, query, ret.
  pop_storage w w1 K1; [split; [exact K1 | right; reflexivity]|].
  pop_storage w1 w2 K2; [split; [congruence | right; reflexivity]|].
  pop_storage w2 w3 K3; [split; [congruence | right; reflexivity]|].
  unfold with_persisted. cbn [persisted]. split; [congruence|].
  left. now rewrite K1.
Qed.

(** X6: a deleted facility is gone for every reader. After a call of
    [delete_facility] that returned [True], [get_facility] returns [None]
    for the id and [get_all_facility_ids] does not list it, whatever rows of
    the id the store held. *)
Theorem delete_then_get (fid : string) (w w2 : World) :
  fst (delete_facility fid w) = Returned true ->
  persisted w2 = persisted (snd (delete_facility fid w)) ->
  fst (get_facility fid w2) = Returned None
  /\ exists ids,
       fst (get_all_facility_ids w2) = Returned ids
       /\ existsb (String.eqb fid) ids = false.
Proof.
  intros Hr Hp.
  destruct (delete_facility_outcome fid w) as [[_ H] | [H _]]; [|congruence].
  rewrite H in Hp.
  destruct (select_facility_removed fid (persisted w)) as [H1 H2]. split.
  - apply get_facility_absent. now rewrite Hp.
  - destruct (get_all_facility_ids_cases w2) as (_ & [E | E]).
    + exists (select_ids (persisted w2)). split; [exact E|]. now rewrite Hp.
    + exists []. now split.
Qed.

(** X7: [delete_facility] does not tell whether there was anything to
    delete. For an id the store does not hold, and with no storage fault,
    the call returns [True] and leaves the world as it was. *)
Theorem delete_absent_reports_success (fid : string) (w : World) :
  has_facility fid (persisted w) = false ->
  faults w = [] ->
  delete_facility fid w = (Returned true, w).
Proof.
  intros Ha Hf.
  assert (remove_facility false fid (persisted w) = persisted w) as Hrm.
  { unfold remove_facility, has_facility in *.
    destruct (persisted w) as [fs ss ats].
    cbn [facilities facility_services facility_attributes] in *. f_equal.
    induction fs as [|f fs IH]; [reflexivity|].
    cbn [existsb] in Ha. apply orb_false_elim in Ha as [H1 H2].
    cbn [filter]. rewrite H1. cbn [negb]. now rewrite IH. }
  unfold delete_facility, try_except, get_connection, connect, mbind, execute,
    delete_facility_row, ret.
  rewrite (pop_fault_none w Hf). cbn [world work foreign_keys].
  rewrite (pop_fault_none w Hf). cbn [world work foreign_keys].
  rewrite (pop_fault_none w Hf). rewrite Hrm. now rewrite with_persisted_same.
Qed.

Lemma collect_keeps (rows : list FacilityRow)
    (latitude longitude max_distance_miles : option float) :
  forall acc c o c',
    collect rows latitude longitude max_distance_miles acc c = (o, c') ->
    persisted (world c') = persisted (world c) /\ work c' = work c.
Proof.
  induction rows as [|r rows IH]; intros acc c o c' H.
  - cbn in H. injection H as _ <-. split; reflexivity.
  - cbn [collect] in H. unfold mbind, nested in H.
    pose proof (get_facility_cases (fac_id r) (world c)) as (Hk & _).
    destruct (get_facility (fac_id r) (world c)) as [[[f|]|e] w'];
      cbn [snd] in Hk.
    + destruct (reference_point latitude longitude) as [[lat lon]|].
      * unfold lift at 1 in H.
        destruct (_calculate_distance lat lon _ _) as [d|e].
        -- destruct (truthy_float max_distance_miles) as [m|];
             [destruct (PrimFloat.ltb m d)|];
             apply IH in H as [H1 H2]; cbn [world work] in H1, H2;
             split; congruence.
        -- injection H as _ <-. split; [exact Hk | reflexivity].
      * apply IH in H as [H1 H2]. cbn [world work] in H1, H2. split; congruence.
    + apply IH in H as [H1 H2]. cbn [world work] in H1, H2. split; congruence.
    + injection H as _ <-. split; [exact Hk | reflexivity].
Qed.

Lemma search_facilities_keeps
    (ftype service : option string) (min_rating : option float)
    (attribute_filters : option (list (string * string)))
    (latitude longitude max_distance_miles : option float) (w : World) :
  persisted
    (snd (search_facilities ftype service min_rating attribute_filters
            latitude longitude max_distance_miles w))
  = persisted w.
Proof.
  unfold search_facilities, try_except, get_connection, connect, mbind, query, ret.
  pop_storage w w1 K1; [exact K1|].
  pop_storage w1 w2 K2; [congruence|].
  match goal with
  | |- context [collect ?rows _ _ _ ?a ?c0] =>
      pose proof (collect_keeps rows latitude longitude max_distance_miles a c0)
        as Hc;
      destruct (collect rows latitude longitude max_distance_miles a c0)
        as [[fs|e] c']
  end; destruct (Hc _ _ eq_refl) as [H1 H2]; clear Hc;
    cbn [snd world work] in H1, H2.
  - assert (forall fs' : list Facility,
              persisted
                (snd (let (o, s') :=
                        match pop_fault (world c') with
                        | (true, w3) =>
                            (Raised (OperationalError "disk I/O error"), w3)
                        | (false, w3) =>
                            (Returned fs', with_persisted w3 (work c'))
                        end in
                      match o with
                      | Returned a => (Returned a, s')
                      | Raised e =>
                          if is_python_exception e
                          then (Returned [], s') else (Raised e, s')
                      end))
              = persisted w) as Hend.
    { intros fs'. pose proof (pop_fault_keeps (world c')) as (K3 & _).
      destruct (pop_fault (world c')) as [[|] w3]; cbn in *; congruence. }
    destruct (reference_point latitude longitude); apply Hend.
  - destruct (is_python_exception e); cbn [snd]; congruence.
Qed.

(** X8: the three reading methods write nothing. Whatever the arguments,
    the storage faults and the answer, the committed database after a call
    of [get_facility], [search_facilities] or [get_all_facility_ids] is the
    one before it. *)
Theorem reads_never_write (w : World) :
  (forall fid, persisted (snd (get_facility fid w)) = persisted w)
  /\ (forall ftype service min_rating attribute_filters
             latitude longitude max_distance_miles,
        persisted
          (snd (search_facilities ftype service min_rating attribute_filters
                  latitude longitude max_distance_miles w))
        = persisted w)
  /\ persisted (snd (get_all_facility_ids w)) = persisted w.
Proof.
  split; [|split].
  - intros fid. apply get_facility_cases.
  - intros. apply search_facilities_keeps.
  - apply get_all_facility_ids_cases.
Qed.

End DeleteAndRead.

Lemma delete_then_get_witness :
  let d := DatabaseManager.delete_facility "pharm_001" Sample.seeded in
  fst d = Returned true
  /\ fst (@DatabaseManager.get_facility Sample.glibc "pharm_001" (snd d))
     = Returned None.
Proof.
  cbv zeta. split; [reflexivity|].
  exact (proj1 (@delete_then_get Sample.glibc "pharm_001" Sample.seeded _
                  eq_refl eq_refl)).
Defined.

Lemma delete_absent_reports_success_witness :
  Sqlite.has_facility "ghost_404" (Sqlite.persisted Sample.seeded) = false
  /\ DatabaseManager.delete_facility "ghost_404" Sample.seeded
     = (Returned true, Sample.seeded).
Proof.
  split; [reflexivity|].
  apply delete_absent_reports_success; reflexivity.
Defined.

(* ================================================================== *)
(** * What [search_facilities] returns *)
(* ================================================================== *)

Section SearchResults.
Context {rt : Platform}.
Import Sqlite Spec DatabaseManager Schema.

(** Under the primary key, the row found for the id of a stored row is that
    row. *)
Lemma find_unique (l : list FacilityRow) (r : FacilityRow) :
  no_repeat same_id l = true ->
  In r l ->
  find (fun f => String.eqb (fac_id f) (fac_id r)) l = Some r.
Proof.
  induction l as [|a l IH]; intros Hn Hin; [destruct Hin|].
  cbn [no_repeat] in Hn. apply andb_prop in Hn as [Ha Hn].
  apply negb_true_iff in Ha. cbn [find].
  destruct Hin as [-> | Hin]; [now rewrite String.eqb_refl|].
  destruct (String.eqb (fac_id a) (fac_id r)) eqn:E; [|now apply IH].
  exfalso. assert (existsb (same_id a) l = true) as K.
  { apply existsb_exists. exists r. split; [exact Hin | exact E]. }
  congruence.
Qed.

Lemma read_of_with_distance (db : Database) (f : Facility) (d : float) :
  read_of db f -> read_of db (with_distance f d).
Proof. exact (fun H => H). Qed.



Lemma parse_rows_decodes (rows : list AttributeRow) :
  forall acc,
    Forall decodes rows -> exists attrs, parse_rows rows acc = Returned attrs.
Proof.
  induction rows as [|r rows IH]; intros acc H; [now exists acc|].
  inversion H as [|? ? [v Hv] Hr]; subst. cbn [parse_rows]. rewrite Hv.
  cbn [bind]. now apply IH.
Qed.




(** ** The [LIKE] patterns of the search *)







End SearchResults.





(* ================================================================== *)
(** * The handlers behind [_execute_function] *)
(* ================================================================== *)

Section Handlers.
Context {rt : Platform}.
Import Sqlite Spec DatabaseManager HealthcareMapAI Schema MapQueries.

Lemma check_keywords_unexpected (fname : string) (params : list string)
    (arguments : list (string * PyVal)) (key : string) (value : PyVal) :
  In (key, value) arguments ->
  existsb (String.eqb key) params = false ->
  exists msg, check_keywords fname params arguments = Raised (TypeError msg).
Proof.
  intros Hin Hk. unfold check_keywords.
  destruct (find _ arguments) as [[k v]|] eqn:E; [eexists; reflexivity|].
  pose proof (find_none _ _ E _ Hin) as H. cbn [fst] in H.
  now rewrite Hk in H.
Qed.

(** X12: a keyword that names no parameter of a registered handler makes
    [_execute_function] raise a [TypeError], whatever else the arguments
    hold; nothing is read or written. *)
Theorem unexpected_keyword_raises
    (function_name : string) (arguments : list (string * PyVal))
    (key : string) (value : PyVal) (w : World) :
  existsb (String.eqb function_name) registry = true ->
  In (key, value) arguments ->
  existsb (String.eqb key) (parameters_of function_name) = false ->
  exists msg,
    _execute_function function_name arguments w = (Raised (TypeError msg), w).
Proof.
  unfold registry, parameters_of, _execute_function. cbn [existsb].
  intros Hreg Hin Hk.
  destruct (String.eqb function_name "find_healthcare_facilities");
    [destruct (check_keywords_unexpected "find_healthcare_facilities" _ _ _ _
                 Hin Hk) as [msg E];
     unfold mbind, lift; rewrite E; now exists msg|].
  destruct (String.eqb function_name "get_facility_details");
    [destruct (check_keywords_unexpected "get_facility_details" _ _ _ _
                 Hin Hk) as [msg E];
     unfold mbind, lift; rewrite E; now exists msg|].
  destruct (String.eqb function_name "search_facilities_by_service");
    [destruct (check_keywords_unexpected "search_facilities_by_service" _ _ _ _
                 Hin Hk) as [msg E];
     unfold mbind, lift; rewrite E; now exists msg|].
  destruct (String.eqb function_name "get_patient_health_data");
    [destruct (check_keywords_unexpected "get_patient_health_data" _ _ _ _
                 Hin Hk) as [msg E];
     unfold mbind, lift; rewrite E; now exists msg|].
  destruct (String.eqb function_name "schedule_appointment");
    [destruct (check_keywords_unexpected "schedule_appointment" _ _ _ _
                 Hin Hk) as [msg E];
     unfold mbind, lift; rewrite E; now exists msg|].
  discriminate Hreg.
Qed.

(** X13: whenever [get_facility] answers [None] for an id (the id is not
    stored, the storage failed, or an attribute did not decode), both
    [get_facility_details] and [schedule_appointment] answer with the payload
    [{"error": "Facility <id> not found"}], and nothing is written. *)
Theorem unreadable_facility_is_not_found (fid : string) (w : World) :
  fst (get_facility fid w) = Returned None ->
  (fst (get_facility_details (PStr fid) w)
   = Returned (error_payload ("Facility " ++ fid ++ " not found"))
   /\ persisted (snd (get_facility_details (PStr fid) w)) = persisted w)
  /\ (forall service_type date patient_id,
        fst (schedule_appointment (PStr fid) service_type date patient_id w)
        = Returned (error_payload ("Facility " ++ fid ++ " not found"))
        /\ persisted
             (snd (schedule_appointment (PStr fid) service_type date patient_id w))
           = persisted w).
Proof.
  intros Hg. pose proof (get_facility_cases fid w) as (Hk & _).
  unfold get_facility_details, schedule_appointment, mbind, lift, as_str.
  destruct (get_facility fid w) as [o w']. cbn [fst snd] in Hg, Hk. subst o.
  split; [|intros ? ? ?]; split; try reflexivity; exact Hk.
Qed.

(** X14: [find_healthcare_facilities] only echoes [location] and [radius]:
    for any two locations and any two radii, the two calls leave the same
    world, and either both raise the same exception or both return a
    payload with the same [facilities_found] and the same [facilities], the
    count being the length of the list. *)
Theorem find_ignores_location_and_radius
    (location location' radius radius' facility_type service : PyVal) (w : World) :
  snd (find_healthcare_facilities location facility_type service radius w)
  = snd (find_healthcare_facilities location' facility_type service radius' w)
  /\ match fst (find_healthcare_facilities location facility_type service radius w),
           fst (find_healthcare_facilities location' facility_type service
                  radius' w) with
     | Returned p, Returned p' =>
         exists results,
           p = PDict [ (PStr "location", location);
                       (PStr "radius_miles", radius);
                       (PStr "facilities_found",
                          PInt (Z.of_nat (List.length results)));
                       (PStr "facilities", PList results) ]
           /\ p' = PDict [ (PStr "location", location');
                           (PStr "radius_miles", radius');
                           (PStr "facilities_found",
                              PInt (Z.of_nat (List.length results)));
                           (PStr "facilities", PList results) ]
     | Raised e, Raised e' => e = e'
     | _, _ => False
     end.
Proof.
  unfold find_healthcare_facilities, mbind, lift.
  destruct (as_optional_str facility_type) as [ft|e]; [|split; reflexivity].
  destruct (as_optional_str service) as [svc|e]; [|split; reflexivity].
  destruct (search_facilities ft svc None None None None None w) as [[fs|e] w'];
    [|split; reflexivity].
  split; [reflexivity|]. cbn [fst ret].
  exists (map (fun f => PDict (summary f)) fs). split; reflexivity.
Qed.

End Handlers.

Lemma unexpected_keyword_raises_witness :
  exists msg,
    @HealthcareMapAI._execute_function Sample.glibc "get_facility_details"
      [("facility_id", PStr "hosp_001"); ("condition", PStr "cardiac")]
      Sample.seeded
    = (Raised (TypeError msg), Sample.seeded).
Proof.
  apply (@unexpected_keyword_raises Sample.glibc "get_facility_details"
           [("facility_id", PStr "hosp_001"); ("condition", PStr "cardiac")]
           "condition" (PStr "cardiac")).
  - reflexivity.
  - right. left. reflexivity.
  - reflexivity.
Defined.

Lemma unreadable_facility_is_not_found_witness :
  fst (@HealthcareMapAI.get_facility_details Sample.glibc (PStr "ghost_404")
         Sample.seeded)
  = Returned (HealthcareMapAI.error_payload "Facility ghost_404 not found")
  /\ fst (@HealthcareMapAI.get_facility_details Sample.glibc (PStr "pharm_001")
            Sample.corrupted)
     = Returned (HealthcareMapAI.error_payload "Facility pharm_001 not found").
Proof.
  split.
  - exact (proj1 (proj1 (@unreadable_facility_is_not_found Sample.glibc
                           "ghost_404" Sample.seeded eq_refl))).
  - exact (proj1 (proj1 (@unreadable_facility_is_not_found Sample.glibc
                           "pharm_001" Sample.corrupted eq_refl))).
Defined.

(* ================================================================== *)
(** * [schedule_appointment] *)
(* ================================================================== *)

Section Appointments.
Context {rt : Platform}.
Import Sqlite Spec DatabaseManager HealthcareMapAI Schema MapQueries.

Lemma parse_rows_returns (rows : list AttributeRow) :
  forall acc attrs,
    parse_rows rows acc = Returned attrs -> Forall decodes rows.
Proof.
  induction rows as [|r rows IH]; intros acc attrs H; [constructor|].
  cbn [parse_rows] in H.
  destruct (_parse_attribute_value (attribute_value r) (attribute_type r))
    as [v|e] eqn:E; [|discriminate H].
  cbn [bind] in H. constructor; [now exists v | eapply IH; exact H].
Qed.

Lemma Forall_filter {A} (P : A -> Prop) (p : A -> bool) (l : list A) :
  Forall P l -> Forall P (filter p l).
Proof.
  induction 1 as [|a l Ha Hl IH]; [constructor|].
  cbn [filter]. destruct (p a); [constructor|]; assumption.
Qed.

(** [update_facility_attribute] with no storage fault to come. *)
Lemma update_facility_attribute_no_fault
    (fid key : string) (value : PyVal) (s : string) (w : World) :
  faults w = [] ->
  value_text value = Returned s ->
  fst (update_facility_attribute fid key value w) = Returned true
  /\ faults (snd (update_facility_attribute fid key value w)) = [].
Proof.
  intros Hf Hs.
  unfold update_facility_attribute, try_except, get_connection, connect, mbind,
    lift, execute, ret, insert_or_replace_attribute, touch_facility.
  rewrite (pop_fault_none w Hf). cbn [world work foreign_keys andb]. rewrite Hs.
  rewrite (pop_fault_none w Hf). cbn [world work foreign_keys andb].
  rewrite (pop_fault_none w Hf). cbn [world work foreign_keys andb].
  rewrite (pop_fault_none w Hf). cbn [fst snd with_persisted faults].
  split; [reflexivity | exact Hf].
Qed.

(** The appointments after the new one is appended, as the handler
    computes them from the facility it read. *)
Lemma appended_appointments (attrs : list (string * PyVal)) (old : list PyVal)
    (record : PyVal) :
  (lookup "appointments" attrs = None /\ old = [])
  \/ lookup "appointments" attrs = Some (PList old) ->
  match lookup "appointments" attrs with
  | None => Returned [record]
  | Some (PList l) => Returned (l ++ [record])%list
  | Some _ => Raised (AttributeError "object has no attribute 'append'")
  end = Returned (old ++ [record])%list.
Proof. intros [[-> ->] | ->]; reflexivity. Qed.

(** X15: a scheduled appointment is stored and read back. With no storage
    fault, for a facility that [get_facility] reads and whose [appointments]
    attribute is missing or a list of plain JSON values, and with plain JSON
    arguments, [schedule_appointment] answers with the success payload
    carrying the id [apt_<clock>], and a following [get_facility] returns
    the facility with the former appointments followed by the new record
    under [appointments]. *)
Theorem schedule_then_get
    (fid : string) (service_type date patient_id : PyVal) (w : World)
    (f : Facility) (old : list PyVal) :
  let r := schedule_appointment (PStr fid) service_type date patient_id w in
  faults w = [] ->
  fst (get_facility fid w) = Returned (Some f) ->
  (lookup "appointments" (attributes f) = None /\ old = [])
  \/ lookup "appointments" (attributes f) = Some (PList old) ->
  Json.plain (PList old) = true ->
  Json.plain service_type = true ->
  Json.plain date = true ->
  Json.plain patient_id = true ->
  fst r = Returned (appointment_answer (now_compact w) (fac_name (row f))
                      (PStr fid) service_type date patient_id)
  /\ exists f',
       fst (get_facility fid (snd r)) = Returned (Some f')
       /\ lookup "appointments" (attributes f')
          = Some (PList (old ++ [appointment_record (now_compact w) service_type
                                   date patient_id])).
Proof.
  cbv zeta. intros Hf Hg Hold Hpo Hps Hpd Hpp.
  destruct (get_facility_cases fid w) as (_ & [H | [H | H]]);
    [congruence | | destruct H as (? & _ & H); congruence].
  destruct H as (r0 & attrs & Hsel & Hparse & H). rewrite Hg in H.
  injection H as ->. cbn [attributes row] in *.
  pose proof (get_facility_reads fid w r0 attrs Hf Hsel Hparse) as Hread.
  set (record := appointment_record (now_compact w) service_type date patient_id).
  assert (exact_value (PList (old ++ [record]))) as Hx.
  { cbn [exact_value Json.plain] in Hpo |- *. rewrite forallb_app, Hpo.
    unfold record, appointment_record. cbn. now rewrite Hps, Hpd, Hpp. }
  destruct (stored_pair_decodes _ Hx) as [Hvt Hdec].
  destruct (update_facility_attribute_no_fault fid "appointments"
              (PList (old ++ [record])) _ w Hf Hvt) as [Hu Hfu].
  pose proof (update_facility_attribute_writes fid "appointments" _ w Hu) as Hw.
  pose proof (attributes_after_update fid "appointments" _ w Hu) as Ha.
  unfold schedule_appointment, mbind, lift, as_str, read_clock.
  rewrite Hread. cbn [attributes row].
  subst record. unfold appointment_record in *.
  rewrite (appended_appointments attrs old _ Hold).
  match goal with
  | |- context [update_facility_attribute fid "appointments" ?v w] =>
      destruct (update_facility_attribute fid "appointments" v w)
        as [o w'] eqn:Eu
  end.
  cbn [fst snd] in Hu, Hfu, Hw, Ha. subst o. cbn [ret fst snd].
  split; [reflexivity|].
  destruct (parse_rows_decodes
              (filter (fun a => negb (String.eqb (attribute_key a) "appointments"))
                      (attributes_of fid (persisted w))) [])
    as [d Hd].
  { apply Forall_filter. exact (parse_rows_returns _ _ _ Hparse). }
  eexists. split.
  - erewrite (get_facility_reads fid w' (touched r0 (now w)) _ Hfu).
    + reflexivity.
    + rewrite Hw. unfold select_facility. cbn [facilities].
      rewrite find_touch. unfold select_facility in Hsel. rewrite Hsel.
      cbn [option_map]. apply find_some in Hsel as [_ E]. now rewrite E.
    + unfold select_attributes. rewrite Ha, parse_rows_app, Hd.
      cbn [bind parse_rows attribute_row attribute_value attribute_type
           attribute_key fst snd].
      rewrite Hdec. reflexivity.
  - cbn [attributes]. apply lookup_attr_set.
Qed.

(** X16: an appointment can be confirmed without being stored. When the
    read of the facility goes through and the storage fails as
    [update_facility_attribute] connects, the handler still answers with the
    success payload and its appointment id, and the committed database is
    what it was: the result of the update is not looked at. *)
Theorem appointment_confirmed_though_not_stored
    (fid : string) (service_type date patient_id : PyVal) (w : World)
    (r0 : FacilityRow) (attrs : list (string * PyVal)) (later : list bool) :
  let r := schedule_appointment (PStr fid) service_type date patient_id w in
  faults w = ([false; false; false; false; false; true] ++ later)%list ->
  select_facility fid (persisted w) = Some r0 ->
  parse_rows (select_attributes fid (persisted w)) [] = Returned attrs ->
  (lookup "appointments" attrs = None
   \/ exists l, lookup "appointments" attrs = Some (PList l)) ->
  fst r = Returned (appointment_answer (now_compact w) (fac_name r0)
                      (PStr fid) service_type date patient_id)
  /\ persisted (snd r) = persisted w.
Proof.
  cbv zeta. intros Hf Hsel Hparse Hold.
  destruct w as [db fs n nc]. cbn [faults persisted now_compact] in *. subst fs.
  unfold schedule_appointment, mbind, lift, as_str, read_clock.
  unfold get_facility, try_except, get_connection, connect, mbind, query, lift,
    ret, pop_fault.
  cbn [faults persisted now now_compact world work foreign_keys app].
  rewrite Hsel.
  cbn [faults persisted now now_compact world work foreign_keys app].
  rewrite Hparse.
  cbn [faults persisted now now_compact world work foreign_keys app
       with_persisted attributes row].
  assert (exists apps,
            match lookup "appointments" attrs with
            | None =>
                Returned [PDict [ (PStr "appointment_id", PStr ("apt_" ++ nc));
                                  (PStr "service_type", service_type);
                                  (PStr "date", date);
                                  (PStr "patient_id", patient_id);
                                  (PStr "status", PStr "scheduled") ]]
            | Some (PList l) =>
                Returned (l ++ [PDict [ (PStr "appointment_id", PStr ("apt_" ++ nc));
                                        (PStr "service_type", service_type);
                                        (PStr "date", date);
                                        (PStr "patient_id", patient_id);
                                        (PStr "status", PStr "scheduled") ]])%list
            | Some _ => Raised (AttributeError "object has no attribute 'append'")
            end = Returned apps) as [apps ->].
  { destruct Hold as [-> | [l ->]]; eexists; reflexivity. }
  unfold update_facility_attribute, try_except, get_connection, connect, pop_fault.
  cbn [faults persisted now now_compact world work foreign_keys
       is_python_exception fst snd ret].
  split; reflexivity.
Qed.

End Appointments.

Lemma schedule_then_get_witness :
  let r :=
    @HealthcareMapAI.schedule_appointment Sample.glibc (PStr "hosp_001")
      (PStr "cardiology") (PStr "2024-12-15") PNone Sample.seeded in
  exists f',
    fst (@DatabaseManager.get_facility Sample.glibc "hosp_001" (snd r))
    = Returned (Some f')
    /\ HealthcareMapAI.lookup "appointments" (DatabaseManager.attributes f')
       = Some (PList [MapQueries.appointment_record "20241201093000"
                        (PStr "cardiology") (PStr "2024-12-15") PNone]).
Proof.
  cbv zeta.
  destruct (@DatabaseManager.get_facility Sample.glibc "hosp_001" Sample.seeded)
    as [[[f|]|e] w'] eqn:E; try (vm_compute in E; discriminate E).
  refine (proj2 (@schedule_then_get Sample.glibc "hosp_001"
                   (PStr "cardiology") (PStr "2024-12-15") PNone Sample.seeded
                   f [] eq_refl _ _ eq_refl eq_refl eq_refl eq_refl)).
  - now rewrite E.
  - left. split; [|reflexivity]. vm_compute in E. injection E as <- _.
    reflexivity.
Defined.

Lemma appointment_confirmed_though_not_stored_witness :
  let w :=
    {| Sqlite.persisted := Sqlite.persisted Sample.seeded;
       Sqlite.faults := [false; false; false; false; false; true];
       Sqlite.now := "2024-12-01 09:30:00";
       Sqlite.now_compact := "20241201093000" |} in
  let r :=
    @HealthcareMapAI.schedule_appointment Sample.glibc (PStr "hosp_001")
      (PStr "cardiology") (PStr "2024-12-15") PNone w in
  fst r = Returned (MapQueries.appointment_answer "20241201093000"
                      "City General Hospital" (PStr "hosp_001")
                      (PStr "cardiology") (PStr "2024-12-15") PNone)
  /\ Sqlite.persisted (snd r) = Sqlite.persisted Sample.seeded.
Proof.
  cbv zeta.
  destruct (Sqlite.select_facility "hosp_001" (Sqlite.persisted Sample.seeded))
    as [r0|] eqn:Es; [|vm_compute in Es; discriminate Es].
  destruct (@DatabaseManager.parse_rows Sample.glibc
              (Sqlite.select_attributes "hosp_001" (Sqlite.persisted Sample.seeded))
              []) as [attrs|e] eqn:Ep; [|vm_compute in Ep; discriminate Ep].
  assert (Sqlite.fac_name r0 = "City General Hospital") as Hn.
  { vm_compute in Es. injection Es as <-. reflexivity. }
  rewrite <- Hn.
  refine (@appointment_confirmed_though_not_stored Sample.glibc "hosp_001"
            (PStr "cardiology") (PStr "2024-12-15") PNone
            {| Sqlite.persisted := Sqlite.persisted Sample.seeded;
               Sqlite.faults := [false; false; false; false; false; true];
               Sqlite.now := "2024-12-01 09:30:00";
               Sqlite.now_compact := "20241201093000" |}
            r0 attrs [] eq_refl Es Ep _).
  left. vm_compute in Ep. injection Ep as <-. reflexivity.
Defined.

(* ================================================================== *)
(** * The map, the attribute search and the sample data *)
(* ================================================================== *)

Section MapAndSearch.
Context {rt : Platform}.
Import Sqlite Spec DatabaseManager HealthcareMapAI Schema MapQueries.







(** The first sample facility is rejected as its keywords are bound:
    [id] names no parameter of [DatabaseManager.add_facility]. *)
Lemma sample_call_raises (w : World) :
  for_each sample_facilities
    (fun facility_data =>
       let '(attributes, facility_data) := dict_pop "attributes" facility_data in
       call_add_facility (("attributes", attributes) :: facility_data) ;;;
       ret tt) w
  = (Raised (TypeError
       "DatabaseManager.add_facility() got an unexpected keyword argument 'id'"),
     w).
Proof. reflexivity. Qed.

(** X19: [_initialize_sample_data] stores nothing. If
    [get_all_facility_ids] lists a facility the method returns at once;
    if it answers with the empty list (the store is empty, or the storage
    failed), the first call of [add_facility] raises a [TypeError] before
    the method body runs, because the sample dicts carry the key [id] where
    the method has the parameter [facility_id], and the exception leaves
    the method. In both cases the committed database is what it was. *)
Theorem sample_data_is_never_stored (w : World) :
  persisted (snd (_initialize_sample_data w)) = persisted w
  /\ match fst (get_all_facility_ids w) with
     | Returned [] =>
         fst (_initialize_sample_data w)
         = Raised (TypeError
             "DatabaseManager.add_facility() got an unexpected keyword argument 'id'")
     | _ => fst (_initialize_sample_data w) = Returned tt
     end.
Proof.
  unfold _initialize_sample_data, mbind.
  pose proof (get_all_facility_ids_cases w) as (Hk & Hcases).
  destruct (get_all_facility_ids w) as [[[|i ids]|e] w1]; cbn [fst snd] in *.
  - rewrite sample_call_raises. now split.
  - now split.
  - destruct Hcases as [H | H]; discriminate H.
Qed.

End MapAndSearch.



(* ================================================================== *)
(** * [process_natural_language_query] *)
(* ================================================================== *)

Section NaturalLanguage.
Context {rt : Platform}.
Import Sqlite Spec DatabaseManager HealthcareMapAI Schema MapQueries.

Lemma render_dict_truthy (d : list (PyVal * PyVal)) :
  truthy (PStr (Json.render (PDict d))) = true.
Proof. reflexivity. Qed.

Lemma truthy_items (kv : PyVal * PyVal) (d : list (PyVal * PyVal)) :
  truthy (PDict (kv :: d)) = true.
Proof. reflexivity. Qed.

Lemma parse_arguments_rendered (d : list (PyVal * PyVal)) :
  Json.plain (PDict d) = true ->
  parse_arguments (PStr (Json.render (PDict d))) = Returned (PDict d).
Proof.
  intros Hp. pose proof (loads_dumps _ Hp) as L. unfold Json.dumps in L.
  destruct (Json.serializable (PDict d)); [|discriminate L].
  cbn [bind] in L. unfold parse_arguments. now rewrite L.
Qed.

(** X20: arguments that arrive as JSON text are dispatched like the mapping
    they denote. For a function call with a name and, under [arguments],
    the JSON text of a dict of plain values with string keys, the method
    does exactly what it does for the call that carries the dict itself:
    the same result or exception, the same echoed arguments, the same
    world. *)
Theorem text_arguments_as_mapping
    (name : PyVal) (d : list (PyVal * PyVal)) (timestamp user_query : string)
    (w : World) :
  Json.plain (PDict d) = true ->
  process_natural_language_query
    (PDict [ (PStr "name", name);
             (PStr "arguments", PStr (Json.render (PDict d))) ])
    timestamp user_query w
  = process_natural_language_query
      (PDict [(PStr "name", name); (PStr "arguments", PDict d)])
      timestamp user_query w.
Proof.
  intros Hp. unfold process_natural_language_query, mbind, lift, ret, dict_get.
  cbn [find fst py_eqb String.eqb Ascii.eqb Bool.eqb].
  rewrite !truthy_items, render_dict_truthy. cbn [negb].
  rewrite (parse_arguments_rendered _ Hp).
  destruct (truthy name), d as [|kv d']; try rewrite truthy_items;
    reflexivity.
Qed.


Lemma registered_name (name : string) :
  existsb (String.eqb name) registry = true ->
  name = "find_healthcare_facilities" \/ name = "get_facility_details"
  \/ name = "search_facilities_by_service" \/ name = "get_patient_health_data"
  \/ name = "schedule_appointment".
Proof.
  unfold registry. cbn [existsb]. intros H.
  repeat (apply orb_prop in H as [H | H];
          [apply String.eqb_eq in H; tauto|]).
  discriminate H.
Qed.

(** A registered handler called without any keyword misses a required
    argument. *)
Lemma call_without_arguments (name : string) (w : World) :
  existsb (String.eqb name) registry = true ->
  exists msg,
    call_execute_function (PStr name) (PDict []) w = (Raised (TypeError msg), w).
Proof.
  intros H. unfold call_execute_function. rewrite H.
  destruct (registered_name name H) as [-> | [-> | [-> | [-> | ->]]]];
    eexists; reflexivity.
Qed.

Lemma unregistered_name (name : string) (w : World) :
  existsb (String.eqb name) registry = false ->
  _execute_function name [] w
  = (Returned (error_payload ("Unknown function: " ++ name)), w).
Proof.
  unfold registry. cbn [existsb]. intros H.
  repeat (apply orb_false_elim in H as [?E H]).
  unfold _execute_function. now rewrite E, E0, E1, E2, E3.
Qed.

(** X21: argument text that is no JSON makes the query raise. For a
    registered function name and, under [arguments], a text [json.loads]
    rejects, the arguments become the empty dict, the handler is called
    without its required arguments, and the [TypeError] of that call leaves
    [process_natural_language_query]; no payload is returned and nothing
    is read or written. *)
Theorem malformed_arguments_raise
    (name s reason timestamp user_query : string) (w : World) :
  existsb (String.eqb name) registry = true ->
  Json.loads s = Raised (JSONDecodeError reason) ->
  exists msg,
    process_natural_language_query
      (PDict [(PStr "name", PStr name); (PStr "arguments", PStr s)])
      timestamp user_query w
    = (Raised (TypeError msg), w).
Proof.
  intros Hreg Hl.
  destruct (call_without_arguments name w Hreg) as [msg Hcall].
  exists msg.
  assert (truthy (PStr name) = true) as Hn.
  { destruct (registered_name name Hreg) as [-> | [-> | [-> | [-> | ->]]]];
      reflexivity. }
  unfold process_natural_language_query, mbind, lift, ret, dict_get.
  cbn [find fst py_eqb String.eqb Ascii.eqb Bool.eqb].
  rewrite truthy_items, Hn. cbn [negb].
  destruct (truthy (PStr s)).
  - unfold parse_arguments. rewrite Hl, Hcall. reflexivity.
  - cbn [parse_arguments]. rewrite Hcall. reflexivity.
Qed.

(** X22: a function name outside the registry is reported as a success.
    For a call with a non-empty name that is none of the five registered
    ones, the method returns a payload with [success] true whose [result]
    is the error payload of [_execute_function]; the arguments are echoed,
    never expanded, and nothing is read or written. *)
Theorem unknown_function_reported_as_success
    (name : string) (d : list (PyVal * PyVal)) (timestamp user_query : string)
    (w : World) :
  name <> "" ->
  existsb (String.eqb name) registry = false ->
  process_natural_language_query
    (PDict [(PStr "name", PStr name); (PStr "arguments", PDict d)])
    timestamp user_query w
  = (Returned
       (PDict [ (PStr "success", PBool true);
                (PStr "function_name", PStr name);
                (PStr "arguments", PDict d);
                (PStr "result", error_payload ("Unknown function: " ++ name));
                (PStr "query", PStr user_query);
                (PStr "timestamp", PStr timestamp) ]), w).
Proof.
  intros Hne Hreg.
  assert (truthy (PStr name) = true) as Hn.
  { destruct name; [now destruct Hne | reflexivity]. }
  unfold process_natural_language_query, mbind, lift, ret, dict_get.
  cbn [find fst py_eqb String.eqb Ascii.eqb Bool.eqb].
  rewrite truthy_items, Hn. cbn [negb].
  unfold call_execute_function. rewrite Hreg.
  destruct d as [|kv d']; [cbn [truthy] | rewrite truthy_items];
    cbn [parse_arguments]; rewrite (unregistered_name name w Hreg); reflexivity.
Qed.

End NaturalLanguage.

Lemma text_arguments_as_mapping_witness :
  let d := [(PStr "facility_id", PStr "hosp_001")] in
  @MapQueries.process_natural_language_query Sample.glibc
    (PDict [ (PStr "name", PStr "get_facility_details");
             (PStr "arguments", PStr (@Json.render Sample.glibc (PDict d))) ])
    "2024-12-01T09:30:00.000000" "details of hosp_001" Sample.seeded
  = @MapQueries.process_natural_language_query Sample.glibc
      (PDict [ (PStr "name", PStr "get_facility_details");
               (PStr "arguments", PDict d) ])
      "2024-12-01T09:30:00.000000" "details of hosp_001" Sample.seeded.
Proof.
  cbv zeta. apply (@text_arguments_as_mapping Sample.glibc). reflexivity.
Defined.

Lemma malformed_arguments_raise_witness :
  exists msg,
    @MapQueries.process_natural_language_query Sample.glibc
      (PDict [ (PStr "name", PStr "schedule_appointment");
               (PStr "arguments", PStr "{facility_id: hosp_001}") ])
      "2024-12-01T09:30:00.000000" "book hosp_001" Sample.seeded
    = (Raised (TypeError msg), Sample.seeded).
Proof.
  apply (@malformed_arguments_raise Sample.glibc "schedule_appointment"
           "{facility_id: hosp_001}"
           "Expecting property name enclosed in double quotes").
  - reflexivity.
  - reflexivity.
Defined.

Lemma unknown_function_reported_as_success_witness :
  fst (@MapQueries.process_natural_language_query Sample.glibc
         (PDict [ (PStr "name", PStr "find_doctor");
                  (PStr "arguments", PDict [(PStr "specialty", PStr "cardiology")]) ])
         "2024-12-01T09:30:00.000000" "find a cardiologist" Sample.seeded)
  = Returned
      (PDict [ (PStr "success", PBool true);
               (PStr "function_name", PStr "find_doctor");
               (PStr "arguments", PDict [(PStr "specialty", PStr "cardiology")]);
               (PStr "result",
                  HealthcareMapAI.error_payload "Unknown function: find_doctor");
               (PStr "query", PStr "find a cardiologist");
               (PStr "timestamp", PStr "2024-12-01T09:30:00.000000") ]).
Proof.
  rewrite (@unknown_function_reported_as_success Sample.glibc "find_doctor");
    [reflexivity | discriminate | reflexivity].
Defined.

(* ================================================================== *)
(** * The order of the results, the radius, and writes that succeed *)
(* ================================================================== *)

Section Order.
Context {rt : Platform}.
Import Sqlite Spec DatabaseManager Schema Nearest.










End Order.




(* ================================================================== *)
(** * A distance that cannot be computed *)
(* ================================================================== *)

Section BadDistance.
Context {rt : Platform}.
Import Sqlite Spec DatabaseManager Schema.

Lemma math_1_raises (f : float -> float) (x : float) (e : Exn) :
  math_1 f x = Raised e -> is_python_exception e = true.
Proof.
  unfold math_1.
  destruct (PrimFloat.is_nan (f x) && negb (PrimFloat.is_nan x));
    [intros [= <-]; reflexivity|].
  destruct (PrimFloat.is_infinity (f x) && PrimFloat.is_finite x);
    [intros [= <-]; reflexivity | discriminate].
Qed.

Lemma float_pow_raises (x y : float) (e : Exn) :
  float_pow x y = Raised e -> is_python_exception e = true.
Proof.
  unfold float_pow.
  destruct (PrimFloat.is_infinity (c_pow x y) && PrimFloat.is_finite x);
    [intros [= <-]; reflexivity | discriminate].
Qed.

Ltac bind_raises :=
  repeat match goal with
    | |- bind ?m _ = Raised _ -> _ =>
        let E := fresh "E" in
        destruct m as [?|?] eqn:E; cbn [bind];
        [| intros [= <-];
           first [eapply math_1_raises; eassumption
                 | eapply float_pow_raises; eassumption
                 | eauto]]
    end.

Lemma haversine_a_raises (lat1 lon1 lat2 lon2 : float) (e : Exn) :
  haversine_a lat1 lon1 lat2 lon2 = Raised e -> is_python_exception e = true.
Proof.
  unfold haversine_a, math_sin, math_cos. cbv zeta. bind_raises. discriminate.
Qed.

Lemma calculate_distance_raises (lat1 lon1 lat2 lon2 : float) (e : Exn) :
  _calculate_distance lat1 lon1 lat2 lon2 = Raised e ->
  is_python_exception e = true.
Proof.
  pose proof (haversine_a_raises lat1 lon1 lat2 lon2) as Hh.
  unfold _calculate_distance, math_sqrt, math_asin. cbv zeta.
  bind_raises. discriminate.
Qed.

Lemma collect_bad_distance (db : Database) (rows : list FacilityRow)
    (latitude longitude max_distance_miles : option float) (lat lon : float)
    (bad : FacilityRow) (e : Exn) :
  no_repeat same_id (facilities db) = true ->
  Forall decodes (facility_attributes db) ->
  reference_point latitude longitude = Some (lat, lon) ->
  _calculate_distance lat lon (Sqlite.latitude bad) (Sqlite.longitude bad)
  = Raised e ->
  Forall (fun r => In r (facilities db)) rows ->
  In bad rows ->
  forall acc c,
    persisted (world c) = db -> faults (world c) = [] ->
    exists e',
      collect rows latitude longitude max_distance_miles acc c = (Raised e', c)
      /\ is_python_exception e' = true.
Proof.
  intros Hn Hd Hr Hbad. induction rows as [|r rows IH]; intros Hrows Hin acc c Hc Hf;
    [destruct Hin|].
  inversion Hrows as [|? ? Hr0 Hrest]; subst.
  destruct (parse_rows_decodes
              (select_attributes (fac_id r) (persisted (world c))) [])
    as [attrs Hp].
  { unfold select_attributes, attributes_of.
    apply Forall_forall. intros a Ha. apply filter_In in Ha as [Ha _].
    revert a Ha. now apply Forall_forall. }
  cbn [collect]. unfold mbind, nested.
  rewrite (get_facility_reads (fac_id r) (world c) r attrs Hf);
    [|now apply find_unique | exact Hp].
  rewrite Hr. cbn [row]. unfold lift at 1.
  assert ({| world := world c; work := work c; foreign_keys := foreign_keys c |}
          = c) as -> by now destruct c.
  destruct (_calculate_distance lat lon (Sqlite.latitude r) (Sqlite.longitude r))
    as [d|e0] eqn:Ed.
  - assert (In bad rows) as Hin'.
    { destruct Hin as [-> | Hin]; [congruence | exact Hin]. }
    destruct (truthy_float max_distance_miles) as [m|];
      [destruct (PrimFloat.ltb m d)|]; now apply IH.
  - exists e0. split; [reflexivity|]. eapply calculate_distance_raises; exact Ed.
Qed.

(** X26: one distance that cannot be computed empties the whole answer.
    With a reference point, no storage fault, a store that satisfies its
    primary key and decodes: if the distance to a single facility that
    passes the criteria raises (the domain error of a nearly antipodal
    point, for one), [search_facilities] returns the empty list, whatever
    the other facilities are. *)
Theorem bad_distance_empties_the_search
    (ftype service : option string) (min_rating : option float)
    (attribute_filters : option (list (string * string)))
    (latitude longitude max_distance_miles : option float) (w : World)
    (lat lon : float) (bad : FacilityRow) (e : Exn) :
  faults w = [] ->
  constraints_hold (persisted w) = true ->
  Forall decodes (facility_attributes (persisted w)) ->
  reference_point latitude longitude = Some (lat, lon) ->
  In bad (select_matching ftype service min_rating attribute_filters (persisted w)) ->
  _calculate_distance lat lon (Sqlite.latitude bad) (Sqlite.longitude bad)
  = Raised e ->
  fst (search_facilities ftype service min_rating attribute_filters
         latitude longitude max_distance_miles w) = Returned [].
Proof.
  intros Hf Hc Hd Hr Hin Hbad. unfold constraints_hold in Hc.
  apply andb_prop in Hc as [Hc _]. apply andb_prop in Hc as [Hn _].
  unfold search_facilities, try_except, get_connection, connect, mbind, query, ret.
  rewrite (pop_fault_none w Hf). cbn [world work foreign_keys].
  rewrite (pop_fault_none w Hf). cbn [world work foreign_keys].
  destruct (collect_bad_distance (persisted w)
              (select_matching ftype service min_rating attribute_filters
                 (persisted w))
              latitude longitude max_distance_miles lat lon bad e Hn Hd Hr Hbad)
    with (acc := @nil Facility)
         (c := {| world := w; work := persisted w; foreign_keys := false |})
    as (e' & H1 & H2); try reflexivity; try exact Hf; try exact Hin.
  { apply Forall_forall. intros r Hr0. unfold select_matching in Hr0.
    apply filter_In in Hr0. apply Hr0. }
  rewrite H1. cbn [world]. now rewrite H2.
Qed.

End BadDistance.

Lemma bad_distance_empties_the_search_witness :
  Sqlite.select_ids (Sqlite.persisted Northern.both)
  = ["clinic_north"; "clinic_south"]
  /\ fst (@DatabaseManager.search_facilities Sample.glibc None None None None
            (Some 58.362903%float) (Some 150.993442%float) None Northern.both)
     = Returned [].
Proof.
  split; [vm_compute; reflexivity|].
  refine (@bad_distance_empties_the_search Sample.glibc None None None None
            (Some 58.362903%float) (Some 150.993442%float) None Northern.both
            58.362903%float 150.993442%float
            (Schema.written_row "clinic_south" "Southern Clinic" "clinic"
               "2 Harbour Rd" (-58.362902)%float (-29.006557)%float None None
               "2024-12-01 09:30:00")
            (ValueError "math domain error") _ _ _ _ _ _).
  - vm_compute. reflexivity.
  - vm_compute. reflexivity.
  - let l := eval vm_compute in
               (Sqlite.facility_attributes (Sqlite.persisted Northern.both)) in
    change (Sqlite.facility_attributes (Sqlite.persisted Northern.both)) with l.
    constructor.
  - vm_compute. reflexivity.
  - vm_compute. right. left. reflexivity.
  - vm_compute. reflexivity.
Defined.

(* ================================================================== *)
(** * [json.loads] reaches a verdict on every text *)
(* ================================================================== *)

Section JsonTotal.
Context {rt : Platform}.
Import Json.
















End JsonTotal.

Section JsonAttributes.
Context {rt : Platform}.
Import DatabaseManager.


End JsonAttributes.
